(** * Hardware detection and upload: a shallow embedding

    The development follows the two scripts of the repository:
    [hardware_detector.py] (class [HardwareDetector] and [main]) and
    [supabase_uploader.py].

    Conventions of the embedding.
    - Python [str] is [string]; the text handled here is ASCII, so
      [lower], [strip] and [split] act on ASCII letters and blanks.
    - Python [int] is [Z].  A Python [float] is a binary64 value
      ([PyFloat.binary64]): a finite value, kept as the rational it
      denotes, an infinity or [nan].  Every operation on floats returns the
      exact result rounded to the nearest binary64 value
      ([PyFloat.round64]), and raises where Python raises
      ([OverflowError], [ZeroDivisionError]).  The power [x ** 0.5] and
      [round(x, n)], which the C library computes, belong to the platform
      interface.
    - A [dict] with string keys is a [gmap string _].
    - What lies outside the two scripts (the operating system, the [re]
      engine, the hosted database) is an interface the code is
      parameterised by. *)

From Stdlib Require Import ZArith QArith Qround Qabs Qpower String Ascii List Lia DecimalString.
From stdpp Require Import gmap strings list.

Set Default Proof Using "Type".
Local Open Scope string_scope.
Local Open Scope list_scope.

(** ** Python strings *)

Module PyStr.

Definition is_upper (c : ascii) : bool :=
  let n := nat_of_ascii c in (65 <=? n)%nat && (n <=? 90)%nat.

Definition lower_char (c : ascii) : ascii :=
  if is_upper c then ascii_of_nat (nat_of_ascii c + 32) else c.

(** [s.lower()] *)
Fixpoint lower (s : string) : string :=
  match s with
  | EmptyString => EmptyString
  | String c r => String (lower_char c) (lower r)
  end.

(** [s.startswith(p)] *)
Fixpoint starts_with (p s : string) : bool :=
  match p, s with
  | EmptyString, _ => true
  | String a p', String b s' => if Ascii.eqb a b then starts_with p' s' else false
  | String _ _, EmptyString => false
  end.

(** [needle in hay] *)
Fixpoint contains (needle hay : string) : bool :=
  starts_with needle hay ||
  match hay with
  | EmptyString => false
  | String _ r => contains needle r
  end.

(** [c.isspace()] on ASCII: blank, tab, line feed, vertical tab, form feed,
    carriage return and the four separators 28..31. *)
Definition is_space (c : ascii) : bool :=
  let n := nat_of_ascii c in
  (n =? 32)%nat || ((9 <=? n)%nat && (n <=? 13)%nat) || ((28 <=? n)%nat && (n <=? 31)%nat).

Fixpoint lstrip (s : string) : string :=
  match s with
  | String c r => if is_space c then lstrip r else s
  | EmptyString => EmptyString
  end.

Fixpoint rstrip (s : string) : string :=
  match s with
  | EmptyString => EmptyString
  | String c r =>
      match rstrip r with
      | EmptyString => if is_space c then EmptyString else String c EmptyString
      | r' => String c r'
      end
  end.

(** [s.strip()] *)
Definition strip (s : string) : string := rstrip (lstrip s).

(** [s.split(sep)] for a non-empty separator: the pieces between the
    successive occurrences of [sep], scanned from the left. *)
Fixpoint split_go (sep : string) (skip : nat) (cur : string) (s : string) : list string :=
  match s with
  | EmptyString => [cur]
  | String c r =>
      match skip with
      | S k => split_go sep k cur r
      | O =>
          if starts_with sep s
          then cur :: split_go sep (String.length sep - 1) EmptyString r
          else split_go sep O (cur ++ String c EmptyString) r
      end
  end.

Definition split (sep s : string) : list string := split_go sep 0 EmptyString s.

(** [s.split()]: the maximal runs of non-blank characters. *)
Fixpoint words_go (cur : string) (s : string) : list string :=
  match s with
  | EmptyString => if String.eqb cur EmptyString then [] else [cur]
  | String c r =>
      if is_space c
      then (if String.eqb cur EmptyString then words_go EmptyString r
            else cur :: words_go EmptyString r)
      else words_go (cur ++ String c EmptyString) r
  end.

Definition words (s : string) : list string := words_go EmptyString s.

(** [s.replace(old, new)] for a non-empty [old]. *)
Fixpoint replace_go (old new : string) (skip : nat) (s : string) : string :=
  match s with
  | EmptyString => EmptyString
  | String c r =>
      match skip with
      | S k => replace_go old new k r
      | O =>
          if starts_with old s
          then new ++ replace_go old new (String.length old - 1) r
          else String c (replace_go old new O r)
      end
  end.

Definition replace (old new s : string) : string := replace_go old new 0 s.

Definition newline : string := String (ascii_of_nat 10) EmptyString.

(** [str(n)] for an integer. *)
Definition of_Z (z : Z) : string := NilZero.string_of_int (Z.to_int z).

Definition is_digit (c : ascii) : bool :=
  let n := nat_of_ascii c in (48 <=? n)%nat && (n <=? 57)%nat.

Definition digit_val (c : ascii) : Z := Z.of_nat (nat_of_ascii c - 48).

End PyStr.

(** ** Python floats *)

Module PyFloat.

(** A Python [float] is a binary64 value.  A finite value is kept as the
    rational it denotes, in lowest terms; the sign of a zero is not kept
    (it shows only in the text printed for the value). *)
Inductive binary64 :=
| Finite (q : Q)
| Infinity (negative : bool)
| NaN.

(** To the nearest integer, ties to the even one. *)
Definition round_half_even (x : Q) : Z :=
  let f := Qfloor x in
  match (x - inject_Z f ?= 1 # 2)%Q with
  | Lt => f
  | Gt => (f + 1)%Z
  | Eq => if Z.even f then f else (f + 1)%Z
  end.

Definition pow2 (e : Z) : Q := (2 ^ e)%Q.

(** The integer [e] with [2^e <= a < 2^(e+1)], for a positive [a]. *)
Definition ilog2 (a : Q) : Z :=
  let e := (Z.log2 (Qnum a) - Z.log2 (Z.pos (Qden a)))%Z in
  if Qle_bool (pow2 e) a then e else (e - 1)%Z.

Definition is_negative (x : Q) : bool :=
  match (x ?= 0)%Q with Lt => true | _ => false end.

(** The binary64 value nearest to the real [x], ties to the even
    significand: 53 significant bits, the unit in the last place not below
    2^-1074, and infinity from 2^1024 on.  Every arithmetic operation of
    Python on floats returns the exact result rounded in this way. *)
Definition round64 (x : Q) : binary64 :=
  if Qeq_bool x 0 then Finite 0
  else
    let a := Qabs x in
    let p := Z.max (ilog2 a - 52) (-1074) in
    let r := Qred (inject_Z (round_half_even (a / pow2 p)) * pow2 p) in
    if Qle_bool (pow2 1024) r then Infinity (is_negative x)
    else Finite (if is_negative x then Qopp r else r).

(** [-x] and [abs(x)] *)
Definition neg (x : binary64) : binary64 :=
  match x with
  | Finite q => Finite (Qred (- q))
  | Infinity negative => Infinity (negb negative)
  | NaN => NaN
  end.

Definition abs (x : binary64) : binary64 :=
  match x with
  | Finite q => Finite (Qred (Qabs q))
  | Infinity _ => Infinity false
  | NaN => NaN
  end.

(** [x + y], [x - y], [x * y] *)
Definition add (x y : binary64) : binary64 :=
  match x, y with
  | Finite a, Finite b => round64 (a + b)
  | Finite _, Infinity s | Infinity s, Finite _ => Infinity s
  | Infinity s, Infinity s' => if Bool.eqb s s' then Infinity s else NaN
  | _, _ => NaN
  end.

Definition sub (x y : binary64) : binary64 := add x (neg y).

Definition mul (x y : binary64) : binary64 :=
  match x, y with
  | Finite a, Finite b => round64 (a * b)
  | Finite a, Infinity s | Infinity s, Finite a =>
      if Qeq_bool a 0 then NaN else Infinity (xorb s (is_negative a))
  | Infinity s, Infinity s' => Infinity (xorb s s')
  | _, _ => NaN
  end.

(** [x / y]; [None] stands for [ZeroDivisionError]. *)
Definition div (x y : binary64) : option binary64 :=
  match y with
  | Finite b =>
      if Qeq_bool b 0 then None
      else Some match x with
                | Finite a => round64 (a / b)
                | Infinity s => Infinity (xorb s (is_negative b))
                | NaN => NaN
                end
  | Infinity _ => Some match x with Finite _ => Finite 0 | _ => NaN end
  | NaN => Some NaN
  end.

(** [x < y] and [x == y]; a comparison with [nan] is false. *)
Definition ltb (x y : binary64) : bool :=
  match x, y with
  | Finite a, Finite b => match (a ?= b)%Q with Lt => true | _ => false end
  | Finite _, Infinity negative => negb negative
  | Infinity negative, Finite _ => negative
  | Infinity s, Infinity s' => s && negb s'
  | _, _ => false
  end.

Definition eqb (x y : binary64) : bool :=
  match x, y with
  | Finite a, Finite b => Qeq_bool a b
  | Infinity s, Infinity s' => Bool.eqb s s'
  | _, _ => false
  end.

(** The float of an [int], as in [float(n)] and where an [int] meets a
    float in an operation; [None] stands for [OverflowError]. *)
Definition of_int (n : Z) : option binary64 :=
  match round64 (inject_Z n) with
  | Finite q => Some (Finite q)
  | _ => None
  end.

End PyFloat.

(** ** Values, exceptions and the statement monad *)

(** One entry of [raw_data['storage_devices']]. *)
Record storage_entry := {
  se_device : string;
  se_size : string;
  se_type : string
}.

(** The Python objects that are stored in the raw bag, in the attribute
    set and in the rows sent to the database. *)
Inductive value :=
| VNone
| VBool (b : bool)
| VInt (z : Z)
| VFloat (x : PyFloat.binary64)
| VStr (s : string)
| VStrs (l : list string)
| VDevices (l : list storage_entry).

(** [bool(v)] *)
Definition truthy (v : value) : bool :=
  match v with
  | VNone => false
  | VBool b => b
  | VInt z => negb (z =? 0)%Z
  | VFloat x => negb (PyFloat.eqb x (PyFloat.Finite 0))
  | VStr s => negb (String.eqb s "")
  | VStrs l => match l with [] => false | _ => true end
  | VDevices l => match l with [] => false | _ => true end
  end.

(** [v == s] for a string literal [s]. *)
Definition eq_str (v : value) (s : string) : bool :=
  match v with
  | VStr t => String.eqb t s
  | _ => false
  end.

(** [v is None] *)
Definition is_none (v : value) : bool :=
  match v with VNone => true | _ => false end.

(** The exception classes that occur. [JSONDecodeError] is a subclass of
    [ValueError] in the Python library. *)
Inductive exn :=
| ValueError (msg : string)
| JSONDecodeError
| TypeError
| AttributeError
| KeyError (key : string)
| IndexError
| ZeroDivisionError
| OverflowError
| EOFError
| FileNotFoundError (msg : string)
| ImportError
| SubprocessError
| APIError (msg : string).

Definition is_ValueError (e : exn) : bool :=
  match e with ValueError _ | JSONDecodeError => true | _ => false end.

Definition is_FileNotFoundError (e : exn) : bool :=
  match e with FileNotFoundError _ => true | _ => false end.

Definition is_ImportError (e : exn) : bool :=
  match e with ImportError => true | _ => false end.

(** Outcome of a statement: it raises or it yields a result. *)
Inductive res (A : Type) :=
| Raise (e : exn)
| Ret (a : A).
Arguments Raise {A} e.
Arguments Ret {A} a.

(** A statement run on a state of type [S]: the outcome and the state it
    leaves.  The state survives an exception, as mutations of a Python
    object do. *)
Definition M (S A : Type) : Type := S -> res A * S.

Definition ret {S A} (a : A) : M S A := fun s => (Ret a, s).
Definition raise {S A} (e : exn) : M S A := fun s => (Raise e, s).
Definition bind {S A B} (m : M S A) (k : A -> M S B) : M S B :=
  fun s => match m s with
           | (Ret a, s') => k a s'
           | (Raise e, s') => (Raise e, s')
           end.
(** [try: m  except: h] *)
Definition try_except {S A} (m : M S A) (h : exn -> M S A) : M S A :=
  fun s => match m s with
           | (Ret a, s') => (Ret a, s')
           | (Raise e, s') => h e s'
           end.
(** The same sequencing for computations that touch no state. *)
Definition res_bind {A B} (r : res A) (k : A -> res B) : res B :=
  match r with
  | Ret a => k a
  | Raise e => Raise e
  end.
Definition lift_res {S A} (r : res A) : M S A := fun s => (r, s).
Definition res_of {A} (e : exn) (o : option A) : res A :=
  match o with Some a => Ret a | None => Raise e end.

Definition get_state {S} : M S S := fun s => (Ret s, s).
Definition modify {S} (f : S -> S) : M S unit := fun s => (Ret tt, f s).
(** An operation that raises [e] when it has no result. *)
Definition or_raise {S A} (e : exn) (o : option A) : M S A :=
  match o with Some a => ret a | None => raise e end.

Notation "x <- m ;; k" := (bind m (fun x => k))
  (at level 100, m at next level, right associativity).
Notation "m ;;; k" := (bind m (fun _ => k))
  (at level 100, right associativity).

Definition when {S} (b : bool) (m : M S unit) : M S unit :=
  if b then m else ret tt.

(** [if o: body] for a match object or an optional result. *)
Definition when_some {S A} (o : option A) (body : A -> M S unit) : M S unit :=
  match o with Some a => body a | None => ret tt end.

(** [for x in l: body] *)
Fixpoint for_each {S A} (l : list A) (body : A -> M S unit) : M S unit :=
  match l with
  | [] => ret tt
  | x :: r => body x ;;; for_each r body
  end.

(** [for x in l: body], where the body says whether it ends in [break]. *)
Fixpoint for_break {S A} (l : list A) (body : A -> M S bool) : M S unit :=
  match l with
  | [] => ret tt
  | x :: r => stop <- body x ;; if stop : bool then ret tt else for_break r body
  end.

(** ** Number conversions *)

Module PyNum.
Import PyFloat.

(** A [digitpart] of a number: digits, with single underscores between
    them.  The result is the number read so far, how many digits were
    read, and the text that follows. *)
Fixpoint digitpart (s : string) (acc : Z) (count : nat) : Z * nat * string :=
  match s with
  | String c r =>
      if PyStr.is_digit c then digitpart r (acc * 10 + PyStr.digit_val c)%Z (S count)
      else if Ascii.eqb c "_"%char && (0 <? count)%nat
      then match r with
           | String c' r' =>
               if PyStr.is_digit c'
               then digitpart r' (acc * 10 + PyStr.digit_val c')%Z (S count)
               else (acc, count, s)
           | EmptyString => (acc, count, s)
           end
      else (acc, count, s)
  | EmptyString => (acc, count, s)
  end.

(** [e] or [E], an optional sign and a [digitpart]; no exponent is the
    exponent 0. *)
Definition exponent (s : string) : option Z :=
  match s with
  | EmptyString => Some 0%Z
  | String c r =>
      if Ascii.eqb c "e"%char || Ascii.eqb c "E"%char
      then let '(negative, digits) :=
             match r with
             | String "-"%char r' => (true, r')
             | String "+"%char r' => (false, r')
             | _ => (false, r)
             end in
           match digitpart digits 0 0 with
           | (x, S _, EmptyString) => Some (if negative : bool then - x else x)%Z
           | _ => None
           end
      else None
  end.

(** The value of a [floatnumber]: digits with an optional point, at least
    one digit before or after it, and an optional exponent. *)
Definition floatnumber (s : string) : option Q :=
  let '(int_part, int_digits, rest) := digitpart s 0 0 in
  let '(mantissa, frac_digits, rest') :=
    match rest with
    | String "."%char r => digitpart r int_part 0
    | _ => (int_part, 0%nat, rest)
    end in
  if ((int_digits + frac_digits)%nat =? 0)%nat then None
  else match exponent rest' with
       | Some e => Some (inject_Z mantissa * 10 ^ (e - Z.of_nat frac_digits))%Q
       | None => None
       end.

(** [float(s)] for a string: blanks around, an optional sign, then a
    number, [inf], [infinity] or [nan] in any case; [None] stands for
    [ValueError].  The number is rounded to the nearest binary64 value. *)
Definition float (s : string) : option binary64 :=
  let '(negative, body) :=
    match PyStr.strip s with
    | String "-"%char r => (true, r)
    | String "+"%char r => (false, r)
    | t => (false, t)
    end in
  let l := PyStr.lower body in
  if String.eqb l "inf" || String.eqb l "infinity" then Some (Infinity negative)
  else if String.eqb l "nan" then Some NaN
  else option_map (fun x => round64 (if negative : bool then - x else x)) (floatnumber body).

(** The digits of an [int] literal, single underscores allowed between
    digits. *)
Fixpoint int_go (s : string) (prev_digit : bool) (acc : Z) : option Z :=
  match s with
  | EmptyString => if prev_digit then Some acc else None
  | String c r =>
      if PyStr.is_digit c then int_go r true (acc * 10 + PyStr.digit_val c)%Z
      else if Ascii.eqb c "_"%char
      then (if prev_digit then int_go r false acc else None)
      else None
  end.

(** [int(s)] for a string: blanks around, an optional sign, digits. *)
Definition int (s : string) : option Z :=
  match PyStr.strip s with
  | String "-"%char r => option_map Z.opp (int_go r false 0%Z)
  | String "+"%char r => int_go r false 0%Z
  | t => int_go t false 0%Z
  end.

(** [a / b] for two [int]: the quotient rounded once, [ZeroDivisionError]
    for a zero divisor, [OverflowError] when the quotient is beyond the
    floats. *)
Definition true_divide (a b : Z) : res binary64 :=
  if (b =? 0)%Z then Raise ZeroDivisionError
  else match round64 (inject_Z a / inject_Z b) with
       | Finite q => Ret (Finite q)
       | _ => Raise OverflowError
       end.

(** [round(x)] of a float: the nearest integer, ties to even. *)
Definition round (x : binary64) : res Z :=
  match x with
  | Finite q => Ret (round_half_even q)
  | Infinity _ => Raise OverflowError
  | NaN => Raise (ValueError "cannot convert float NaN to integer")
  end.

(** [int(x)] of a float: towards zero. *)
Definition trunc (x : binary64) : res Z :=
  match x with
  | Finite q => Ret (Z.quot (Qnum q) (Z.pos (Qden q)))
  | Infinity _ => Raise OverflowError
  | NaN => Raise (ValueError "cannot convert float NaN to integer")
  end.

End PyNum.

(** ** The platform *)

(** Services the scripts call but do not define. *)
Record platform := {
  (** standard output of a command line; [None] when [subprocess.run]
      raises (command missing, timeout) *)
  subprocess_run : string -> option string;
  (** [re.search(pattern, text)]: the groups of the first match *)
  re_search : string -> string -> option (list string);
  (** [re.findall(pattern, text)] *)
  re_findall : string -> string -> list string;
  (** [x ** 0.5] for a float [x] that is not negative *)
  float_sqrt : PyFloat.binary64 -> PyFloat.binary64;
  (** [round(x, ndigits)] *)
  float_round : PyFloat.binary64 -> Z -> PyFloat.binary64;
  (** [str(v)] for floats and containers *)
  repr_value : value -> string
}.

(** [m.group(n)] *)
Definition group (n : nat) (groups : list string) : string :=
  nth (n - 1) groups "".

(** [str(v)], as used by f-strings. *)
Definition py_str (P : platform) (v : value) : string :=
  match v with
  | VStr s => s
  | VInt z => PyStr.of_Z z
  | VBool true => "True"
  | VBool false => "False"
  | VNone => "None"
  | _ => repr_value P v
  end.

(** ** hardware_detector.py: class HardwareDetector *)

(** The two attributes of a [HardwareDetector] object. *)
Record detector := {
  raw_data : gmap string value;
  bestbuy_data : gmap string value
}.

(** [HardwareDetector()] *)
Definition new_detector : detector := {| raw_data := ∅; bestbuy_data := ∅ |}.

(** [self.raw_data[k] = v] *)
Definition set_raw (k : string) (v : value) : M detector unit :=
  modify (fun self => {| raw_data := <[k:=v]> (raw_data self);
                         bestbuy_data := bestbuy_data self |}).

(** [self.bestbuy_data[k] = v] *)
Definition set_bestbuy (k : string) (v : value) : M detector unit :=
  modify (fun self => {| raw_data := raw_data self;
                         bestbuy_data := <[k:=v]> (bestbuy_data self) |}).

(** [d.get(k, dflt)] and [d.get(k)] *)
Definition dict_get_or (d : gmap string value) (k : string) (dflt : value) : value :=
  default dflt (d !! k).
Definition dict_get (d : gmap string value) (k : string) : value :=
  dict_get_or d k VNone.

(** [self.raw_data.get(k)] as a statement. *)
Definition raw_get (k : string) : M detector value :=
  self <- get_state ;; ret (dict_get (raw_data self) k).

(** [min(l, key=key)]: an element replaces the best one so far when its
    key is smaller ([<] on floats). *)
Fixpoint min_by (key : Z -> PyFloat.binary64) (best : Z) (l : list Z) : Z :=
  match l with
  | [] => best
  | x :: r =>
      if PyFloat.ltb (key x) (key best) then min_by key x r else min_by key best r
  end.

Definition py_min (key : Z -> PyFloat.binary64) (l : list Z) : option Z :=
  match l with
  | [] => None
  | x :: r => Some (min_by key x r)
  end.

Definition standard_sizes : list Z :=
  [2; 4; 6; 8; 12; 16; 24; 32; 48; 64; 96; 128; 192; 256]%Z.

(** [mem_kb / (1024 * 1024)]: a division of two [int]. *)
Definition mem_gb_raw_of (mem_kb : Z) : res PyFloat.binary64 :=
  PyNum.true_divide mem_kb (1024 * 1024).

(** [abs(x - mem_gb_raw)] for a candidate [x], an [int] that the
    subtraction turns into a float. *)
Definition distance_to (mem_gb_raw : PyFloat.binary64) (x : Z) : PyFloat.binary64 :=
  PyFloat.abs (PyFloat.sub (PyFloat.round64 (inject_Z x)) mem_gb_raw).

(** [min(standard_sizes, key=lambda x: abs(x - mem_gb_raw))] *)
Definition closest_size (mem_gb_raw : PyFloat.binary64) : option Z :=
  py_min (distance_to mem_gb_raw) standard_sizes.

(** The part of [detect_memory] that stores [ram_size_gb] once
    [MemTotal] has been read: [physical_ram_gb] is the sum of the module
    sizes, or [None] when no module size was found.  The quotient is
    computed first, whichever branch follows. *)
Definition store_ram_size (physical_ram_gb : option Z) (mem_kb : Z) : M detector unit :=
  mem_gb_raw <- lift_res (mem_gb_raw_of mem_kb) ;;
  match physical_ram_gb with
  | Some n =>
      if (n =? 0)%Z
      then (closest <- or_raise (ValueError "min() arg is an empty sequence")
                         (closest_size mem_gb_raw) ;;
            set_raw "ram_size_gb" (VInt closest))
      else set_raw "ram_size_gb" (VInt n)
  | None =>
      closest <- or_raise (ValueError "min() arg is an empty sequence")
                   (closest_size mem_gb_raw) ;;
      set_raw "ram_size_gb" (VInt closest)
  end.

(** [re.match(r'([\d.]+)([KMGT])', s)]: the longest run of digits and dots
    at the start of [s], not empty, followed by one of the four letters. *)
Fixpoint span_digits_dots (s : string) : string * string :=
  match s with
  | String c r =>
      if PyStr.is_digit c || Ascii.eqb c "."%char
      then let '(a, b) := span_digits_dots r in (String c a, b)
      else (EmptyString, s)
  | EmptyString => (EmptyString, EmptyString)
  end.

Definition is_size_unit (c : ascii) : bool :=
  Ascii.eqb c "K"%char || Ascii.eqb c "M"%char || Ascii.eqb c "G"%char || Ascii.eqb c "T"%char.

Definition size_match (s : string) : option (string * ascii) :=
  match span_digits_dots s with
  | (String c n, String u _) => if is_size_unit u then Some (String c n, u) else None
  | _ => None
  end.

(** [multipliers.get(unit, 1)] with
    [multipliers = {'K': 0.001, 'M': 0.001, 'G': 1, 'T': 1000}]: the
    float nearest to 0.001, and two [int] that the product turns into
    floats. *)
Definition multiplier (u : ascii) : PyFloat.binary64 :=
  if Ascii.eqb u "K"%char then PyFloat.round64 0.001
  else if Ascii.eqb u "M"%char then PyFloat.round64 0.001
  else if Ascii.eqb u "G"%char then PyFloat.Finite 1
  else if Ascii.eqb u "T"%char then PyFloat.Finite 1000
  else PyFloat.Finite 1.

(** [float(size_match.group(1)) * multipliers.get(unit, 1)]; [None] stands
    for the [ValueError] of [float]. *)
Definition size_gb_of (num : string) (u : ascii) : option PyFloat.binary64 :=
  option_map (fun value => PyFloat.mul value (multiplier u)) (PyNum.float num).

(** A line of [lsblk -d -o NAME,SIZE,TYPE,ROTA] that passes
    [len(parts) >= 4 and parts[2] == 'disk']. *)
Record disk_line := {
  device_name : string;
  device_size : string;
  is_rotational : bool
}.

Definition parse_lsblk_line (line : string) : option disk_line :=
  match PyStr.words line with
  | p0 :: p1 :: p2 :: p3 :: _ =>
      if String.eqb p2 "disk"
      then Some {| device_name := p0; device_size := p1;
                   is_rotational := String.eqb p3 "1" |}
      else None
  | _ => None
  end.

Definition entry_of (d : disk_line) : storage_entry :=
  {| se_device := device_name d; se_size := device_size d;
     se_type := if is_rotational d then "HDD" else "SSD" |}.

Section Detector.
Context (P : platform).

(** [run_command] and [run_command_with_sudo]: the output, or the empty
    string when the call raises. *)
Definition run_command (cmd : string) : string :=
  default "" (subprocess_run P cmd).
Definition run_command_with_sudo (cmd : string) : string :=
  default "" (subprocess_run P ("sudo " ++ cmd)).

(** [subprocess.run(cmd, shell=True, ...).stdout] outside the two
    wrappers: the exception is not caught there. *)
Definition shell (cmd : string) : M detector string :=
  or_raise SubprocessError (subprocess_run P cmd).

Definition py_int (s : string) : M detector Z :=
  or_raise (ValueError "invalid literal for int()") (PyNum.int s).
Definition py_float (s : string) : M detector PyFloat.binary64 :=
  or_raise (ValueError "could not convert string to float") (PyNum.float s).

(** [x / y] on floats and [round(x)], as statements. *)
Definition float_div (x y : PyFloat.binary64) : M detector PyFloat.binary64 :=
  or_raise ZeroDivisionError (PyFloat.div x y).
Definition py_round (x : PyFloat.binary64) : M detector Z :=
  lift_res (PyNum.round x).

(** [if m: self.raw_data[k] = m.group(1).strip()] *)
Definition store_group (pattern text k : string) : M detector unit :=
  when_some (re_search P pattern text)
    (fun g => set_raw k (VStr (PyStr.strip (group 1 g)))).

Definition detect_system_info : M detector unit :=
  let dmidecode_system := run_command_with_sudo "dmidecode -t system" in
  let dmidecode_bios := run_command_with_sudo "dmidecode -t bios" in
  let dmidecode_chassis := run_command_with_sudo "dmidecode -t chassis" in
  set_raw "dmidecode_system" (VStr dmidecode_system) ;;;
  set_raw "dmidecode_bios" (VStr dmidecode_bios) ;;;
  set_raw "dmidecode_chassis" (VStr dmidecode_chassis) ;;;
  store_group "Manufacturer:\s*(.+)" dmidecode_system "brand" ;;;
  store_group "Product Name:\s*(.+)" dmidecode_system "model" ;;;
  store_group "Serial Number:\s*(.+)" dmidecode_system "serial" ;;;
  store_group "UUID:\s*(.+)" dmidecode_system "uuid" ;;;
  store_group "SKU Number:\s*(.+)" dmidecode_system "sku" ;;;
  store_group "Family:\s*(.+)" dmidecode_system "family".

Definition detect_processor : M detector unit :=
  let lscpu_output := run_command "lscpu" in
  set_raw "lscpu" (VStr lscpu_output) ;;;
  store_group "Model name:\s*(.+)" lscpu_output "cpu_model" ;;;
  match re_search P "Core\(s\) per socket:\s*(\d+)" lscpu_output,
        re_search P "Socket\(s\):\s*(\d+)" lscpu_output with
  | Some cores_match, Some sockets_match =>
      cores <- py_int (group 1 cores_match) ;;
      sockets <- py_int (group 1 sockets_match) ;;
      set_raw "cpu_cores" (VInt (cores * sockets))
  | _, _ => ret tt
  end ;;;
  when_some (re_search P "CPU MHz:\s*([\d.]+)" lscpu_output) (fun mhz_match =>
    mhz <- py_float (group 1 mhz_match) ;;
    set_raw "cpu_speed_mhz" (VFloat mhz) ;;;
    ghz <- float_div mhz (PyFloat.Finite 1000) ;;
    set_raw "cpu_speed_ghz" (VFloat (float_round P ghz 2))) ;;;
  when_some (re_search P "CPU max MHz:\s*([\d.]+)" lscpu_output) (fun max_mhz_match =>
    mhz <- py_float (group 1 max_mhz_match) ;;
    set_raw "cpu_max_mhz" (VFloat mhz) ;;;
    ghz <- float_div mhz (PyFloat.Finite 1000) ;;
    set_raw "cpu_max_ghz" (VFloat (float_round P ghz 2))) ;;;
  when_some (re_search P "L3 cache:\s*(\d+(?:\.\d+)?)\s*([KMG]iB)" lscpu_output) (fun l3_match =>
    let size := group 1 l3_match in
    let unit_converted := PyStr.replace "iB" "B" (group 2 l3_match) in
    set_raw "cpu_l3_cache" (VStr (size ++ " " ++ unit_converted ++ " L3"))) ;;;
  let dmidecode_cpu := run_command_with_sudo "dmidecode -t processor" in
  set_raw "dmidecode_processor" (VStr dmidecode_cpu).

(** The sizes appended to [installed_ram_sizes]. *)
Fixpoint installed_sizes (memory_sections : list string) : res (list Z) :=
  match memory_sections with
  | [] => Ret []
  | section :: rest =>
      res_bind
        (if PyStr.contains "Memory Device" section
            && negb (PyStr.contains "No Module Installed" section)
         then match re_search P "Size:\s*(\d+)\s*GB" section with
              | Some size_match =>
                  res_bind (res_of (ValueError "invalid literal for int()")
                              (PyNum.int (group 1 size_match)))
                    (fun n => Ret [n])
              | None => Ret []
              end
         else Ret [])
        (fun here => res_bind (installed_sizes rest) (fun more => Ret (here ++ more)))
  end.

Definition sum_Z (l : list Z) : Z := fold_right Z.add 0%Z l.

(** [num > 0] for a value read back from the bag. *)
Definition positive_value (v : value) : M detector bool :=
  match v with
  | VInt z => ret (0 <? z)%Z
  | VBool b => ret b
  | VFloat x => ret (PyFloat.ltb (PyFloat.Finite 0) x)
  | _ => raise TypeError
  end.

Definition soldered_indicators : list string :=
  ["Row Of Chips"; "Chip"; "Proprietary Card"; "Unknown"].

Definition detect_memory : M detector unit :=
  let dmidecode_memory := run_command_with_sudo "dmidecode -t memory" in
  set_raw "dmidecode_memory" (VStr dmidecode_memory) ;;;
  installed_ram_sizes <- lift_res (installed_sizes (PyStr.split "Handle" dmidecode_memory)) ;;
  let physical_ram_gb :=
    match installed_ram_sizes with
    | [] => None
    | _ => Some (sum_Z installed_ram_sizes)
    end in
  let meminfo := run_command "cat /proc/meminfo" in
  when_some (re_search P "MemTotal:\s*(\d+)\s*kB" meminfo) (fun mem_match =>
    mem_kb <- py_int (group 1 mem_match) ;;
    store_ram_size physical_ram_gb mem_kb) ;;;
  store_group "Type:\s*(DDR\d+)" dmidecode_memory "ram_type" ;;;
  when_some (re_search P "Speed:\s*(\d+)\s*MT/s" dmidecode_memory) (fun ram_speed_match =>
    set_raw "ram_speed" (VStr (group 1 ram_speed_match ++ " MHz"))) ;;;
  when_some (re_search P "Maximum Capacity:\s*(\d+)\s*(GB|MB)" dmidecode_memory)
    (fun max_capacity_match =>
      capacity <- py_int (group 1 max_capacity_match) ;;
      if String.eqb (group 2 max_capacity_match) "GB"
      then set_raw "max_ram_capacity_gb" (VInt capacity)
      else set_raw "max_ram_capacity_gb" (VInt (capacity / 1024))) ;;;
  when_some (re_search P "Number Of Devices:\s*(\d+)" dmidecode_memory) (fun slots_match =>
    n <- py_int (group 1 slots_match) ;;
    set_raw "ram_slots_total" (VInt n)) ;;;
  let form_factors := re_findall P "Form Factor:\s*(.+)" dmidecode_memory in
  let empty_slots :=
    Z.of_nat (length (re_findall P "Size:\s*No Module Installed" dmidecode_memory)) in
  let installed_form_factors :=
    map PyStr.strip (List.filter (fun ff => negb (PyStr.contains "No Module" ff)) form_factors) in
  match installed_form_factors with
  | first :: _ =>
      set_raw "ram_form_factor" (VStr first) ;;;
      set_raw "ram_soldered"
        (VBool (existsb (fun indicator => PyStr.contains indicator first) soldered_indicators))
  | [] => ret tt
  end ;;;
  self <- get_state ;;
  let total_slots := dict_get_or (raw_data self) "ram_slots_total" (VInt 0) in
  has_slots <- positive_value total_slots ;;
  if has_slots : bool
  then match total_slots with
       | VInt n => set_raw "ram_slots_used" (VInt (n - empty_slots))
       | VBool b => set_raw "ram_slots_used" (VInt ((if b then 1 else 0) - empty_slots))
       | VFloat x =>
           slots <- or_raise OverflowError (PyFloat.of_int empty_slots) ;;
           set_raw "ram_slots_used" (VFloat (PyFloat.sub x slots))
       | _ => raise TypeError
       end ;;;
       set_raw "ram_slots_available" (VInt empty_slots)
  else
    soldered <- raw_get "ram_soldered" ;;
    when (is_none soldered)
      (set_raw "ram_soldered" (VBool true) ;;;
       set_raw "ram_slots_total" (VInt 0) ;;;
       set_raw "ram_slots_used" (VInt 0) ;;;
       set_raw "ram_slots_available" (VInt 0)).

(** [round((width**2 + height**2)**0.5 / per_inch, 1)]: the power turns
    the [int] into a float first, which raises [OverflowError] when it is
    beyond the floats. *)
Definition diagonal_inches (width height : Z) (per_inch : PyFloat.binary64)
  : res PyFloat.binary64 :=
  match PyFloat.of_int (width ^ 2 + height ^ 2) with
  | Some squares =>
      match PyFloat.div (float_sqrt P squares) per_inch with
      | Some diagonal => Ret (float_round P diagonal 1)
      | None => Raise ZeroDivisionError
      end
  | None => Raise OverflowError
  end.

(** Body of the loop over the EDID files; the result says whether the
    loop ends there. *)
Definition decode_edid (edid_file : string) : M detector bool :=
  if String.eqb edid_file "" then ret false
  else
    let edid_output := run_command_with_sudo ("edid-decode " ++ edid_file) in
    if String.eqb edid_output "" then ret false
    else
      set_raw "edid" (VStr edid_output) ;;;
      when_some (re_search P "Maximum image size:\s*(\d+)\s*cm x\s*(\d+)\s*cm" edid_output)
        (fun screen_match =>
          width_cm <- py_int (group 1 screen_match) ;;
          height_cm <- py_int (group 2 screen_match) ;;
          inches <- lift_res (diagonal_inches width_cm height_cm (PyFloat.round64 2.54)) ;;
          set_raw "screen_size_inches" (VFloat inches)) ;;;
      ret true.

Definition is_touch_line (line : string) : bool :=
  let line_lower := PyStr.lower line in
  PyStr.contains "touch" line_lower && negb (PyStr.contains "touchpad" line_lower).

Definition detect_display : M detector unit :=
  try_except
    (let xrandr_output := run_command "xrandr" in
     set_raw "xrandr" (VStr xrandr_output) ;;;
     when_some (re_search P "(\d+)x(\d+).*?\*" xrandr_output) (fun res_match =>
       set_raw "screen_resolution"
         (VStr (group 1 res_match ++ " x " ++ group 2 res_match))) ;;;
     when_some (re_search P "(\d+)mm x (\d+)mm" xrandr_output) (fun size_match =>
       width_mm <- py_int (group 1 size_match) ;;
       height_mm <- py_int (group 2 size_match) ;;
       when ((0 <? width_mm)%Z && (0 <? height_mm)%Z)
         (inches <- lift_res (diagonal_inches width_mm height_mm (PyFloat.round64 25.4)) ;;
          set_raw "screen_size_inches" (VFloat inches))))
    (fun _ => ret tt) ;;;
  try_except
    (found <- shell "find /sys/class/drm -name edid" ;;
     let edid_files := PyStr.split PyStr.newline (PyStr.strip found) in
     for_break edid_files decode_edid)
    (fun _ => ret tt) ;;;
  try_except
    (let xinput_output := run_command "xinput list" in
     set_raw "xinput" (VStr xinput_output) ;;;
     let has_touchscreen := existsb is_touch_line (PyStr.split PyStr.newline xinput_output) in
     set_raw "has_touchscreen" (VBool has_touchscreen))
    (fun _ => set_raw "has_touchscreen" VNone).

(** *** Graphics *)

Definition is_gpu_line (line : string) : bool :=
  PyStr.contains "VGA" line || PyStr.contains "3D controller" line.

Definition has_nvidia (gpu_lines : list string) : bool :=
  existsb (fun line => PyStr.contains "nvidia" (PyStr.lower line)) gpu_lines.
Definition has_amd_discrete (gpu_lines : list string) : bool :=
  existsb (fun line => PyStr.contains "amd" (PyStr.lower line)
                       && PyStr.contains "radeon" (PyStr.lower line)) gpu_lines.
Definition has_intel (gpu_lines : list string) : bool :=
  existsb (fun line => PyStr.contains "intel" (PyStr.lower line)) gpu_lines.

(** Body of the loop that extracts the model names. *)
Definition store_gpu_model (gpu_line : string) : M detector unit :=
  let gpu_line_lower := PyStr.lower gpu_line in
  when_some
    (re_search P "(?:VGA compatible controller|3D controller):\s*(.+?)(?:\s*\(rev.*\))?$" gpu_line)
    (fun gpu_match =>
      let gpu_text := PyStr.strip (group 1 gpu_match) in
      let bracket_match := re_search P "\[(.+?)\]" gpu_text in
      let named (vendor : string) : value :=
        match bracket_match with
        | Some g =>
            if negb (String.eqb (PyStr.strip (group 1 g)) "")
            then VStr (vendor ++ " " ++ group 1 g)
            else VStr gpu_text
        | None => VStr gpu_text
        end in
      if PyStr.contains "intel" gpu_line_lower
      then set_raw "integrated_gpu_model" (named "Intel")
      else if PyStr.contains "amd" gpu_line_lower && PyStr.contains "vega" gpu_line_lower
      then set_raw "integrated_gpu_model" (named "AMD")
      else if PyStr.contains "nvidia" gpu_line_lower
      then set_raw "dedicated_gpu_model" (named "NVIDIA")
      else if PyStr.contains "amd" gpu_line_lower && PyStr.contains "radeon" gpu_line_lower
              && PyStr.contains "rx" gpu_line_lower
      then set_raw "dedicated_gpu_model" (named "AMD")
      else ret tt).

(** What [detect_graphics] does with a non-empty list [gpu_lines]. *)
Definition classify_gpus (gpu_lines : list string) : M detector unit :=
  set_raw "gpus" (VStrs gpu_lines) ;;;
  (if has_nvidia gpu_lines || has_amd_discrete gpu_lines
   then set_raw "gpu_type" (VStr "Dedicated or Discrete GPU")
   else if has_intel gpu_lines
   then set_raw "gpu_type" (VStr "Integrated GPU")
   else ret tt) ;;;
  for_each gpu_lines store_gpu_model.

(** [gpu_lines]: the VGA and 3D controller lines of the [lspci] output. *)
Definition gpu_lines_in (lspci_vga : string) : list string :=
  List.filter is_gpu_line (PyStr.split PyStr.newline lspci_vga).

Definition detect_graphics : M detector unit :=
  let lspci_vga := run_command "lspci" in
  set_raw "lspci" (VStr lspci_vga) ;;;
  let gpu_lines := gpu_lines_in lspci_vga in
  match gpu_lines with
  | [] => ret tt
  | _ => classify_gpus gpu_lines
  end.

(** *** Storage *)

(** The check of [/sys/block/<name>/removable]; an exception counts as
    not removable. *)
Definition is_removable (name : string) : bool :=
  match subprocess_run P ("cat /sys/block/" ++ name ++ "/removable") with
  | Some out => String.eqb (PyStr.strip out) "1"
  | None => false
  end.

(** One [lsblk] line in the first loop: the entries it appends. *)
Definition scan_disk (line : string) : res (list storage_entry) :=
  match parse_lsblk_line line with
  | Some d =>
      let removable := is_removable (device_name d) in
      match size_match (device_size d) with
      | Some (num, u) =>
          res_bind (res_of (ValueError "could not convert string to float") (size_gb_of num u))
            (fun size_gb =>
               if removable || PyFloat.ltb size_gb (PyFloat.Finite 32)
               then Ret [] else Ret [entry_of d])
      | None => Ret [entry_of d]
      end
  | None => Ret []
  end.

Fixpoint scan_disks (lines : list string) : res (list storage_entry) :=
  match lines with
  | [] => Ret []
  | line :: rest =>
      res_bind (scan_disk line)
        (fun here => res_bind (scan_disks rest) (fun more => Ret (here ++ more)))
  end.

(** The second loop: [(total_ssd_gb, total_hdd_gb)] after the devices. *)
Fixpoint total_capacity (devices : list storage_entry)
    (totals : PyFloat.binary64 * PyFloat.binary64)
  : res (PyFloat.binary64 * PyFloat.binary64) :=
  match devices with
  | [] => Ret totals
  | device :: rest =>
      match size_match (se_size device) with
      | Some (num, u) =>
          res_bind (res_of (ValueError "could not convert string to float") (size_gb_of num u))
            (fun size_gb =>
               if String.eqb (se_type device) "SSD"
               then total_capacity rest (PyFloat.add (fst totals) size_gb, snd totals)
               else total_capacity rest (fst totals, PyFloat.add (snd totals) size_gb))
      | None => total_capacity rest totals
      end
  end.

(** The two loops of [detect_storage] and the capacities they record,
    for the lines of the [lsblk] output after the header. *)
Definition internal_storage (lines : list string)
  : M detector (PyFloat.binary64 * PyFloat.binary64) :=
  storage_devices <- lift_res (scan_disks lines) ;;
  set_raw "storage_devices" (VDevices storage_devices) ;;;
  totals <- lift_res (total_capacity storage_devices (PyFloat.Finite 0, PyFloat.Finite 0)) ;;
  let '(total_ssd_gb, total_hdd_gb) := totals in
  when (PyFloat.ltb (PyFloat.Finite 0) total_ssd_gb)
    (capacity <- py_round total_ssd_gb ;; set_raw "ssd_capacity_gb" (VInt capacity)) ;;;
  when (PyFloat.ltb (PyFloat.Finite 0) total_hdd_gb)
    (capacity <- py_round total_hdd_gb ;; set_raw "hdd_capacity_gb" (VInt capacity)) ;;;
  ret totals.

Definition controller_type (lspci_storage : string) : string :=
  let l := PyStr.lower lspci_storage in
  if PyStr.contains "nvme" l || PyStr.contains "non-volatile memory" l then "NVMe"
  else if PyStr.contains "emmc" l || PyStr.contains "mmc" l then "eMMC"
  else if PyStr.contains "sata" l then "SATA"
  else if PyStr.contains "ahci" l then "SATA (AHCI)"
  else "Unknown".

Definition detect_storage : M detector unit :=
  let lsblk_output := run_command "lsblk -d -o NAME,SIZE,TYPE,ROTA" in
  set_raw "lsblk" (VStr lsblk_output) ;;;
  totals <- internal_storage (tail (PyStr.split PyStr.newline lsblk_output)) ;;
  let '(total_ssd_gb, total_hdd_gb) := totals in
  try_except
    (emmc_check <- shell "ls /dev/mmcblk* 2>/dev/null | wc -l" ;;
     count <- py_int (PyStr.strip emmc_check) ;;
     set_raw "has_emmc_storage" (VBool (0 <? count)%Z))
    (fun _ => set_raw "has_emmc_storage" (VBool false)) ;;;
  try_except
    (lspci_storage <- shell "lspci | grep -i 'storage\|sata\|nvme\|mmc'" ;;
     when (negb (String.eqb lspci_storage ""))
       (set_raw "lspci_storage" (VStr (PyStr.strip lspci_storage)) ;;;
        set_raw "storage_controller_type" (VStr (controller_type lspci_storage))))
    (fun _ => ret tt) ;;;
  has_emmc <- raw_get "has_emmc_storage" ;;
  controller <- raw_get "storage_controller_type" ;;
  if truthy has_emmc
  then set_raw "storage_soldered_confidence" (VStr "confirmed_soldered")
  else if eq_str controller "NVMe"
  then set_raw "storage_soldered_confidence"
         (VStr "unknown - M.2 SSD detected, could be socketed or soldered")
  else if eq_str controller "SATA" || eq_str controller "SATA (AHCI)"
  then set_raw "storage_soldered_confidence"
         (VStr "likely_removable - SATA interface typically uses removable drives")
  else if PyFloat.eqb total_ssd_gb (PyFloat.Finite 0)
          && PyFloat.eqb total_hdd_gb (PyFloat.Finite 0)
  then set_raw "storage_soldered_confidence" (VStr "no_storage_detected")
  else set_raw "storage_soldered_confidence" (VStr "unknown").

(** *** Battery, network, USB, webcam *)

Definition detect_battery : M detector unit :=
  try_except
    (let upower_output := run_command "upower -i /org/freedesktop/UPower/devices/battery_BAT0" in
     set_raw "upower" (VStr upower_output) ;;;
     let voltage_match := re_search P "voltage:\s*([\d.]+)\s*V" upower_output in
     when_some (re_search P "energy-full:\s*([\d.]+)" upower_output) (fun capacity_match =>
       wh <- py_float (group 1 capacity_match) ;;
       voltage <- match voltage_match with
                  | Some g => py_float (group 1 g)
                  | None => ret (PyFloat.round64 11.1)
                  end ;;
       quotient <- float_div (PyFloat.mul wh (PyFloat.Finite 1000)) voltage ;;
       mah <- py_round quotient ;;
       set_raw "battery_capacity_mah" (VInt mah)))
    (fun _ => ret tt) ;;;
  try_except
    (let acpi_output := run_command "acpi -V" in
     set_raw "acpi" (VStr acpi_output))
    (fun _ => ret tt) ;;;
  try_except
    (battery_info <- shell "cat /sys/class/power_supply/BAT*/uevent" ;;
     set_raw "battery_sys" (VStr battery_info) ;;;
     when_some (re_search P "POWER_SUPPLY_CHARGE_FULL=(\d+)" battery_info) (fun capacity_match =>
       uah <- py_int (group 1 capacity_match) ;;
       quotient <- lift_res (PyNum.true_divide uah 1000) ;;
       mah <- py_round quotient ;;
       set_raw "battery_capacity_mah" (VInt mah)))
    (fun _ => ret tt).

Definition detect_network : M detector unit :=
  lspci_net <- shell "lspci | grep -i 'network\|ethernet\|wireless\|wi-fi'" ;;
  set_raw "lspci_network" (VStr lspci_net) ;;;
  let lspci_lower := PyStr.lower lspci_net in
  (if PyStr.contains "wireless" lspci_lower || PyStr.contains "wi-fi" lspci_lower
      || PyStr.contains "wifi" lspci_lower || PyStr.contains "network controller" lspci_lower
   then
     set_raw "has_wifi" (VBool true) ;;;
     let iwconfig_output := run_command "iwconfig" in
     when (PyStr.contains "IEEE 802.11" iwconfig_output)
       (set_raw "wifi_standard" (VStr "802.11a/b/g/n/ac"))
   else set_raw "has_wifi" (VBool false)) ;;;
  when (PyStr.contains "ethernet" (PyStr.lower lspci_net))
    (set_raw "has_ethernet" (VBool true)) ;;;
  try_except
    (let hciconfig_output := run_command "hciconfig" in
     when (PyStr.contains "hci0" hciconfig_output)
       (set_raw "has_bluetooth" (VBool true)))
    (fun _ => ret tt).

Definition detect_usb_ports : M detector unit :=
  let lsusb_output := run_command "lsusb" in
  set_raw "lsusb" (VStr lsusb_output) ;;;
  try_except
    (out <- shell "find /sys/bus/usb/devices/usb* -name 'product' | wc -l" ;;
     let usb_ports := PyStr.strip out in
     if String.eqb usb_ports "" then set_raw "usb_port_count" (VInt 0)
     else n <- py_int usb_ports ;; set_raw "usb_port_count" (VInt n))
    (fun _ => ret tt).

Definition detect_webcam : M detector unit :=
  try_except
    (out <- shell "ls /dev/video* 2>/dev/null | wc -l" ;;
     let video_devices := PyStr.strip out in
     if String.eqb video_devices "" then set_raw "has_webcam" (VBool false)
     else n <- py_int video_devices ;;
          if (0 <? n)%Z then set_raw "has_webcam" (VBool true)
          else set_raw "has_webcam" (VBool false))
    (fun _ => set_raw "has_webcam" (VBool false)).

Definition detect_all : M detector unit :=
  detect_system_info ;;;
  detect_processor ;;;
  detect_memory ;;;
  detect_display ;;;
  detect_graphics ;;;
  detect_storage ;;;
  detect_battery ;;;
  detect_network ;;;
  detect_usb_ports ;;;
  detect_webcam.

End Detector.

(** ** The mapper *)

(** The shapes of the right-hand sides in the dictionary literal of
    [map_to_bestbuy_fields]. *)
Inductive field_source :=
| Fixed (s : string)          (* a literal *)
| Sku                          (* f"SKU-{raw.get('sku', 'UNKNOWN')}" *)
| Raw (k : string)             (* raw.get(k, '') *)
| RawOr (k k' : string)        (* raw.get(k, raw.get(k', '')) *)
| RamLine                      (* f"{ram_size_gb} GB {ram_type} {ram_speed}" *)
| Flag (k : string).           (* "Yes" if raw.get(k) else "No" *)

Definition field_table : list (string * field_source) := [
  ("BBYCat", Fixed "Computers/Laptops");
  ("shop_sku", Sku);
  ("_Brand_Name_Category_Root_EN", Raw "brand");
  ("_Model_Number_Category_Root_EN", Raw "model");
  ("_ProcessorType_3885_CAT_1002_EN", Raw "cpu_model");
  ("_ProcessorSpeed_3886_CAT_1002_EN", RawOr "cpu_max_ghz" "cpu_speed_ghz");
  ("_ProcessorCores_23322_CAT_1002_EN", Raw "cpu_cores");
  ("_ProcessorCache_3897_CAT_1002_EN", Raw "cpu_l3_cache");
  ("_RAMSize_9685909_CAT_1002_EN", Raw "ram_size_gb");
  ("_RAMType_24674_CAT_1002_EN", RamLine);
  ("_SolidStateDriveCapacity_4085597_CAT_1002_EN", Raw "ssd_capacity_gb");
  ("_HardDiskDriveCapacity_4085566_CAT_1002_EN", Raw "hdd_capacity_gb");
  ("_ScreenSize_3914_CAT_1002_EN", Raw "screen_size_inches");
  ("_NativeScreenResolution_15195_CAT_1002_EN", Raw "screen_resolution");
  ("_ScreenResolution_25959883_CAT_1002_EN", Raw "screen_resolution");
  ("_TouchscreenDisplay_23335_CAT_1002_EN", Flag "has_touchscreen");
  ("_GraphicsCard_15196_CAT_1002_EN", Raw "gpu_model");
  ("_GraphicsProcessingUnitType_22765592_CAT_1002_EN", Raw "gpu_type");
  ("_BatteryCapacity_15253_CAT_1002_EN", Raw "battery_capacity_mah");
  ("_IntegratedWiFi_15245_CAT_1002_EN", Flag "has_wifi");
  ("_IntegratedBluetooth_15246_CAT_1002_EN", Flag "has_bluetooth");
  ("_EthernetPort_6605_CAT_1002_EN", Flag "has_ethernet");
  ("_Webcam_15213_CAT_1002_EN", Flag "has_webcam")
].

(** The raw values a right-hand side reads. *)
Definition source_values (raw : gmap string value) (src : field_source) : list value :=
  match src with
  | Fixed s => [VStr s]
  | Sku => [dict_get_or raw "sku" (VStr "UNKNOWN")]
  | Raw k => [dict_get_or raw k (VStr "")]
  | RawOr k k' => [dict_get_or raw k (dict_get_or raw k' (VStr ""))]
  | RamLine => [dict_get_or raw "ram_size_gb" (VStr ""); dict_get_or raw "ram_type" (VStr "");
                dict_get_or raw "ram_speed" (VStr "")]
  | Flag k => [dict_get raw k]
  end.

Definition all_falsy (vs : list value) : bool := forallb (fun v => negb (truthy v)) vs.

(** The attributes that are a raw field copied as it is. *)
Definition is_copy (src : field_source) : bool :=
  match src with
  | Raw _ | RawOr _ _ => true
  | _ => false
  end.

Section Mapper.
Context (P : platform).

(** The value of a right-hand side. *)
Definition field_value (raw : gmap string value) (src : field_source) : value :=
  match src with
  | Fixed s => VStr s
  | Sku => VStr ("SKU-" ++ py_str P (dict_get_or raw "sku" (VStr "UNKNOWN")))
  | Raw k => dict_get_or raw k (VStr "")
  | RawOr k k' => dict_get_or raw k (dict_get_or raw k' (VStr ""))
  | RamLine =>
      VStr (py_str P (dict_get_or raw "ram_size_gb" (VStr "")) ++ " GB "
            ++ py_str P (dict_get_or raw "ram_type" (VStr "")) ++ " "
            ++ py_str P (dict_get_or raw "ram_speed" (VStr "")))
  | Flag k => VStr (if truthy (dict_get raw k) then "Yes" else "No")
  end.

(** The dictionary literal. *)
Definition bestbuy_literal (raw : gmap string value) : gmap string value :=
  list_to_map (map (fun '(k, src) => (k, field_value raw src)) field_table).

(** [{k: v for k, v in d.items() if v}] *)
Definition drop_empty (d : gmap string value) : gmap string value :=
  filter (fun kv => truthy kv.2 = true) d.

(** The attribute set that [map_to_bestbuy_fields] stores. *)
Definition bestbuy_fields (raw : gmap string value) : gmap string value :=
  drop_empty (bestbuy_literal raw).

Definition map_to_bestbuy_fields : M detector unit :=
  modify (fun self => {| raw_data := raw_data self;
                         bestbuy_data := bestbuy_fields (raw_data self) |}).

End Mapper.

(** ** The interactive prompt *)

(** What each [input()] of the prompt returns when it is reached: the
    line typed, or [None] when the input has ended and the call raises
    [EOFError]. *)
Record answers := {
  screen_size_answer : option string;
  keyboard_choice : option string;
  backlit_answer : option string;
  touchscreen_answer : option string;
  convertible_answer : option string;
  color_answer : option string;
  condition_choice : option string
}.

(** [input(...)] *)
Definition input (answer : option string) : M detector string :=
  or_raise EOFError answer.

(** [v == 0] *)
Definition eq_zero (v : value) : bool :=
  match v with
  | VInt z => (z =? 0)%Z
  | VFloat x => PyFloat.eqb x (PyFloat.Finite 0)
  | VBool b => negb b
  | _ => false
  end.

Definition keyboard_language (choice : string) : string :=
  if String.eqb choice "1" then "English"
  else if String.eqb choice "2" then "French"
  else if String.eqb choice "3" then "Bilingual"
  else "English".

Definition condition_map (choice : string) : string :=
  if String.eqb choice "1" then "Brand New"
  else if String.eqb choice "2" then "Open Box"
  else if String.eqb choice "3" then "Refurbished Excellent"
  else if String.eqb choice "4" then "Refurbished Good"
  else if String.eqb choice "5" then "Refurbished Fair"
  else "Brand New".

(** [input(...).strip().lower() == 'y'] as "Yes" or "No". *)
Definition yes_if_y (answer : string) : value :=
  VStr (if String.eqb (PyStr.lower (PyStr.strip answer)) "y" then "Yes" else "No").

Definition prompt_manual_fields (a : answers) : M detector unit :=
  screen <- raw_get "screen_size_inches" ;;
  when (negb (truthy screen) || eq_zero screen)
    (typed <- input (screen_size_answer a) ;;
     let screen_size_input := PyStr.strip typed in
     try_except
       (x <- py_float screen_size_input ;; set_raw "screen_size_inches" (VFloat x))
       (fun _ => set_raw "screen_size_inches" (VFloat (PyFloat.round64 14.0)))) ;;;
  choice <- input (keyboard_choice a) ;;
  set_bestbuy "_KeyboardLanguage_24678_CAT_1002_EN"
    (VStr (keyboard_language (PyStr.strip choice))) ;;;
  backlit <- input (backlit_answer a) ;;
  set_bestbuy "_BacklitKeyboard_24680_CAT_1002_EN" (yes_if_y backlit) ;;;
  touch <- raw_get "has_touchscreen" ;;
  when (is_none touch)
    (touchscreen <- input (touchscreen_answer a) ;;
     set_raw "has_touchscreen"
       (VBool (String.eqb (PyStr.lower (PyStr.strip touchscreen)) "y"))) ;;;
  convertible <- input (convertible_answer a) ;;
  set_bestbuy "_ConvertibleHybridDisplay_36185_CAT_1002_EN" (yes_if_y convertible) ;;;
  color <- input (color_answer a) ;;
  set_bestbuy "_Colour_5105_CAT_1002_EN" (VStr (PyStr.strip color)) ;;;
  condition <- input (condition_choice a) ;;
  set_bestbuy "_ProductCondition_20257570_CAT_1002_EN"
    (VStr (condition_map (PyStr.strip condition))).

(** ** The hosted database *)

(** A cell of a row: a scalar, or the JSON document stored in
    [raw_detection_json]. *)
Inductive cell :=
| CValue (v : value)
| CJson (d : gmap string value).

Abbreviation row := (gmap string cell).

(** [.eq(column, v)] and [.is_(column, None)] *)
Inductive condition :=
| Eq (column : string) (v : value)
| IsNull (column : string).

(** What [execute()] sends. *)
Inductive request :=
| Select (table : string) (columns : list string) (conditions : list condition)
| Insert (table : string) (r : row)
| Upsert (table : string) (r : row) (on_conflict : string).

(** State of the service: the rows of each table and the requests received
    so far, oldest first. *)
Record remote := {
  tables : gmap string (list row);
  requests : list request
}.

(** The service behind the client object: which request fails (counted
    from 0 over the requests received) and with what error, and the columns
    the server fills in when a row is inserted ([id], [shop_sku], ...),
    with their scalar values. *)
Record client := {
  fault : nat -> option exn;
  generated : string -> list row -> gmap string value
}.

(** The value the service compares and returns for a column: a column
    without a value is null. *)
Definition row_get (r : row) (column : string) : value :=
  match r !! column with
  | Some (CValue v) => v
  | _ => VNone
  end.

(** [r[column]] on a row of a response: [KeyError] when the row has no
    such column.  The rows indexed are those of a query, or of an insert
    of scalar columns completed by the server. *)
Definition row_item (r : row) (column : string) : res value :=
  match r !! column with
  | Some _ => Ret (row_get r column)
  | None => Raise (KeyError column)
  end.

(** SQL equality of a stored value and a literal; null equals nothing. *)
Definition sql_eq (x v : value) : bool :=
  match x, v with
  | VBool a, VBool b => Bool.eqb a b
  | VInt a, VInt b => (a =? b)%Z
  | VFloat a, VFloat b => PyFloat.eqb a b
  | VInt a, VFloat b => PyFloat.eqb (PyFloat.Finite (inject_Z a)) b
  | VFloat a, VInt b => PyFloat.eqb a (PyFloat.Finite (inject_Z b))
  | VStr a, VStr b => String.eqb a b
  | _, _ => false
  end.

Definition holds (r : row) (c : condition) : bool :=
  match c with
  | Eq column v => sql_eq (row_get r column) v
  | IsNull column => is_none (row_get r column)
  end.

Definition matching (conditions : list condition) (r : row) : bool :=
  forallb (holds r) conditions.

Definition project (columns : list string) (r : row) : row :=
  list_to_map (map (fun c => (c, CValue (row_get r c))) columns).

Definition rows_of (w : remote) (table : string) : list row :=
  default [] (tables w !! table).

(** The row as stored: the values sent, completed by the server. *)
Definition stored_row (supabase : client) (table : string) (rows : list row) (r : row) : row :=
  r ∪ (CValue <$> generated supabase table rows).

(** [upsert]: the first row that agrees on the conflict column takes the
    new values, otherwise the row is inserted. *)
Fixpoint merge_row (on_conflict : string) (r : row) (rows : list row) : option (list row) :=
  match rows with
  | [] => None
  | old :: rest =>
      if sql_eq (row_get old on_conflict) (row_get r on_conflict)
      then Some ((r ∪ old) :: rest)
      else option_map (cons old) (merge_row on_conflict r rest)
  end.

(** Effect of a request that succeeds: the new tables and the rows of the
    response. *)
Definition apply_request (supabase : client) (rq : request) (w : remote)
  : gmap string (list row) * list row :=
  match rq with
  | Select table columns conditions =>
      (tables w, map (project columns) (List.filter (matching conditions) (rows_of w table)))
  | Insert table r =>
      let new := stored_row supabase table (rows_of w table) r in
      (<[table := rows_of w table ++ [new]]> (tables w), [new])
  | Upsert table r on_conflict =>
      match merge_row on_conflict r (rows_of w table) with
      | Some rows => (<[table := rows]> (tables w), [r])
      | None =>
          let new := stored_row supabase table (rows_of w table) r in
          (<[table := rows_of w table ++ [new]]> (tables w), [new])
      end
  end.

(** [query.execute()]: the request is received; it fails, leaving the
    tables as they are, or it is applied. *)
Definition execute (supabase : client) (rq : request) : M remote (list row) :=
  fun w =>
    let received := requests w ++ [rq] in
    match fault supabase (length (requests w)) with
    | Some e => (Raise e, {| tables := tables w; requests := received |})
    | None =>
        let '(t, data) := apply_request supabase rq w in
        (Ret data, {| tables := t; requests := received |})
    end.

(** The service after a request that succeeded, and after one that
    failed. *)
Definition succeeded (supabase : client) (w : remote) (rq : request) : remote :=
  {| tables := (apply_request supabase rq w).1; requests := requests w ++ [rq] |}.
Definition failed (w : remote) (rq : request) : remote :=
  {| tables := tables w; requests := requests w ++ [rq] |}.

(** The service after the requests [rqs], all successful. *)
Definition ok_run (supabase : client) (rqs : list request) (w : remote) : remote :=
  fold_left (succeeded supabase) rqs w.

(** None of the [n] requests that follow those of [w] is made to fail. *)
Definition no_fault (supabase : client) (w : remote) (n : nat) : Prop :=
  forall i, (i < n)%nat -> fault supabase (length (requests w) + i) = None.

Definition is_write (rq : request) : bool :=
  match rq with
  | Select _ _ _ => false
  | _ => true
  end.

(** ** supabase_uploader.py *)

(** [k in d] *)
Definition has_key {A} (d : gmap string A) (k : string) : bool :=
  match d !! k with Some _ => true | None => false end.

(** [a or b] *)
Definition py_or (a b : value) : value := if truthy a then a else b.

(** What [for gpu_line in raw_data["gpus"]] ranges over when the value is
    truthy: the list itself, or the characters of a string; numbers are not
    iterable and a device entry has no [lower]. *)
Definition gpu_lines_of (gpus : value) : res (list string) :=
  match gpus with
  | VStrs l => Ret l
  | VStr s => Ret (map (fun c => String c EmptyString) (list_ascii_of_string s))
  | VDevices _ => Raise AttributeError
  | _ => Raise TypeError
  end.

(** The first iteration of a loop that returns. *)
Fixpoint first_return (body : string -> option string) (lines : list string) : value :=
  match lines with
  | [] => VNone
  | line :: rest =>
      match body line with
      | Some name => VStr name
      | None => first_return body rest
      end
  end.

(** [int(v)] *)
Definition value_int (v : value) : res Z :=
  match v with
  | VInt z => Ret z
  | VBool b => Ret (if b then 1 else 0)%Z
  | VFloat x => PyNum.trunc x
  | VStr s => match PyNum.int s with
              | Some z => Ret z
              | None => Raise (ValueError "invalid literal for int()")
              end
  | _ => Raise TypeError
  end.

Section Uploader.
Context (P : platform).

(** The name taken from a line: the bracketed part prefixed by the vendor,
    else the text after [controller:] up to the first parenthesis. *)
Definition name_in_line (vendor gpu_line : string) : option string :=
  match re_search P "\[(.+?)\]" gpu_line with
  | Some g => Some (vendor ++ " " ++ group 1 g)%string
  | None =>
      match PyStr.split "controller:" gpu_line with
      | _ :: p1 :: _ => Some (PyStr.strip (hd "" (PyStr.split "(" (PyStr.strip p1))))
      | _ => None
      end
  end.

Definition integrated_in_line (gpu_line : string) : option string :=
  let l := PyStr.lower gpu_line in
  let intel :=
    if PyStr.contains "intel" l
       && (PyStr.contains "uhd" l || PyStr.contains "iris" l || PyStr.contains "hd graphics" l)
    then name_in_line "Intel" gpu_line else None in
  match intel with
  | Some name => Some name
  | None =>
      if PyStr.contains "amd" l && PyStr.contains "radeon" l && PyStr.contains "vega" l
      then name_in_line "AMD" gpu_line else None
  end.

Definition dedicated_in_line (gpu_line : string) : option string :=
  let l := PyStr.lower gpu_line in
  let nvidia :=
    if PyStr.contains "nvidia" l then name_in_line "NVIDIA" gpu_line else None in
  match nvidia with
  | Some name => Some name
  | None =>
      if PyStr.contains "amd" l && PyStr.contains "radeon" l && PyStr.contains "rx" l
      then name_in_line "AMD" gpu_line else None
  end.

(** The fallback of both extractors: parse [raw_data["gpus"]]. *)
Definition parse_gpus (body : string -> option string) (raw_data : gmap string value) : res value :=
  match raw_data !! "gpus" with
  | Some gpus =>
      if truthy gpus
      then match gpu_lines_of gpus with
           | Ret lines => Ret (first_return body lines)
           | Raise e => Raise e
           end
      else Ret VNone
  | None => Ret VNone
  end.

(** The conditions of the two first branches. *)
Definition integrated_fast_path (raw_data : gmap string value) : bool :=
  has_key raw_data "gpu_model" && eq_str (dict_get raw_data "gpu_type") "Integrated GPU".
Definition dedicated_fast_path (raw_data : gmap string value) : bool :=
  has_key raw_data "gpu_model"
  && eq_str (dict_get raw_data "gpu_type") "Dedicated or Discrete GPU".

Definition extract_integrated_gpu (raw_data : gmap string value) : res value :=
  if integrated_fast_path raw_data then Ret (dict_get raw_data "gpu_model")
  else parse_gpus integrated_in_line raw_data.

Definition extract_dedicated_gpu (raw_data : gmap string value) : res value :=
  if dedicated_fast_path raw_data then Ret (dict_get raw_data "gpu_model")
  else parse_gpus dedicated_in_line raw_data.

Definition has_dedicated_gpu (raw_data : gmap string value) : res bool :=
  match extract_dedicated_gpu raw_data with
  | Ret dedicated => Ret (negb (is_none dedicated))
  | Raise e => Raise e
  end.

(** [model_data] *)
Definition model_data_of (raw_data : gmap string value) (has_touchscreen : bool)
    (integrated_gpu dedicated_gpu : value) : row :=
  list_to_map [
    ("base_model_name", CValue (dict_get_or raw_data "model" (VStr "Unknown Model")));
    ("cpu_model", CValue (dict_get_or raw_data "cpu_model" (VStr "Unknown CPU")));
    ("screen_size_inches", CValue (dict_get raw_data "screen_size_inches"));
    ("has_touchscreen", CValue (VBool has_touchscreen));
    ("integrated_gpu_model", CValue integrated_gpu);
    ("dedicated_gpu_model", CValue dedicated_gpu)
  ].

(** [.is_(column, None)] for a null, [.eq(column, value)] otherwise. *)
Definition nullable (model_data : row) (column : string) : condition :=
  if is_none (row_get model_data column) then IsNull column
  else Eq column (row_get model_data column).

(** The conditions of the query that looks the model up. *)
Definition model_conditions (model_data : row) : list condition := [
  Eq "base_model_name" (row_get model_data "base_model_name");
  Eq "cpu_model" (row_get model_data "cpu_model");
  Eq "screen_size_inches" (row_get model_data "screen_size_inches");
  Eq "has_touchscreen" (row_get model_data "has_touchscreen");
  nullable model_data "integrated_gpu_model";
  nullable model_data "dedicated_gpu_model"
].

Definition model_query (model_data : row) : request :=
  Select "laptop_models" ["id"] (model_conditions model_data).

(** The dictionary returned when the model is found. *)
Definition exists_result (model_id : value) : gmap string value :=
  list_to_map [
    ("model_id", model_id);
    ("variant_id", VNone);
    ("shop_sku", VNone);
    ("status", VStr "exists");
    ("message", VStr "Model already exists in database. No changes made.")
  ].

Definition created_result (model_id variant_id shop_sku : value) : gmap string value :=
  list_to_map [
    ("model_id", model_id);
    ("variant_id", variant_id);
    ("shop_sku", shop_sku);
    ("status", VStr "created");
    ("message", VStr "Successfully created model, hardware data, variant, inventory, and manual fields.")
  ].

(** [data[0]] *)
Definition first_row (data : list row) : M remote row :=
  or_raise IndexError (head data).

(** Step 1.  The result is the dictionary of the early [return], or the
    id of the model just created. *)
Definition find_or_create_model (supabase : client) (model_data : row)
  : M remote (gmap string value + value) :=
  try_except
    (existing_model <- execute supabase (model_query model_data) ;;
     match existing_model with
     | found :: _ =>
         model_id <- lift_res (row_item found "id") ;;
         ret (inl (exists_result model_id))
     | [] =>
         new_model <- execute supabase (Insert "laptop_models" model_data) ;;
         created <- first_row new_model ;;
         model_id <- lift_res (row_item created "id") ;;
         ret (inr model_id)
     end)
    (fun e => raise e).

Definition hardware_data_of (raw_data : gmap string value) (model_id : value)
    (has_touchscreen : bool) (integrated_gpu dedicated_gpu : value) (has_dedicated : bool) : row :=
  list_to_map [
    ("model_id", CValue model_id);
    ("brand", CValue (dict_get raw_data "brand"));
    ("model", CValue (dict_get raw_data "model"));
    ("manufacturer_sku", CValue (dict_get raw_data "sku"));
    ("cpu_speed_ghz", CValue (py_or (dict_get raw_data "cpu_max_ghz")
                                    (dict_get raw_data "cpu_speed_ghz")));
    ("cpu_cores", CValue (dict_get raw_data "cpu_cores"));
    ("cpu_cache", CValue (dict_get raw_data "cpu_l3_cache"));
    ("ram_type", CValue (dict_get raw_data "ram_type"));
    ("screen_resolution", CValue (dict_get raw_data "screen_resolution"));
    ("has_touchscreen", CValue (VBool has_touchscreen));
    ("integrated_gpu_model", CValue integrated_gpu);
    ("dedicated_gpu_model", CValue dedicated_gpu);
    ("has_dedicated_gpu", CValue (VBool has_dedicated));
    ("has_wifi", CValue (dict_get_or raw_data "has_wifi" (VBool false)));
    ("has_bluetooth", CValue (dict_get_or raw_data "has_bluetooth" (VBool false)));
    ("has_ethernet", CValue (dict_get_or raw_data "has_ethernet" (VBool false)));
    ("has_webcam", CValue (dict_get_or raw_data "has_webcam" (VBool false)));
    ("raw_detection_json", CJson raw_data)
  ].

(** Step 2. *)
Definition save_hardware_data (supabase : client) (hardware_data : row) : M remote unit :=
  try_except
    (execute supabase (Upsert "laptop_hardware_data" hardware_data "model_id") ;;; ret tt)
    (fun e => raise e).

(** Step 3: the variant id and its SKU. *)
Definition find_or_create_variant (supabase : client) (model_id : value) (ram_gb : Z)
    (ssd_gb : value) : M remote (value * value) :=
  let variant_data : row :=
    list_to_map [
      ("model_id", CValue model_id);
      ("ram_size_gb", CValue (VInt ram_gb));
      ("ssd_capacity_gb", CValue ssd_gb);
      ("price", CValue VNone)
    ] in
  try_except
    (existing_variant <-
       execute supabase
         (Select "laptop_variants" ["id"; "shop_sku"]
            [Eq "model_id" model_id; Eq "ram_size_gb" (VInt ram_gb);
             Eq "ssd_capacity_gb" ssd_gb]) ;;
     match existing_variant with
     | found :: _ =>
         variant_id <- lift_res (row_item found "id") ;;
         shop_sku <- lift_res (row_item found "shop_sku") ;;
         ret (variant_id, shop_sku)
     | [] =>
         new_variant <- execute supabase (Insert "laptop_variants" variant_data) ;;
         created <- first_row new_variant ;;
         variant_id <- lift_res (row_item created "id") ;;
         shop_sku <- lift_res (row_item created "shop_sku") ;;
         ret (variant_id, shop_sku)
     end)
    (fun e => raise e).

(** Step 4. *)
Definition create_inventory (supabase : client) (model_id : value) : M remote unit :=
  let inventory_data : row :=
    list_to_map [
      ("model_id", CValue model_id);
      ("inventory_count", CValue (VInt 0));
      ("damaged_count", CValue (VInt 0))
    ] in
  try_except
    (execute supabase (Upsert "laptops" inventory_data "model_id") ;;; ret tt)
    (fun e => raise e).

(** [manual_fields_data] once the [None] values are removed. *)
Definition manual_fields_of (bestbuy_data : gmap string value) (variant_id : value)
  : list (string * value) :=
  List.filter (fun kv => negb (is_none kv.2)) [
    ("variant_id", variant_id);
    ("keyboard_language", dict_get bestbuy_data "_KeyboardLanguage_24678_CAT_1002_EN");
    ("backlit_keyboard",
      VBool (eq_str (dict_get bestbuy_data "_BacklitKeyboard_24680_CAT_1002_EN") "Yes"));
    ("convertible_hybrid",
      VBool (eq_str (dict_get bestbuy_data "_ConvertibleHybridDisplay_36185_CAT_1002_EN") "Yes"));
    ("colour", dict_get bestbuy_data "_Colour_5105_CAT_1002_EN");
    ("product_condition", dict_get bestbuy_data "_ProductCondition_20257570_CAT_1002_EN")
  ].

(** Step 5. *)
Definition save_manual_fields (supabase : client) (manual_fields_data : list (string * value))
  : M remote unit :=
  try_except
    (if (1 <? length manual_fields_data)%nat
     then execute supabase
            (Upsert "laptop_manual_fields"
               (list_to_map (map (fun kv => (kv.1, CValue kv.2)) manual_fields_data))
               "variant_id") ;;; ret tt
     else ret tt)
    (fun e => raise e).

Definition upload_to_database (supabase : client)
    (raw_data bestbuy_data : gmap string value) : M remote (gmap string value) :=
  integrated_gpu <- lift_res (extract_integrated_gpu raw_data) ;;
  dedicated_gpu <- lift_res (extract_dedicated_gpu raw_data) ;;
  has_dedicated <- lift_res (has_dedicated_gpu raw_data) ;;
  let has_touchscreen :=
    eq_str (dict_get bestbuy_data "_TouchscreenDisplay_23335_CAT_1002_EN") "Yes" in
  let model_data := model_data_of raw_data has_touchscreen integrated_gpu dedicated_gpu in
  step1 <- find_or_create_model supabase model_data ;;
  match step1 with
  | inl result => ret result
  | inr model_id =>
      save_hardware_data supabase
        (hardware_data_of raw_data model_id has_touchscreen integrated_gpu dedicated_gpu
           has_dedicated) ;;;
      ram_gb <- lift_res (value_int (dict_get_or raw_data "ram_size_gb" (VInt 0))) ;;
      let ssd_gb := dict_get_or raw_data "ssd_capacity_gb" (VInt 0) in
      variant <- find_or_create_variant supabase model_id ram_gb ssd_gb ;;
      let '(variant_id, shop_sku) := variant in
      create_inventory supabase model_id ;;;
      save_manual_fields supabase (manual_fields_of bestbuy_data variant_id) ;;;
      ret (created_result model_id variant_id shop_sku)
  end.

End Uploader.

(** ** Files, secrets and [main] *)

(** A JSON document as Python holds it; [json] reads and writes the
    floats that are not finite as [Infinity], [-Infinity] and [NaN]. *)
#[local] Set Warnings "-register-all".
Inductive json :=
| JNull
| JBool (b : bool)
| JNum (q : Q)
| JInfinity (negative : bool)
| JNaN
| JStr (s : string)
| JArr (l : list json)
| JObj (l : list (string * json)).

(** The files and the hosted service.  A file is represented by what
    [json.load] makes of it: [None] when its text is not JSON. *)
Record world := {
  files : gmap string (option json);
  service : remote
}.

(** What the machine offers to [main] besides the platform: whether the
    [supabase] package can be imported, what [create_client] answers, and
    the clock. *)
Record host := {
  supabase_installed : bool;
  create_client : json -> json -> res client;
  now_isoformat : string
}.

Definition on_service {A} (m : M remote A) : M world A :=
  fun w => let '(r, s) := m (service w) in (r, {| files := files w; service := s |}).

Definition write_file (path : string) (content : json) : M world unit :=
  modify (fun w => {| files := <[path := Some content]> (files w); service := service w |}).

Definition json_eqb_str (j : json) (s : string) : bool :=
  match j with JStr t => String.eqb t s | _ => false end.

(** [k in secrets] for what [json.load] can return. *)
Definition json_contains (secrets : json) (k : string) : res bool :=
  match secrets with
  | JObj l => Ret (existsb (fun kv => String.eqb kv.1 k) l)
  | JArr l => Ret (existsb (fun j => json_eqb_str j k) l)
  | JStr s => Ret (PyStr.contains k s)
  | _ => Raise TypeError
  end.

(** [[k for k in required if k not in secrets]] *)
Fixpoint missing_keys (secrets : json) (required : list string) : res (list string) :=
  match required with
  | [] => Ret []
  | k :: rest =>
      match json_contains secrets k with
      | Raise e => Raise e
      | Ret present =>
          match missing_keys secrets rest with
          | Raise e => Raise e
          | Ret more => Ret (if present then more else k :: more)
          end
      end
  end.

Definition join (sep : string) (l : list string) : string :=
  match l with
  | [] => ""
  | x :: r => fold_left (fun acc y => acc ++ sep ++ y)%string r x
  end.

Definition required_secrets : list string := ["supabase_url"; "supabase_anon_key"].

Definition load_secrets (secrets_path : string) : M world json :=
  w <- get_state ;;
  match files w !! secrets_path with
  | None => raise (FileNotFoundError ("Secrets file not found: " ++ secrets_path))
  | Some content =>
      secrets <- or_raise JSONDecodeError content ;;
      missing <- lift_res (missing_keys secrets required_secrets) ;;
      match missing with
      | [] => ret secrets
      | _ => raise (ValueError ("Missing required secrets: " ++ join ", " missing))
      end
  end.

(** [secrets[k]] *)
Definition json_item (secrets : json) (k : string) : res json :=
  match secrets with
  | JObj l =>
      match List.find (fun kv => String.eqb kv.1 k) l with
      | Some kv => Ret kv.2
      | None => Raise (KeyError k)
      end
  | _ => Raise TypeError
  end.

Definition create_supabase_client (H : host) (secrets : json) : M world client :=
  url <- lift_res (json_item secrets "supabase_url") ;;
  key <- lift_res (json_item secrets "supabase_anon_key") ;;
  lift_res (create_client H url key).

(** [json.dump] of the values of a bag. *)
Definition json_of_value (v : value) : json :=
  match v with
  | VNone => JNull
  | VBool b => JBool b
  | VInt z => JNum (inject_Z z)
  | VFloat (PyFloat.Finite q) => JNum q
  | VFloat (PyFloat.Infinity negative) => JInfinity negative
  | VFloat PyFloat.NaN => JNaN
  | VStr s => JStr s
  | VStrs l => JArr (map JStr l)
  | VDevices l =>
      JArr (map (fun e => JObj [("device", JStr (se_device e)); ("size", JStr (se_size e));
                                ("type", JStr (se_type e))]) l)
  end.

Definition json_of_dict (d : gmap string value) : json :=
  JObj (map (fun kv => (kv.1, json_of_value kv.2)) (map_to_list d)).

Definition bestbuy_only_file (output_file : string) : string :=
  PyStr.replace ".json" "_bestbuy_only.json" output_file.

Definition save_results (H : host) (self : detector) (output_file : string) : M world unit :=
  let output :=
    JObj [("detection_timestamp", JStr (now_isoformat H));
          ("raw_hardware_data", json_of_dict (raw_data self));
          ("bestbuy_fields", json_of_dict (bestbuy_data self))] in
  write_file output_file output ;;;
  write_file (bestbuy_only_file output_file) (json_of_dict (bestbuy_data self)).

Definition default_output_file : string := "laptop_hardware_data.json".

(** The command line. *)
Record arguments := {
  upload : bool;
  secrets : string
}.

(** The body of the [try] in [main]. *)
Definition upload_results (P : platform) (H : host) (args : arguments) (self : detector)
  : M world (gmap string value) :=
  (if supabase_installed H then ret tt else raise ImportError) ;;;
  loaded <- load_secrets (secrets args) ;;
  supabase <- create_supabase_client H loaded ;;
  on_service (upload_to_database P supabase (raw_data self) (bestbuy_data self)).

(** The four [except] clauses of [main], in order. *)
Definition fallback (H : host) (self : detector) (e : exn) : M world unit :=
  if is_ImportError e then save_results H self default_output_file
  else if is_FileNotFoundError e then save_results H self default_output_file
  else if is_ValueError e then save_results H self default_output_file
  else save_results H self default_output_file.

(** The detection, the mapping and the prompt, on a new detector. *)
Definition detect_and_prompt (P : platform) (a : answers) : M detector unit :=
  detect_all P ;;;
  map_to_bestbuy_fields P ;;;
  prompt_manual_fields a.

Definition main (P : platform) (H : host) (args : arguments) (a : answers) : M world unit :=
  match detect_and_prompt P a new_detector with
  | (Raise e, _) => raise e
  | (Ret _, self) =>
      if upload args
      then try_except (upload_results P H args self ;;; ret tt) (fallback H self)
      else save_results H self default_output_file
  end.

(** ** Notions used in the statements *)

(** Every run of [m] consists of requests that succeed, possibly followed
    by one request that fails; in that case [m] raises the error of that
    request and the tables are those left by the requests before it. *)
Definition aborts_cleanly {A} (supabase : client) (m : M remote A) : Prop :=
  forall w, exists ok,
    no_fault supabase w (length ok) /\
    ((m w).2 = ok_run supabase ok w \/
     exists rq e,
       (m w).1 = Raise e /\
       fault supabase (length (requests w) + length ok) = Some e /\
       (m w).2 = failed (ok_run supabase ok w) rq).

(** The model key in the words of the specification: brand, CPU, screen
    size, touchscreen flag and the GPU pair. *)
Definition described_key (raw_data : gmap string value) (has_touchscreen : bool)
    (integrated_gpu dedicated_gpu : value) : list value :=
  [dict_get raw_data "brand";
   dict_get_or raw_data "cpu_model" (VStr "Unknown CPU");
   dict_get raw_data "screen_size_inches";
   VBool has_touchscreen;
   integrated_gpu;
   dedicated_gpu].

(** The status in the dictionary that a run of [upload_to_database]
    returns. *)
Definition outcome_status (run : res (gmap string value) * remote) : option value :=
  match run.1 with
  | Ret result => result !! "status"
  | Raise _ => None
  end.

(** [m] never raises. *)
Definition succeeds {S A} (m : M S A) : Prop :=
  forall s, exists a, (m s).1 = Ret a.

(** Whenever [m] returns, the state it leaves satisfies [Q]. *)
Definition ensures {S A} (m : M S A) (Q : S -> Prop) : Prop :=
  forall s a s', m s = (Ret a, s') -> Q s'.



(** [m] keeps [Q] true, whatever its outcome. *)
Definition preserves {S A} (Q : S -> Prop) (m : M S A) : Prop :=
  forall s, Q s -> Q (m s).2.

(** The table a request addresses. *)
Definition request_table (rq : request) : string :=
  match rq with
  | Select t _ _ | Insert t _ | Upsert t _ _ => t
  end.

(** The five texts [detect_storage] stores under
    [storage_soldered_confidence]. *)
Definition confidence_values : list string :=
  ["confirmed_soldered";
   "unknown - M.2 SSD detected, could be socketed or soldered";
   "likely_removable - SATA interface typically uses removable drives";
   "no_storage_detected";
   "unknown"].

(** The steps after the first one, as the requests they add. *)
Definition later_steps (rqs : list request) : Prop :=
  map (fun rq => (is_write rq, request_table rq)) rqs
    = [(true, "laptop_hardware_data"); (false, "laptop_variants"); (true, "laptops");
       (true, "laptop_manual_fields")] \/
  map (fun rq => (is_write rq, request_table rq)) rqs
    = [(true, "laptop_hardware_data"); (false, "laptop_variants"); (true, "laptop_variants");
       (true, "laptops"); (true, "laptop_manual_fields")].

(** The shape of the two values the uploader converts: [gpus] is absent or
    a list of lines, [ram_size_gb] absent or an integer. *)
Definition uploadable (raw : gmap string value) : Prop :=
  (raw !! "gpus" = None \/ exists gpu_lines, raw !! "gpus" = Some (VStrs gpu_lines)) /\
  (raw !! "ram_size_gb" = None \/ exists n, raw !! "ram_size_gb" = Some (VInt n)).

(** The server fills in [column] in every row inserted into [table]. *)
Definition fills_in (supabase : client) (table column : string) : Prop :=
  forall rows, is_Some (generated supabase table rows !! column).

(** The disks of an [lsblk] listing: the lines after the header that the
    first loop of [detect_storage] reads as a disk. *)
Definition listed_disks (lsblk_output : string) : list disk_line :=
  omap parse_lsblk_line (tail (PyStr.split PyStr.newline lsblk_output)).

(** ** Concrete machines and services for the examples *)

(** A machine on which every command prints nothing and no pattern
    matches. *)
Definition bare_platform : platform := {|
  subprocess_run := fun _ => Some "";
  re_search := fun _ _ => None;
  re_findall := fun _ _ => [];
  float_sqrt := fun q => q;
  float_round := fun q _ => q;
  repr_value := fun _ => ""
|}.

(** The same machine, on which the command [cmd] prints [out]. *)
Definition platform_with (cmd out : string) : platform := {|
  subprocess_run := fun c => if String.eqb c cmd then Some out else Some "";
  re_search := fun _ _ => None;
  re_findall := fun _ _ => [];
  float_sqrt := fun q => q;
  float_round := fun q _ => q;
  repr_value := fun _ => ""
|}.

Definition lines (l : list string) : string := join PyStr.newline l.

Definition two_ssd_lsblk : string :=
  lines ["NAME SIZE TYPE ROTA"; "sda 256G disk 0"; "nvme0n1 1T disk 0"].

(** The same listing as [lsblk] prints it, each line ended. *)
Definition lsblk_two_ssd : string :=
  lines ["NAME SIZE TYPE ROTA"; "sda 256G disk 0"; "nvme0n1 1T disk 0"; ""].

(** A service without faults that numbers the rows of a table from 1 and
    gives each variant a SKU. *)
Definition plain_client : client := {|
  fault := fun _ => None;
  generated := fun table rows =>
    let id := VInt (Z.of_nat (length rows) + 1) in
    if String.eqb table "laptop_variants"
    then list_to_map [("id", id); ("shop_sku", VStr "SKU-1")]
    else list_to_map [("id", id)]
|}.

(** A service without faults that fills in no column. *)
Definition bare_client : client := {|
  fault := fun _ => None;
  generated := fun _ _ => ∅
|}.

(** The same service, whose request number [n] fails. *)
Definition failing_client (n : nat) : client := {|
  fault := fun i => if (i =? n)%nat then Some (APIError "connection lost") else None;
  generated := generated plain_client
|}.

Definition empty_remote : remote := {| tables := ∅; requests := [] |}.

(** Two machines of one brand with the same processor, screen and
    graphics, and different product names. *)
Definition latitude : gmap string value :=
  list_to_map [
    ("brand", VStr "Dell Inc."); ("model", VStr "Latitude 5400");
    ("cpu_model", VStr "Intel(R) Core(TM) i5-8365U CPU @ 1.60GHz");
    ("screen_size_inches", VFloat (PyFloat.Finite 14)); ("has_touchscreen", VBool false);
    ("ram_size_gb", VInt 8); ("ssd_capacity_gb", VInt 256)
  ].

Definition inspiron : gmap string value := <["model" := VStr "Inspiron 14"]> latitude.

Definition prompted : gmap string value :=
  list_to_map [
    ("_TouchscreenDisplay_23335_CAT_1002_EN", VStr "No");
    ("_KeyboardLanguage_24678_CAT_1002_EN", VStr "English");
    ("_BacklitKeyboard_24680_CAT_1002_EN", VStr "No");
    ("_ConvertibleHybridDisplay_36185_CAT_1002_EN", VStr "No");
    ("_Colour_5105_CAT_1002_EN", VStr "Black");
    ("_ProductCondition_20257570_CAT_1002_EN", VStr "Refurbished Good")
  ].

Definition quiet_answers : answers := {|
  screen_size_answer := Some "14.0";
  keyboard_choice := Some "1";
  backlit_answer := Some "n";
  touchscreen_answer := Some "n";
  convertible_answer := Some "n";
  color_answer := Some "Black";
  condition_choice := Some "4"
|}.

Definition offline_host : host := {|
  supabase_installed := true;
  create_client := fun _ _ => Ret plain_client;
  now_isoformat := "2024-01-01T00:00:00"
|}.

(** A discrete NVIDIA card on a line that also names Intel, and a machine
    with Intel graphics only. *)
Definition hybrid_lspci : string :=
  "01:00.0 3D controller: NVIDIA Corporation GP108M [GeForce MX150] on Intel host".
Definition intel_lspci : string :=
  "00:02.0 VGA compatible controller: Intel Corporation UHD Graphics 620 (rev 07)".

(** A machine whose [/proc/meminfo] reports 7864320 kB, that is 7.5 GB,
    and whose [dmidecode] reports no module. *)
Definition meminfo_platform : platform := {|
  subprocess_run := fun _ => Some "";
  re_search := fun pattern _ =>
    if String.eqb pattern "MemTotal:\s*(\d+)\s*kB" then Some ["7864320"] else None;
  re_findall := fun _ _ => [];
  float_sqrt := fun q => q;
  float_round := fun q _ => q;
  repr_value := fun _ => ""
|}.

(** A secrets file with both keys, and a host whose client fails at its
    fourth request. *)
Definition good_secrets : json :=
  JObj [("supabase_url", JStr "https://example.supabase.co");
        ("supabase_anon_key", JStr "anon-key")].

Definition configured_world : world :=
  {| files := {["secrets.json" := Some good_secrets]}; service := empty_remote |}.

(** A world whose secrets file is not JSON. *)
Definition garbled_world : world :=
  {| files := {["secrets.json" := None]}; service := empty_remote |}.

Definition failing_host : host := {|
  supabase_installed := true;
  create_client := fun _ _ => Ret (failing_client 3);
  now_isoformat := "2024-01-01T00:00:00"
|}.

Definition upload_arguments : arguments := {| upload := true; secrets := "secrets.json" |}.

(** A machine with a fixed 256G disk and a removable 16G stick. *)
Definition usb_stick_platform : platform := {|
  subprocess_run := fun c =>
    if String.eqb c "lsblk -d -o NAME,SIZE,TYPE,ROTA"
    then Some (lines ["NAME SIZE TYPE ROTA"; "sda 256G disk 0"; "sdb 16G disk 0"])
    else if String.eqb c "cat /sys/block/sdb/removable" then Some "1"
    else Some "";
  re_search := fun _ _ => None;
  re_findall := fun _ _ => [];
  float_sqrt := fun q => q;
  float_round := fun q _ => q;
  repr_value := fun _ => ""
|}.

(** A machine with a 256G disk and a fixed 31.9G eMMC. *)
Definition small_disk_platform : platform := {|
  subprocess_run := fun c =>
    if String.eqb c "lsblk -d -o NAME,SIZE,TYPE,ROTA"
    then Some (lines ["NAME SIZE TYPE ROTA"; "sda 256G disk 0"; "mmcblk0 31.9G disk 0"; ""])
    else if String.eqb c "cat /sys/block/mmcblk0/removable" then Some "0"
    else Some "";
  re_search := fun _ _ => None;
  re_findall := fun _ _ => [];
  float_sqrt := fun q => q;
  float_round := fun q _ => q;
  repr_value := fun _ => ""
|}.

(** A machine whose [lscpu] shows a clock that is not a number. *)
Definition odd_mhz_platform : platform := {|
  subprocess_run := fun _ => Some "";
  re_search := fun pattern _ =>
    if String.eqb pattern "CPU MHz:\s*([\d.]+)" then Some ["1.2.3"] else None;
  re_findall := fun _ _ => [];
  float_sqrt := fun q => q;
  float_round := fun q _ => q;
  repr_value := fun _ => ""
|}.

(** A machine with one 8 GB module; [/proc/meminfo] is readable or not. *)
Definition module_platform (meminfo : option string) : platform := {|
  subprocess_run := fun c =>
    if String.eqb c "sudo dmidecode -t memory"
    then Some "Handle 0x0010 Memory Device Size: 8 GB"
    else Some "";
  re_search := fun pattern _ =>
    if String.eqb pattern "Size:\s*(\d+)\s*GB" then Some ["8"]
    else if String.eqb pattern "MemTotal:\s*(\d+)\s*kB"
    then option_map (fun digits => [digits]) meminfo
    else None;
  re_findall := fun _ _ => [];
  float_sqrt := fun q => q;
  float_round := fun q _ => q;
  repr_value := fun _ => ""
|}.

(** A [MemTotal] of 2e314 kB: no float holds its quotient by 2^20. *)
Definition huge_total : string :=
  "2" ++ string_of_list_ascii (repeat "0"%char 314).

(** A machine whose only display adapter is an AMD Radeon that is not an
    "RX" model. *)
Definition radeon_platform : platform :=
  platform_with "lspci" "03:00.0 VGA compatible controller: AMD Radeon Pro 560".

(** A machine with a fixed 256G disk and an empty, removable card reader,
    which [lsblk] lists with the size "0B". *)
Definition card_reader_platform : platform := {|
  subprocess_run := fun c =>
    if String.eqb c "lsblk -d -o NAME,SIZE,TYPE,ROTA"
    then Some (lines ["NAME SIZE TYPE ROTA"; "sda 256G disk 0"; "sdb 0B disk 1"])
    else if String.eqb c "cat /sys/block/sdb/removable" then Some "1"
    else Some "";
  re_search := fun _ _ => None;
  re_findall := fun _ _ => [];
  float_sqrt := fun q => q;
  float_round := fun q _ => q;
  repr_value := fun _ => ""
|}.

(** A machine whose second disk has a size with two dots. *)
Definition odd_size_platform : platform :=
  platform_with "lsblk -d -o NAME,SIZE,TYPE,ROTA"
    (lines ["NAME SIZE TYPE ROTA"; "sda 256G disk 0"; "sdb 1.2.3G disk 0"]).


(** A machine whose battery is described both by [upower] (50 Wh at the
    default voltage) and by the kernel (4200000 uAh). *)
Definition sysfs_battery_platform : platform := {|
  subprocess_run := fun c =>
    if String.eqb c "upower -i /org/freedesktop/UPower/devices/battery_BAT0"
    then Some "energy-full: 50 Wh"
    else if String.eqb c "cat /sys/class/power_supply/BAT*/uevent"
    then Some "POWER_SUPPLY_CHARGE_FULL=4200000"
    else Some "";
  re_search := fun pattern text =>
    if String.eqb pattern "energy-full:\s*([\d.]+)" && String.eqb text "energy-full: 50 Wh"
    then Some ["50"]
    else if String.eqb pattern "POWER_SUPPLY_CHARGE_FULL=(\d+)"
            && String.eqb text "POWER_SUPPLY_CHARGE_FULL=4200000"
    then Some ["4200000"]
    else None;
  re_findall := fun _ _ => [];
  float_sqrt := fun q => q;
  float_round := fun q _ => q;
  repr_value := fun _ => ""
|}.



(** A world whose secrets file holds a JSON array of the two key names
    instead of an object. *)
Definition listed_secrets : json := JArr [JStr "supabase_url"; JStr "supabase_anon_key"].

Definition listed_world : world :=
  {| files := {["secrets.json" := Some listed_secrets]}; service := empty_remote |}.

(** A machine whose [xrandr] reports a panel of 309mm x 174mm and whose
    EDID reports 31 cm x 17 cm. *)
Definition edid_platform : platform := {|
  subprocess_run := fun c =>
    if String.eqb c "xrandr" then Some "eDP-1 connected 1920x1080+0+0 309mm x 174mm"
    else if String.eqb c "find /sys/class/drm -name edid"
    then Some "/sys/class/drm/card0-eDP-1/edid"
    else if String.eqb c "sudo edid-decode /sys/class/drm/card0-eDP-1/edid"
    then Some "Maximum image size: 31 cm x 17 cm"
    else Some "";
  re_search := fun pattern text =>
    if String.eqb pattern "(\d+)mm x (\d+)mm"
       && String.eqb text "eDP-1 connected 1920x1080+0+0 309mm x 174mm"
    then Some ["309"; "174"]
    else if String.eqb pattern "Maximum image size:\s*(\d+)\s*cm x\s*(\d+)\s*cm"
            && String.eqb text "Maximum image size: 31 cm x 17 cm"
    then Some ["31"; "17"]
    else None;
  re_findall := fun _ _ => [];
  float_sqrt := fun q => q;
  float_round := fun q _ => q;
  repr_value := fun _ => ""
|}.

(** A bag in which [lscpu] gave a current clock and a maximum of zero. *)
Definition zero_max_clock : gmap string value :=
  list_to_map [("cpu_speed_ghz", VFloat (PyFloat.round64 2.4));
               ("cpu_max_ghz", VFloat (PyFloat.Finite 0))].

(** ** Reasoning about statements *)

(** [m] leaves the observation [f] of the state as it is, whatever its
    outcome. *)
Definition stable {S X A} (f : S -> X) (m : M S A) : Prop :=
  forall s, f (m s).2 = f s.

Section Stable.
Context {S X : Type} (f : S -> X).

Lemma stable_ret {A} (a : A) : stable f (ret a).
Proof. intros s. reflexivity. Qed.

Lemma stable_raise {A} (e : exn) : stable f (raise (A := A) e).
Proof. intros s. reflexivity. Qed.

Lemma stable_get_state : stable f get_state.
Proof. intros s. reflexivity. Qed.

Lemma stable_lift_res {A} (r : res A) : stable f (lift_res r).
Proof. intros s. reflexivity. Qed.

Lemma stable_or_raise {A} e (o : option A) : stable f (or_raise e o).
Proof. destruct o; intros s; reflexivity. Qed.

Lemma stable_bind {A B} (m : M S A) (k : A -> M S B) :
  stable f m -> (forall a, stable f (k a)) -> stable f (bind m k).
Proof.
  intros Hm Hk s. unfold bind. specialize (Hm s).
  destruct (m s) as [[e|a] s']; simpl in *; [exact Hm|].
  rewrite Hk. exact Hm.
Qed.

Lemma stable_try_except {A} (m : M S A) (h : exn -> M S A) :
  stable f m -> (forall e, stable f (h e)) -> stable f (try_except m h).
Proof.
  intros Hm Hh s. unfold try_except. specialize (Hm s).
  destruct (m s) as [[e|a] s']; simpl in *; [|exact Hm].
  rewrite Hh. exact Hm.
Qed.

Lemma stable_when (b : bool) (m : M S unit) : stable f m -> stable f (when b m).
Proof. destruct b; [trivial|]. intros _. apply stable_ret. Qed.

Lemma stable_when_some {A} (o : option A) (body : A -> M S unit) :
  (forall a, stable f (body a)) -> stable f (when_some o body).
Proof. destruct o; simpl; [auto|]. intros _. apply stable_ret. Qed.

Lemma stable_for_each {A} (l : list A) (body : A -> M S unit) :
  (forall a, stable f (body a)) -> stable f (for_each l body).
Proof.
  intros Hb. induction l as [|x r IH]; simpl; [apply stable_ret|].
  apply stable_bind; [apply Hb | intros _; exact IH].
Qed.

Lemma stable_for_break {A} (l : list A) (body : A -> M S bool) :
  (forall a, stable f (body a)) -> stable f (for_break l body).
Proof.
  intros Hb. induction l as [|x r IH]; simpl; [apply stable_ret|].
  apply stable_bind; [apply Hb|]. intros [|]; [apply stable_ret | exact IH].
Qed.

End Stable.

Lemma bind_ret_eq {S A B} (m : M S A) (k : A -> M S B) s a s' :
  m s = (Ret a, s') -> bind m k s = k a s'.
Proof. intros H. unfold bind. rewrite H. reflexivity. Qed.

Lemma bind_lift_ret {S A B} (a : A) (k : A -> M S B) (s : S) :
  bind (lift_res (Ret a)) k s = k a s.
Proof. reflexivity. Qed.

(** A [try] whose handler raises the exception again is the body. *)
Lemma try_reraise {S A} (m : M S A) s : try_except m (fun e => raise e) s = m s.
Proof. unfold try_except, raise. destruct (m s) as [[e|a] s']; reflexivity. Qed.

(** Assignments to other keys leave a key of the bag alone. *)
Lemma stable_set_raw (k k' : string) v :
  k <> k' -> stable (fun self => raw_data self !! k) (set_raw k' v).
Proof. intros Hne s. simpl. apply lookup_insert_ne. congruence. Qed.

Lemma stable_set_bestbuy_raw (k k' : string) v :
  stable (fun self => raw_data self !! k) (set_bestbuy k' v).
Proof. intros s. reflexivity. Qed.

Lemma stable_set_raw_bestbuy (k k' : string) v :
  stable (fun self => bestbuy_data self !! k) (set_raw k' v).
Proof. intros s. reflexivity. Qed.

Lemma stable_set_bestbuy (k k' : string) v :
  k <> k' -> stable (fun self => bestbuy_data self !! k) (set_bestbuy k' v).
Proof. intros Hne s. simpl. apply lookup_insert_ne. congruence. Qed.

(** Both at once: a key of the bag and the whole attribute set. *)
Lemma stable_set_raw_both (k k' : string) v :
  k <> k' -> stable (fun self => (raw_data self !! k, bestbuy_data self)) (set_raw k' v).
Proof.
  intros Hne s. cbn [set_raw modify snd raw_data bestbuy_data].
  rewrite lookup_insert_ne by congruence. reflexivity.
Qed.

Lemma stable_raw_get {X} (f : detector -> X) k : stable f (raw_get k).
Proof. intros s. reflexivity. Qed.

(** The helper statements of the detector, unfolded on the way. *)
Create HintDb statements.
#[global] Hint Unfold py_int py_float float_div py_round input shell store_group
  positive_value : statements.

(** One step of a proof that a statement leaves a key alone: split
    sequences, enter conditionals, discharge assignments to other keys. *)
Ltac stable_step :=
  first
    [ apply stable_ret | apply stable_raise | apply stable_get_state
    | apply stable_raw_get | apply stable_lift_res | apply stable_or_raise
    | apply stable_set_raw; discriminate
    | apply stable_set_raw_both; discriminate
    | apply stable_set_bestbuy; discriminate
    | apply stable_set_bestbuy_raw | apply stable_set_raw_bestbuy
    | apply stable_bind; [| intros ?]
    | apply stable_try_except; [| intros ?]
    | apply stable_when
    | apply stable_when_some; intros ?
    | apply stable_for_each; intros ?
    | apply stable_for_break; intros ?
    | progress cbv zeta
    | progress autounfold with statements
    | match goal with
      | |- stable _ (match ?x with _ => _ end) => destruct x
      end ].

Ltac stable_auto := repeat stable_step.

(** ** The mapper: pruning and the Yes/No attributes *)

Section MapperFacts.
Context (P : platform).

Lemma field_table_keys_NoDup : NoDup (field_table.*1).
Proof. apply (bool_decide_unpack _). vm_compute. reflexivity. Qed.

Lemma literal_lookup raw attr src :
  In (attr, src) field_table ->
  bestbuy_literal P raw !! attr = Some (field_value P raw src).
Proof.
  intros Hin. unfold bestbuy_literal.
  apply elem_of_list_to_map_1.
  - rewrite <- list_fmap_compose.
    erewrite list_fmap_ext; [apply field_table_keys_NoDup|].
    intros i [k s] _. reflexivity.
  - apply list_elem_of_In.
    apply (in_map (fun '(k, src0) => (k, field_value P raw src0)) _ (attr, src)) in Hin.
    exact Hin.
Qed.

Lemma fields_lookup raw attr src :
  In (attr, src) field_table ->
  bestbuy_fields P raw !! attr =
    if truthy (field_value P raw src) then Some (field_value P raw src) else None.
Proof.
  intros Hin. unfold bestbuy_fields, drop_empty.
  destruct (truthy (field_value P raw src)) eqn:E.
  - apply map_lookup_filter_Some. split; [by apply literal_lookup | done].
  - apply map_lookup_filter_None. right. intros x Hx.
    rewrite (literal_lookup _ _ _ Hin) in Hx. inversion Hx; subst. simpl. congruence.
Qed.

Lemma fields_truthy raw attr v : bestbuy_fields P raw !! attr = Some v -> truthy v = true.
Proof.
  unfold bestbuy_fields, drop_empty. intros H.
  apply map_lookup_filter_Some in H as [_ H]. exact H.
Qed.

Lemma copy_value raw src :
  is_copy src = true -> source_values raw src = [field_value P raw src].
Proof. destruct src; simpl; intros H; try discriminate; reflexivity. Qed.

End MapperFacts.

Lemma mapped_data (P : platform) (self : detector) :
  bestbuy_data (map_to_bestbuy_fields P self).2 = bestbuy_fields P (raw_data self).
Proof. reflexivity. Qed.

(** C4, as the specification states it: every attribute whose source
    value is empty or falsy is absent from the mapped set.  It fails on the
    empty bag: the webcam flag is missing, hence falsy, and the attribute
    is kept with the value "No". *)
Lemma pruning_as_stated_fails :
  In ("_Webcam_15213_CAT_1002_EN", Flag "has_webcam") field_table /\
  all_falsy (source_values (raw_data new_detector) (Flag "has_webcam")) = true /\
  bestbuy_data (map_to_bestbuy_fields bare_platform new_detector).2
    !! "_Webcam_15213_CAT_1002_EN" = Some (VStr "No").
Proof.
  split; [| split].
  - unfold field_table. repeat (first [left; reflexivity | right]).
  - reflexivity.
  - rewrite mapped_data. rewrite (fields_lookup bare_platform _ _ (Flag "has_webcam")).
    + reflexivity.
    + unfold field_table. repeat (first [left; reflexivity | right]).
Qed.

(** C4, amended: no attribute of the set stored by [map_to_bestbuy_fields]
    has an empty or falsy value, and every attribute that copies a raw
    field is absent when that field is missing (it then reads as the empty
    string) or falsy. *)
Theorem copied_fields_pruned (P : platform) (self : detector) :
  let mapped := bestbuy_data (map_to_bestbuy_fields P self).2 in
  (forall attr v, mapped !! attr = Some v -> truthy v = true) /\
  (forall attr src,
      In (attr, src) field_table -> is_copy src = true ->
      all_falsy (source_values (raw_data self) src) = true ->
      mapped !! attr = None).
Proof.
  cbv zeta. rewrite mapped_data. split.
  - intros attr v. apply fields_truthy.
  - intros attr src Hin Hcopy Hfalsy.
    rewrite (fields_lookup P _ _ _ Hin).
    rewrite (copy_value P _ _ Hcopy) in Hfalsy. unfold all_falsy, forallb in Hfalsy.
    destruct (truthy (field_value P (raw_data self) src)); [discriminate | reflexivity].
Qed.

Lemma copied_fields_pruned_witness :
  bestbuy_data (map_to_bestbuy_fields bare_platform new_detector).2
    !! "_Brand_Name_Category_Root_EN" = None.
Proof.
  apply (proj2 (copied_fields_pruned bare_platform new_detector)
           "_Brand_Name_Category_Root_EN" (Raw "brand")).
  - unfold field_table. repeat (first [left; reflexivity | right]).
  - reflexivity.
  - reflexivity.
Defined.

(** C10: the five Yes/No attributes are always in the set stored by
    [map_to_bestbuy_fields], with the value "Yes" or "No", and the value is
    "No" when the raw flag is absent or [None]. *)
Theorem flags_always_present (P : platform) (self : detector) (attr flag : string) :
  In (attr, flag)
     [("_TouchscreenDisplay_23335_CAT_1002_EN", "has_touchscreen");
      ("_IntegratedWiFi_15245_CAT_1002_EN", "has_wifi");
      ("_IntegratedBluetooth_15246_CAT_1002_EN", "has_bluetooth");
      ("_EthernetPort_6605_CAT_1002_EN", "has_ethernet");
      ("_Webcam_15213_CAT_1002_EN", "has_webcam")] ->
  let mapped := bestbuy_data (map_to_bestbuy_fields P self).2 in
  (mapped !! attr = Some (VStr "Yes") \/ mapped !! attr = Some (VStr "No")) /\
  (raw_data self !! flag = None \/ raw_data self !! flag = Some VNone ->
   mapped !! attr = Some (VStr "No")).
Proof.
  intros Hin. cbv zeta. rewrite mapped_data.
  assert (Htab : In (attr, Flag flag) field_table).
  { unfold In in Hin. unfold field_table.
    repeat (destruct Hin as [Hin | Hin];
            [inversion Hin; subst; repeat (first [left; reflexivity | right]) |]).
    contradiction. }
  rewrite (fields_lookup P _ _ _ Htab). unfold field_value.
  split.
  - destruct (truthy (dict_get (raw_data self) flag)); auto.
  - intros Hflag. unfold dict_get, dict_get_or.
    destruct Hflag as [-> | ->]; reflexivity.
Qed.

Lemma flags_always_present_witness :
  bestbuy_data (map_to_bestbuy_fields bare_platform new_detector).2
    !! "_IntegratedWiFi_15245_CAT_1002_EN" = Some (VStr "No").
Proof.
  apply (proj2 (flags_always_present bare_platform new_detector
                  "_IntegratedWiFi_15245_CAT_1002_EN" "has_wifi"
                  ltac:(right; left; reflexivity))).
  left. reflexivity.
Defined.

(** ** Graphics: precedence of the classification *)

Lemma store_gpu_model_keeps_type (P : platform) (gpu_line : string) :
  stable (fun self => raw_data self !! "gpu_type") (store_gpu_model P gpu_line).
Proof. unfold store_gpu_model. stable_auto. Qed.

Lemma classify_gpus_type (P : platform) (gpu_lines : list string) (self : detector) :
  raw_data (classify_gpus P gpu_lines self).2 !! "gpu_type" =
    if has_nvidia gpu_lines || has_amd_discrete gpu_lines
    then Some (VStr "Dedicated or Discrete GPU")
    else if has_intel gpu_lines then Some (VStr "Integrated GPU")
    else raw_data self !! "gpu_type".
Proof.
  unfold classify_gpus.
  set (loop := for_each gpu_lines (store_gpu_model P)).
  assert (Hloop : stable (fun self => raw_data self !! "gpu_type") loop).
  { apply stable_for_each. intros line. apply store_gpu_model_keeps_type. }
  unfold bind at 1. cbn [set_raw modify].
  destruct (has_nvidia gpu_lines || has_amd_discrete gpu_lines).
  - unfold bind. cbn [set_raw modify]. rewrite Hloop. cbn [raw_data].
    apply lookup_insert_eq.
  - destruct (has_intel gpu_lines).
    + unfold bind. cbn [set_raw modify]. rewrite Hloop. cbn [raw_data].
      apply lookup_insert_eq.
    + unfold bind. cbn [ret]. rewrite Hloop. cbn [raw_data].
      apply lookup_insert_ne. discriminate.
Qed.

(** C7: when a detected GPU line matches NVIDIA or discrete AMD,
    [detect_graphics] sets [gpu_type] to "Dedicated or Discrete GPU",
    whether or not a line contains "Intel"; on a bag without [gpu_type] it
    ends as "Integrated GPU" exactly when no line matches NVIDIA or
    discrete AMD and one matches Intel. *)
Theorem gpu_type_precedence (P : platform) (self : detector) :
  let gpu_lines := gpu_lines_in (run_command P "lspci") in
  let gpu_type := raw_data (detect_graphics P self).2 !! "gpu_type" in
  (has_nvidia gpu_lines || has_amd_discrete gpu_lines = true ->
   gpu_type = Some (VStr "Dedicated or Discrete GPU")) /\
  (raw_data self !! "gpu_type" = None ->
   (gpu_type = Some (VStr "Integrated GPU") <->
    has_nvidia gpu_lines || has_amd_discrete gpu_lines = false /\ has_intel gpu_lines = true)).
Proof.
  cbv zeta. unfold detect_graphics. cbv zeta.
  set (gpu_lines := gpu_lines_in (run_command P "lspci")).
  unfold bind. cbn [set_raw modify].
  set (self1 := {| raw_data := _; bestbuy_data := _ |}).
  assert (Hself1 : raw_data self1 !! "gpu_type" = raw_data self !! "gpu_type").
  { subst self1. cbn [raw_data]. apply lookup_insert_ne. discriminate. }
  assert (Hres : raw_data (match gpu_lines with
                           | [] => ret tt
                           | _ :: _ => classify_gpus P gpu_lines
                           end self1).2 !! "gpu_type" =
                 if has_nvidia gpu_lines || has_amd_discrete gpu_lines
                 then Some (VStr "Dedicated or Discrete GPU")
                 else if has_intel gpu_lines then Some (VStr "Integrated GPU")
                 else raw_data self !! "gpu_type").
  { destruct gpu_lines as [|l r] eqn:E.
    - cbn [ret snd]. exact Hself1.
    - rewrite classify_gpus_type. rewrite Hself1. reflexivity. }
  rewrite Hres. clear Hres.
  destruct (has_nvidia gpu_lines || has_amd_discrete gpu_lines).
  - split; [reflexivity|]. intros _. split; [discriminate | intros [? _]; discriminate].
  - split; [discriminate|]. intros Hnone.
    destruct (has_intel gpu_lines).
    + split; auto.
    + rewrite Hnone. split; [discriminate | intros [_ ?]; discriminate].
Qed.

Lemma gpu_type_precedence_witness :
  (has_intel (gpu_lines_in (run_command (platform_with "lspci" hybrid_lspci) "lspci")) = true /\
   raw_data (detect_graphics (platform_with "lspci" hybrid_lspci) new_detector).2 !! "gpu_type"
     = Some (VStr "Dedicated or Discrete GPU")) /\
  raw_data (detect_graphics (platform_with "lspci" intel_lspci) new_detector).2 !! "gpu_type"
    = Some (VStr "Integrated GPU").
Proof.
  split; [split|].
  - vm_compute. reflexivity.
  - apply (proj1 (gpu_type_precedence (platform_with "lspci" hybrid_lspci) new_detector)).
    vm_compute. reflexivity.
  - apply (proj2 (gpu_type_precedence (platform_with "lspci" intel_lspci) new_detector)).
    + reflexivity.
    + vm_compute. split; reflexivity.
Defined.


(** ** Floats: when rounding changes nothing *)

Section RoundingFacts.
Import PyFloat.

Lemma pow2_pos (e : Z) : (0 < pow2 e)%Q.
Proof. apply Qpower_0_lt. reflexivity. Qed.

Lemma pow2_nonneg_exponent (e : Z) : (0 <= e)%Z -> (pow2 e == inject_Z (2 ^ e))%Q.
Proof. intros He. unfold pow2. rewrite Zpower_Qpower by exact He. reflexivity. Qed.

Lemma pow2_add (a b : Z) : (pow2 (a + b) == pow2 a * pow2 b)%Q.
Proof. unfold pow2. apply Qpower_plus. discriminate. Qed.

Lemma pow2_lt_inv (a b : Z) : (pow2 a < pow2 b)%Q -> (a < b)%Z.
Proof. intros H. apply (Qpower_lt_compat_l_inv 2); [exact H | reflexivity]. Qed.

(** The lower half of the specification of [ilog2]. *)
Lemma ilog2_le (a : Q) : (0 < a)%Q -> (pow2 (ilog2 a) <= a)%Q.
Proof.
  intros Ha. unfold ilog2. cbv zeta.
  destruct (Qle_bool (pow2 (Z.log2 (Qnum a) - Z.log2 (Z.pos (Qden a)))) a) eqn:E.
  - apply Qle_bool_iff. exact E.
  - destruct a as [n d]. cbn [Qnum Qden].
    assert (Hn : (0 < n)%Z).
    { unfold Qlt in Ha. cbn in Ha. lia. }
    pose proof (Z.log2_spec n Hn) as [Hn1 _].
    pose proof (Z.log2_spec (Z.pos d) (Pos2Z.is_pos d)) as [_ Hd2].
    pose proof (Z.log2_nonneg n) as Hln.
    pose proof (Z.log2_nonneg (Z.pos d)) as Hld.
    replace (Z.log2 n - Z.log2 (Z.pos d) - 1)%Z
      with (Z.log2 n - Z.succ (Z.log2 (Z.pos d)))%Z by lia.
    unfold pow2. rewrite Qpower_minus by discriminate.
    change (2 ^ Z.log2 n)%Q with (pow2 (Z.log2 n)).
    change (2 ^ Z.succ (Z.log2 (Z.pos d)))%Q with (pow2 (Z.succ (Z.log2 (Z.pos d)))).
    rewrite !pow2_nonneg_exponent by lia.
    apply Qle_shift_div_r.
    + change 0%Q with (inject_Z 0). rewrite <- Zlt_Qlt. lia.
    + unfold Qle, Qmult, inject_Z. cbn [Qnum Qden].
      rewrite !Z.mul_1_r. rewrite Pos.mul_1_r.
      apply Z.le_trans with (n * Z.pos d)%Z.
      * apply Z.mul_le_mono_nonneg_r; lia.
      * apply Z.mul_le_mono_nonneg_l; lia.
Qed.

Lemma round_half_even_integer (x : Q) (z : Z) :
  (x == inject_Z z)%Q -> round_half_even x = z.
Proof.
  intros Hx. unfold round_half_even. cbv zeta.
  assert (Hf : Qfloor x = z).
  { rewrite (Qfloor_comp _ _ Hx). apply Qfloor_Z. }
  rewrite Hf.
  assert (Hd : (x - inject_Z z ?= 1 # 2)%Q = Lt).
  { apply Qlt_alt. rewrite Hx. unfold Qminus. rewrite Qplus_opp_r. reflexivity. }
  rewrite Hd. reflexivity.
Qed.

Lemma is_negative_spec (x : Q) : is_negative x = true <-> (x < 0)%Q.
Proof.
  unfold is_negative. split.
  - intros H. apply Qlt_alt. destruct (x ?= 0)%Q; [discriminate | reflexivity | discriminate].
  - intros H. pose proof (proj1 (Qlt_alt x 0) H) as E. rewrite E. reflexivity.
Qed.

Lemma Qred_opp_opp (x : Q) : Qopp (Qred (Qopp x)) = Qred x.
Proof. rewrite Qred_opp. destruct (Qred x) as [n d]. unfold Qopp. cbn [Qnum Qden].
  rewrite Z.opp_involutive. reflexivity. Qed.

Lemma Qabs_positive (x : Q) : ~ (x == 0)%Q -> (0 < Qabs x)%Q.
Proof.
  intros Hne. destruct (Qlt_le_dec 0 (Qabs x)) as [H|H]; [exact H|].
  exfalso. apply Hne. apply Qabs_Qle_condition in H as [H1 H2].
  apply Qle_antisym; [exact H2 | exact H1].
Qed.

(** A real that is [m * 2^p] with [|m| < 2^53], [p] not below -1074 and
    that lies below 2^1024 is a binary64 value: rounding returns it. *)
Lemma round64_exact (x : Q) (m p : Z) :
  (x == inject_Z m * pow2 p)%Q ->
  (Z.abs m < 2 ^ 53)%Z -> (-1074 <= p)%Z -> (Qabs x < pow2 1024)%Q ->
  round64 x = Finite (Qred x).
Proof.
  intros Hx Hm Hp Hmax. unfold round64. cbv zeta.
  destruct (Qeq_bool x 0) eqn:Hzero.
  - apply Qeq_bool_iff in Hzero. f_equal. symmetry.
    rewrite (Qred_complete _ _ Hzero). reflexivity.
  - assert (Hne : ~ (x == 0)%Q).
    { intros H. apply Qeq_bool_iff in H. congruence. }
    pose proof (Qabs_positive x Hne) as Ha.
    assert (Habs : (Qabs x == inject_Z (Z.abs m) * pow2 p)%Q).
    { rewrite (Qabs_wd _ _ Hx), Qabs_Qmult.
      rewrite (Qabs_pos (pow2 p)) by (apply Qlt_le_weak, pow2_pos). reflexivity. }
    assert (He : (ilog2 (Qabs x) - 52 <= p)%Z).
    { assert (H : (ilog2 (Qabs x) < 53 + p)%Z); [|lia].
      apply pow2_lt_inv.
      apply Qle_lt_trans with (Qabs x); [apply ilog2_le; exact Ha|].
      rewrite Habs, pow2_add.
      apply Qmult_lt_compat_r; [apply pow2_pos|].
      rewrite (pow2_nonneg_exponent 53) by lia. rewrite <- Zlt_Qlt. exact Hm. }
    set (p' := Z.max (ilog2 (Qabs x) - 52) (-1074)).
    assert (Hp' : (p' <= p)%Z) by (unfold p'; lia).
    assert (Hquot : (Qabs x / pow2 p' == inject_Z (Z.abs m * 2 ^ (p - p')))%Q).
    { rewrite Habs, inject_Z_mult.
      rewrite <- (pow2_nonneg_exponent (p - p')) by lia.
      unfold pow2 at 3. rewrite Qpower_minus by discriminate.
      unfold pow2. field. apply Qpower_not_0. discriminate. }
    rewrite (round_half_even_integer _ _ Hquot).
    assert (Hr : Qred (inject_Z (Z.abs m * 2 ^ (p - p')) * pow2 p') = Qred (Qabs x)).
    { apply Qred_complete. rewrite <- Hquot. field.
      apply Qpower_not_0. discriminate. }
    rewrite Hr.
    assert (Hover : Qle_bool (pow2 1024) (Qred (Qabs x)) = false).
    { destruct (Qle_bool (pow2 1024) (Qred (Qabs x))) eqn:E; [|reflexivity].
      apply Qle_bool_iff in E. rewrite Qred_correct in E.
      exfalso. exact (Qlt_not_le _ _ Hmax E). }
    rewrite Hover. f_equal.
    destruct (is_negative x) eqn:Hneg.
    + apply is_negative_spec in Hneg.
      rewrite (Qred_complete _ _ (Qabs_neg x (Qlt_le_weak _ _ Hneg))).
      apply Qred_opp_opp.
    + apply Qred_complete. apply Qabs_pos.
      destruct (Qlt_le_dec x 0) as [H|H]; [|exact H].
      apply is_negative_spec in H. congruence.
Qed.

End RoundingFacts.

(** ** Memory: snapping to a standard size *)

Section MemoryFacts.
Import PyFloat.

Lemma ltb_finite (a b : Q) : ltb (Finite a) (Finite b) = true <-> (a < b)%Q.
Proof.
  cbn [ltb]. split.
  - intros H. apply Qlt_alt. destruct (a ?= b)%Q; [discriminate | reflexivity | discriminate].
  - intros H. pose proof (proj1 (Qlt_alt a b) H) as E. rewrite E. reflexivity.
Qed.

(** [min] over keys that are finite floats returns an element whose key
    is smallest. *)
Lemma min_by_spec (key : Z -> binary64) (k : Z -> Q) (l : list Z) (best : Z) :
  (forall x, In x (best :: l) -> key x = Finite (k x)) ->
  In (min_by key best l) (best :: l) /\
  forall x, In x (best :: l) -> (k (min_by key best l) <= k x)%Q.
Proof.
  revert best. induction l as [|y r IH]; intros best Hkey.
  - cbn [min_by]. split; [left; reflexivity|].
    intros x [<- | []]. apply Qle_refl.
  - cbn [min_by].
    rewrite (Hkey y) by (right; left; reflexivity).
    rewrite (Hkey best) by (left; reflexivity).
    destruct (ltb (Finite (k y)) (Finite (k best))) eqn:E.
    + apply ltb_finite in E.
      destruct (IH y) as [Hin Hmin].
      { intros x [<- | Hx]; apply Hkey; [right; left; reflexivity | right; right; exact Hx]. }
      split; [right; exact Hin|].
      intros x [<- | [<- | Hx]].
      * apply Qle_trans with (k y); [apply Hmin; left; reflexivity|].
        apply Qlt_le_weak. exact E.
      * apply Hmin. left; reflexivity.
      * apply Hmin. right; exact Hx.
    + assert (Hle : (k best <= k y)%Q).
      { destruct (Qlt_le_dec (k y) (k best)) as [H|H]; [|exact H].
        apply ltb_finite in H. congruence. }
      destruct (IH best) as [Hin Hmin].
      { intros x [<- | Hx]; apply Hkey; [left; reflexivity | right; right; exact Hx]. }
      split.
      * destruct Hin as [<- | Hin]; [left; reflexivity | right; right; exact Hin].
      * intros x [<- | [<- | Hx]].
        -- apply Hmin. left; reflexivity.
        -- apply Qle_trans with (k best); [apply Hmin; left; reflexivity | exact Hle].
        -- apply Hmin. right; exact Hx.
Qed.

Lemma ltb_finite_false (a b : Q) : ltb (Finite a) (Finite b) = false <-> (b <= a)%Q.
Proof.
  split.
  - intros H. destruct (Qlt_le_dec a b) as [Hlt|Hle]; [|exact Hle].
    apply ltb_finite in Hlt. congruence.
  - intros H. destruct (ltb (Finite a) (Finite b)) eqn:E; [|reflexivity].
    apply ltb_finite in E. exfalso. exact (Qlt_not_le _ _ E H).
Qed.

(** On floats other than [nan], "not below" is transitive. *)
Lemma ltb_false_trans (x y z : binary64) :
  x <> NaN -> y <> NaN -> z <> NaN ->
  ltb y x = false -> ltb z y = false -> ltb z x = false.
Proof.
  intros Hx Hy Hz.
  destruct x as [a|sa|], y as [b|sb|], z as [c|sc|]; try congruence.
  - rewrite !ltb_finite_false. intros H1 H2. exact (Qle_trans _ _ _ H1 H2).
  - cbn [ltb]. destruct sc; intros; [discriminate | reflexivity].
  - cbn [ltb]. destruct sb; intros; [discriminate | discriminate].
  - cbn [ltb]. destruct sb, sc; cbn [andb negb]; intros; congruence.
  - cbn [ltb]. destruct sa; intros; [reflexivity | discriminate].
  - cbn [ltb]. destruct sa, sc; cbn [andb negb]; intros; congruence.
  - cbn [ltb]. destruct sa, sb; cbn [andb negb]; intros; congruence.
  - cbn [ltb]. destruct sa, sb, sc; cbn [andb negb]; intros; congruence.
Qed.

Lemma ltb_asymmetric (x y : binary64) : ltb x y = true -> ltb y x = false.
Proof.
  destruct x as [a|sa|], y as [b|sb|]; cbn [ltb]; try discriminate; try reflexivity.
  - intros H. apply ltb_finite_false. apply Qlt_le_weak.
    apply (proj1 (ltb_finite a b)). exact H.
  - destruct sb; [discriminate | reflexivity].
  - intros ->. reflexivity.
  - destruct sa, sb; cbn [andb negb]; congruence.
Qed.

(** [min] over keys none of which is [nan] returns an element below whose
    key no key lies. *)
Lemma min_by_least (key : Z -> binary64) (l : list Z) (best : Z) :
  (forall x, key x <> NaN) ->
  In (min_by key best l) (best :: l) /\
  forall x, In x (best :: l) -> ltb (key x) (key (min_by key best l)) = false.
Proof.
  intros Hkey. revert best. induction l as [|y r IH]; intros best.
  - cbn [min_by]. split; [left; reflexivity|].
    intros x [<- | []]. destruct (ltb (key best) (key best)) eqn:E; [|reflexivity].
    rewrite <- E. apply ltb_asymmetric. exact E.
  - cbn [min_by]. destruct (ltb (key y) (key best)) eqn:E.
    + destruct (IH y) as [Hin Hmin]. split; [right; exact Hin|].
      intros x [<- | [<- | Hx]].
      * apply (ltb_false_trans _ (key y)); auto.
        -- apply Hmin. left; reflexivity.
        -- apply ltb_asymmetric. exact E.
      * apply Hmin. left; reflexivity.
      * apply Hmin. right; exact Hx.
    + destruct (IH best) as [Hin Hmin]. split.
      * destruct Hin as [<- | Hin]; [left; reflexivity | right; right; exact Hin].
      * intros x [<- | [<- | Hx]].
        -- apply Hmin. left; reflexivity.
        -- apply (ltb_false_trans _ (key best)); auto.
           apply Hmin. left; reflexivity.
        -- apply Hmin. right; exact Hx.
Qed.

Lemma round64_not_nan (x : Q) : round64 x <> NaN.
Proof.
  unfold round64. destruct (Qeq_bool x 0); [discriminate|]. cbv zeta.
  destruct (Qle_bool _ _); discriminate.
Qed.

Lemma distance_to_not_nan (q : Q) (x : Z) : distance_to (Finite q) x <> NaN.
Proof.
  unfold distance_to, sub. cbn [neg].
  pose proof (round64_not_nan (inject_Z x)) as Hx.
  destruct (round64 (inject_Z x)) as [a|s|]; [| discriminate | congruence].
  cbn [add]. pose proof (round64_not_nan (a + Qred (- q))) as Hsum.
  destruct (round64 (a + Qred (- q))) as [d|s|]; [discriminate | discriminate | congruence].
Qed.

(** The quotient of two [int] is a finite float when the division
    returns. *)
Lemma true_divide_finite (a b : Z) (x : binary64) :
  PyNum.true_divide a b = Ret x -> exists q, x = Finite q.
Proof.
  unfold PyNum.true_divide. destruct (b =? 0)%Z; [discriminate|].
  destruct (round64 _) as [q| |]; try discriminate.
  intros H. injection H as <-. eauto.
Qed.

(** A multiple of 2^-20 whose numerator is below 2^53 is a float. *)
Lemma round64_megabytes (x : Q) (m : Z) :
  (x == inject_Z m / inject_Z 1048576)%Q -> (Z.abs m < 2 ^ 53)%Z ->
  round64 x = Finite (Qred x).
Proof.
  intros Hx Hm. apply (round64_exact x m (-20)); [| exact Hm | lia |].
  - rewrite Hx. reflexivity.
  - rewrite (Qabs_wd _ _ Hx). unfold Qdiv. rewrite Qabs_Qmult.
    apply Qle_lt_trans with (Qabs (inject_Z m) * 1)%Q.
    + apply Qmult_le_compat_nonneg.
      * split; [apply Qabs_nonneg | apply Qle_refl].
      * split; [apply Qabs_nonneg | discriminate].
    + rewrite Qmult_1_r. change (Qabs (inject_Z m)) with (inject_Z (Z.abs m)).
      apply Qlt_trans with (inject_Z (2 ^ 53)).
      * rewrite <- Zlt_Qlt. exact Hm.
      * reflexivity.
Qed.

(** Below 2^52 kB the raw total is the exact quotient. *)
Lemma mem_gb_raw_exact (mem_kb : Z) :
  (0 <= mem_kb < 2 ^ 52)%Z ->
  mem_gb_raw_of mem_kb = Ret (Finite (Qred (inject_Z mem_kb / inject_Z (1024 * 1024)))).
Proof.
  intros Hb. unfold mem_gb_raw_of, PyNum.true_divide.
  change (1024 * 1024)%Z with 1048576%Z. cbn [Z.eqb].
  rewrite (round64_megabytes _ mem_kb); [reflexivity | reflexivity | lia].
Qed.

(** So is the distance from it to a candidate of the list. *)
Lemma distance_to_exact (mem_kb x : Z) :
  (0 <= mem_kb < 2 ^ 52)%Z -> (0 <= x <= 256)%Z ->
  let mem_gb_raw := (inject_Z mem_kb / inject_Z (1024 * 1024))%Q in
  distance_to (Finite (Qred mem_gb_raw)) x = Finite (Qred (Qabs (inject_Z x - mem_gb_raw))).
Proof.
  intros Hb Hx. cbv zeta. change (1024 * 1024)%Z with 1048576%Z.
  unfold distance_to.
  rewrite (round64_exact (inject_Z x) x 0); [| | lia | lia |].
  2:{ change (pow2 0) with 1%Q. rewrite Qmult_1_r. reflexivity. }
  2:{ change (Qabs (inject_Z x)) with (inject_Z (Z.abs x)).
      apply Qlt_trans with (inject_Z (2 ^ 53)).
      - rewrite <- Zlt_Qlt. lia.
      - reflexivity. }
  unfold sub. cbn [neg add].
  set (q := (inject_Z mem_kb / inject_Z 1048576)%Q).
  assert (Hsum : (Qred (inject_Z x) + Qred (- Qred q)
                  == inject_Z (x * 1048576 - mem_kb) / inject_Z 1048576)%Q).
  { rewrite !Qred_correct. unfold q. unfold Zminus.
    rewrite inject_Z_plus, inject_Z_mult, inject_Z_opp. field. }
  rewrite (round64_megabytes _ _ Hsum) by lia.
  cbn [abs]. f_equal. apply Qred_complete.
  rewrite Qred_correct. apply Qabs_wd.
  rewrite !Qred_correct. reflexivity.
Qed.

End MemoryFacts.

Lemma standard_sizes_range (x : Z) : In x standard_sizes -> (0 <= x <= 256)%Z.
Proof.
  unfold standard_sizes. cbn [In]. intros H.
  repeat (destruct H as [<- | H]; [lia|]). destruct H.
Qed.

Lemma closest_size_spec (mem_kb : Z) :
  (0 <= mem_kb < 2 ^ 52)%Z ->
  let mem_gb_raw := (inject_Z mem_kb / inject_Z (1024 * 1024))%Q in
  exists chosen,
    closest_size (PyFloat.Finite (Qred mem_gb_raw)) = Some chosen /\
    forall s, In s standard_sizes ->
      (Qabs (inject_Z chosen - mem_gb_raw) <= Qabs (inject_Z s - mem_gb_raw))%Q.
Proof.
  intros Hb mem_gb_raw.
  pose proof (min_by_spec (distance_to (PyFloat.Finite (Qred mem_gb_raw)))
                (fun x => Qred (Qabs (inject_Z x - mem_gb_raw))) (tail standard_sizes) 2%Z)
    as Hmin.
  destruct Hmin as [Hin Hmin].
  { intros x Hx. apply (distance_to_exact mem_kb x Hb).
    apply standard_sizes_range. exact Hx. }
  set (chosen := min_by _ _ _) in Hin, Hmin.
  exists chosen. split; [reflexivity|].
  intros s Hs. specialize (Hmin s Hs). cbv beta in Hmin.
  rewrite (Qred_correct (Qabs (inject_Z chosen - mem_gb_raw))) in Hmin.
  rewrite (Qred_correct (Qabs (inject_Z s - mem_gb_raw))) in Hmin. exact Hmin.
Qed.

(** Whatever the raw total, the size chosen is a candidate to whose
    distance, as the script computes it, no other distance is inferior. *)
Lemma closest_size_least (mem_kb : Z) (mem_gb_raw : PyFloat.binary64) :
  mem_gb_raw_of mem_kb = Ret mem_gb_raw ->
  exists chosen,
    closest_size mem_gb_raw = Some chosen /\
    In chosen standard_sizes /\
    forall s, In s standard_sizes ->
      PyFloat.ltb (distance_to mem_gb_raw s) (distance_to mem_gb_raw chosen) = false.
Proof.
  intros Hq. apply true_divide_finite in Hq as [q ->].
  destruct (min_by_least (distance_to (PyFloat.Finite q)) (tail standard_sizes) 2%Z)
    as [Hin Hmin].
  { intros x. apply distance_to_not_nan. }
  eexists. split; [reflexivity|]. split; [exact Hin | exact Hmin].
Qed.

Lemma store_ram_size_none (mem_kb chosen : Z) (mem_gb_raw : PyFloat.binary64)
    (self : detector) :
  mem_gb_raw_of mem_kb = Ret mem_gb_raw ->
  closest_size mem_gb_raw = Some chosen ->
  store_ram_size None mem_kb self =
    (Ret tt, {| raw_data := <["ram_size_gb" := VInt chosen]> (raw_data self);
                bestbuy_data := bestbuy_data self |}).
Proof.
  intros Hq H. unfold store_ram_size. rewrite Hq.
  unfold bind at 1. cbn [lift_res]. rewrite H. reflexivity.
Qed.

Lemma seven_and_a_half (mem_kb : Z) :
  (inject_Z mem_kb / inject_Z (1024 * 1024) == 7.5)%Q -> mem_kb = 7864320%Z.
Proof.
  change (1024 * 1024)%Z with 1048576%Z.
  unfold Qeq, Qdiv, Qmult, Qinv, inject_Z. cbn. lia.
Qed.

(** C6: when no module size was obtained, [MemTotal] was read and its
    quotient by 2^20, the raw total, is a float, [detect_memory] sets
    [ram_size_gb] to an entry of the candidate list to whose distance from
    the raw total, as the script computes it, no other candidate's is
    inferior.  For a [MemTotal] below 2^52 kB the raw total and the
    distances are exact, so that the entry minimises the absolute distance
    to the raw total; for a raw total of 7.5 GB that entry is 8. *)
Theorem ram_size_snapping (P : platform) (self : detector) (g : list string) (mem_kb : Z)
    (mem_gb_raw : PyFloat.binary64) :
  installed_sizes P (PyStr.split "Handle" (run_command_with_sudo P "dmidecode -t memory"))
    = Ret [] ->
  re_search P "MemTotal:\s*(\d+)\s*kB" (run_command P "cat /proc/meminfo") = Some g ->
  PyNum.int (group 1 g) = Some mem_kb ->
  mem_gb_raw_of mem_kb = Ret mem_gb_raw ->
  exists chosen,
    raw_data (detect_memory P self).2 !! "ram_size_gb" = Some (VInt chosen) /\
    In chosen standard_sizes /\
    (forall s, In s standard_sizes ->
       PyFloat.ltb (distance_to mem_gb_raw s) (distance_to mem_gb_raw chosen) = false) /\
    ((0 <= mem_kb < 2 ^ 52)%Z ->
     let exact := (inject_Z mem_kb / inject_Z (1024 * 1024))%Q in
     mem_gb_raw = PyFloat.Finite (Qred exact) /\
     (forall s, In s standard_sizes ->
        (Qabs (inject_Z chosen - exact) <= Qabs (inject_Z s - exact))%Q) /\
     ((exact == 7.5)%Q -> chosen = 8%Z)).
Proof.
  intros Hsizes Hmatch Hint Hq.
  destruct (closest_size_least mem_kb mem_gb_raw Hq) as (chosen & Hc & Hin & Hleast).
  exists chosen. split; [| split; [exact Hin | split; [exact Hleast|]]].
  - unfold detect_memory. cbv zeta.
    rewrite Hsizes, Hmatch.
    unfold bind at 1. cbn [set_raw modify].
    unfold bind at 1. cbn [lift_res].
    match goal with |- context [bind ?m ?k] =>
      assert (Hk : stable (fun self => raw_data self !! "ram_size_gb") (k tt))
    end.
    { stable_auto. }
    match goal with |- context [bind ?m ?k ?s] =>
      erewrite (bind_ret_eq m k s)
    end.
    2:{ cbn [when_some]. unfold py_int. rewrite Hint. cbn [or_raise].
        erewrite bind_ret_eq; [|reflexivity].
        apply (store_ram_size_none _ _ _ _ Hq Hc). }
    rewrite Hk. cbn [raw_data]. apply lookup_insert_eq.
  - intros Hb exact.
    pose proof (mem_gb_raw_exact mem_kb Hb) as Hexact. fold exact in Hexact.
    rewrite Hq in Hexact. injection Hexact as ->.
    destruct (closest_size_spec mem_kb Hb) as (chosen' & Hc' & Hmin).
    fold exact in Hc', Hmin. rewrite Hc in Hc'. injection Hc' as <-.
    split; [reflexivity|]. split; [exact Hmin|].
    intros H75. apply seven_and_a_half in H75. subst mem_kb.
    vm_compute in Hc. congruence.
Qed.

Lemma ram_size_snapping_witness :
  exists chosen,
    raw_data (detect_memory meminfo_platform new_detector).2 !! "ram_size_gb"
      = Some (VInt chosen) /\ chosen = 8%Z.
Proof.
  destruct (ram_size_snapping meminfo_platform new_detector ["7864320"] 7864320%Z
              (PyFloat.Finite (15 # 2)))
    as (chosen & Hset & _ & _ & Hexact).
  - vm_compute. reflexivity.
  - reflexivity.
  - vm_compute. reflexivity.
  - vm_compute. reflexivity.
  - exists chosen. split; [exact Hset|].
    destruct Hexact as (_ & _ & H8); [lia|]. apply H8. reflexivity.
Defined.

(** Past the exact range the floats decide: at 2^80 kB the distances to
    192 and 256 are the same float and [min] keeps the first, and a total
    too large for a float makes the division raise. *)
Lemma totals_beyond_the_exact_range :
  res_bind (mem_gb_raw_of (2 ^ 80)) (fun mem_gb_raw => Ret (closest_size mem_gb_raw))
    = Ret (Some 192%Z) /\
  mem_gb_raw_of (2 * 10 ^ 314) = Raise OverflowError.
Proof. split; vm_compute; reflexivity. Qed.

(** ** Storage: totals and exclusion *)

Section StorageFacts.
Context (P : platform).

(** A line whose device is skipped appends nothing. *)
Lemma scan_disk_skipped line d num u size_gb :
  parse_lsblk_line line = Some d ->
  size_match (device_size d) = Some (num, u) ->
  size_gb_of num u = Some size_gb ->
  is_removable P (device_name d) = true \/ PyFloat.ltb size_gb (PyFloat.Finite 32) = true ->
  scan_disk P line = Ret [].
Proof.
  intros Hp Hm Hs Hskip. unfold scan_disk. rewrite Hp. cbv zeta. rewrite Hm, Hs.
  cbn [res_of res_bind].
  destruct Hskip as [-> | ->]; [reflexivity|].
  rewrite orb_true_r. reflexivity.
Qed.

(** A line whose device is kept appends its entry. *)
Lemma scan_disk_kept line d num u size_gb :
  parse_lsblk_line line = Some d ->
  size_match (device_size d) = Some (num, u) ->
  size_gb_of num u = Some size_gb ->
  is_removable P (device_name d) = false ->
  PyFloat.ltb size_gb (PyFloat.Finite 32) = false ->
  scan_disk P line = Ret [entry_of d].
Proof.
  intros Hp Hm Hs Hr Hlt. unfold scan_disk. rewrite Hp. cbv zeta. rewrite Hm, Hs.
  cbn [res_of res_bind]. rewrite Hr, Hlt. reflexivity.
Qed.

Lemma scan_disks_without lines1 line lines2 :
  scan_disk P line = Ret [] ->
  scan_disks P (lines1 ++ line :: lines2) = scan_disks P (lines1 ++ lines2).
Proof.
  intros Hskip. induction lines1 as [|l r IH].
  - cbn [app scan_disks]. rewrite Hskip. cbn [res_bind].
    destruct (scan_disks P lines2); reflexivity.
  - cbn [app scan_disks]. rewrite IH. reflexivity.
Qed.

(** Every stored entry comes from a line of a disk that was kept. *)
Lemma scan_disks_entries lines devs e :
  scan_disks P lines = Ret devs -> In e devs ->
  exists line d, In line lines /\ parse_lsblk_line line = Some d /\
                 e = entry_of d /\ scan_disk P line = Ret [entry_of d].
Proof.
  revert devs. induction lines as [|l r IH]; intros devs Hscan Hin.
  - cbn in Hscan. inversion Hscan; subst. destruct Hin.
  - cbn [scan_disks] in Hscan.
    destruct (scan_disk P l) as [err|here] eqn:Hl; [discriminate|].
    cbn [res_bind] in Hscan.
    destruct (scan_disks P r) as [err|more] eqn:Hr; [discriminate|].
    cbn [res_bind] in Hscan. inversion Hscan; subst. clear Hscan.
    apply in_app_or in Hin as [Hin | Hin].
    + exists l. unfold scan_disk in Hl.
      destruct (parse_lsblk_line l) as [d|] eqn:Hp.
      * exists d. cbv zeta in Hl.
        assert (Hhere : here = [entry_of d]).
        { destruct (size_match (device_size d)) as [[num u]|].
          - destruct (size_gb_of num u) as [size_gb|];
              cbn [res_of res_bind] in Hl; [|discriminate].
            destruct (is_removable P (device_name d)
                      || PyFloat.ltb size_gb (PyFloat.Finite 32));
              inversion Hl; subst; [destruct Hin | reflexivity].
          - inversion Hl; reflexivity. }
        subst here. destruct Hin as [<- | []].
        split; [left; reflexivity|]. split; [reflexivity|]. split; [reflexivity|].
        unfold scan_disk. rewrite Hp. exact Hl.
      * inversion Hl; subst. destruct Hin.
    + destruct (IH more eq_refl Hin) as (line & d & Hline & Hrest).
      exists line, d. split; [right; exact Hline | exact Hrest].
Qed.

(** Whether a disk is skipped depends on its name and size only. *)
Lemma scan_disk_same_device line line' d d' :
  parse_lsblk_line line = Some d -> parse_lsblk_line line' = Some d' ->
  device_name d = device_name d' -> device_size d = device_size d' ->
  scan_disk P line = Ret [] -> scan_disk P line' <> Ret [entry_of d'].
Proof.
  intros Hp Hp' Hn Hs. unfold scan_disk. rewrite Hp, Hp'. cbv zeta.
  rewrite <- Hn, <- Hs.
  destruct (size_match (device_size d)) as [[num u]|]; [|discriminate].
  destruct (size_gb_of num u) as [size_gb|]; cbn [res_of res_bind]; [|discriminate].
  destruct (is_removable P (device_name d) || PyFloat.ltb size_gb (PyFloat.Finite 32));
    discriminate.
Qed.

(** The first loop looks at the lines of disks only: when each of them is
    kept, the list holds their entries in order. *)
Lemma scan_disks_listed lines :
  (forall d, In d (omap parse_lsblk_line lines) ->
     exists num u size_gb,
       size_match (device_size d) = Some (num, u) /\
       size_gb_of num u = Some size_gb /\
       is_removable P (device_name d) = false /\
       PyFloat.ltb size_gb (PyFloat.Finite 32) = false) ->
  scan_disks P lines = Ret (map entry_of (omap parse_lsblk_line lines)).
Proof.
  induction lines as [|l r IH]; intros Hkept; [reflexivity|].
  cbn [scan_disks omap list_omap] in *.
  destruct (parse_lsblk_line l) as [d|] eqn:Hp.
  - destruct (Hkept d (or_introl eq_refl)) as (num & u & size_gb & Hm & Hs & Hr & Hlt).
    rewrite (scan_disk_kept l d num u size_gb Hp Hm Hs Hr Hlt).
    rewrite IH by (intros d' Hd'; apply Hkept; right; exact Hd').
    reflexivity.
  - unfold scan_disk at 1. rewrite Hp. rewrite (IH Hkept). reflexivity.
Qed.

End StorageFacts.

(** What the two loops do with a skipped disk. *)
Lemma internal_storage_skips (P : platform) (lines1 : list string) (line : string)
    (lines2 : list string) (d : disk_line) (num : string) (u : ascii)
    (size_gb : PyFloat.binary64) (self : detector) :
  parse_lsblk_line line = Some d ->
  size_match (device_size d) = Some (num, u) ->
  size_gb_of num u = Some size_gb ->
  is_removable P (device_name d) = true \/ PyFloat.ltb size_gb (PyFloat.Finite 32) = true ->
  let run := internal_storage P (lines1 ++ line :: lines2) self in
  run = internal_storage P (lines1 ++ lines2) self /\
  (run.2 = self \/
   exists devs,
     raw_data run.2 !! "storage_devices" = Some (VDevices devs) /\
     forall e, In e devs -> ~ (se_device e = device_name d /\ se_size e = device_size d)).
Proof.
  intros Hp Hm Hs Hskip. cbv zeta.
  pose proof (scan_disk_skipped P line d num u size_gb Hp Hm Hs Hskip) as Hline.
  split.
  - unfold internal_storage. rewrite (scan_disks_without P _ _ _ Hline). reflexivity.
  - unfold internal_storage.
    destruct (scan_disks P (lines1 ++ line :: lines2)) as [err|devs] eqn:Hscan.
    + left. reflexivity.
    + right. exists devs. split.
      * unfold bind at 1. cbn [lift_res].
        unfold bind at 1. cbn [set_raw modify].
        match goal with |- context [bind ?m ?k ?s] =>
          assert (Hk : stable (fun self => raw_data self !! "storage_devices") (bind m k))
        end.
        { stable_auto. }
        rewrite Hk. cbn [raw_data]. apply lookup_insert_eq.
      * intros e He [Hname Hsize].
        destruct (scan_disks_entries P _ _ _ Hscan He) as (line' & d' & _ & Hp' & -> & Hkept).
        revert Hkept. apply (scan_disk_same_device P line line' d d' Hp Hp'); auto.
Qed.

(** The three storage keys hold what the two loops recorded: the rest of
    [detect_storage] does not assign them. *)
Lemma detect_storage_records (P : platform) (self : detector) (k : string) :
  In k ["storage_devices"; "ssd_capacity_gb"; "hdd_capacity_gb"] ->
  let lsblk_output := run_command P "lsblk -d -o NAME,SIZE,TYPE,ROTA" in
  raw_data (detect_storage P self).2 !! k =
  raw_data (internal_storage P (tail (PyStr.split PyStr.newline lsblk_output))
              (set_raw "lsblk" (VStr lsblk_output) self).2).2 !! k.
Proof.
  intros Hk. cbv zeta. unfold detect_storage. cbv zeta.
  unfold bind at 1. cbn [set_raw modify snd].
  match goal with |- context [bind ?m ?k' ?s] =>
    assert (Hrest : forall totals, stable (fun self => raw_data self !! k) (k' totals));
    [| unfold bind at 1; destruct (m s) as [[e|totals] s'];
       [reflexivity | apply (Hrest totals s')] ]
  end.
  intros totals. cbn [In] in Hk.
  destruct Hk as [<- | [<- | [<- | []]]]; stable_auto.
Qed.

(** C8: a disk whose size parses and that is removable or whose size, the
    float the script computes, is below 32 is skipped by [detect_storage]:
    the device list and the two capacities it records are those obtained
    from the [lsblk] lines without that disk, and no entry of the recorded
    list carries its name and size. *)
Theorem skipped_device_excluded (P : platform) (lines1 : list string) (line : string)
    (lines2 : list string) (d : disk_line) (num : string) (u : ascii)
    (size_gb : PyFloat.binary64) (self : detector) :
  let lsblk_output := run_command P "lsblk -d -o NAME,SIZE,TYPE,ROTA" in
  tail (PyStr.split PyStr.newline lsblk_output) = lines1 ++ line :: lines2 ->
  parse_lsblk_line line = Some d ->
  size_match (device_size d) = Some (num, u) ->
  size_gb_of num u = Some size_gb ->
  is_removable P (device_name d) = true \/ PyFloat.ltb size_gb (PyFloat.Finite 32) = true ->
  let recorded := raw_data (detect_storage P self).2 in
  let without :=
    raw_data (internal_storage P (lines1 ++ lines2)
                (set_raw "lsblk" (VStr lsblk_output) self).2).2 in
  recorded !! "storage_devices" = without !! "storage_devices" /\
  recorded !! "ssd_capacity_gb" = without !! "ssd_capacity_gb" /\
  recorded !! "hdd_capacity_gb" = without !! "hdd_capacity_gb" /\
  (recorded !! "storage_devices" = raw_data self !! "storage_devices" \/
   exists devs,
     recorded !! "storage_devices" = Some (VDevices devs) /\
     forall e, In e devs -> ~ (se_device e = device_name d /\ se_size e = device_size d)).
Proof.
  cbv zeta. intros Hlines Hp Hm Hs Hskip.
  set (self1 := (set_raw "lsblk" _ self).2).
  destruct (internal_storage_skips P lines1 line lines2 d num u size_gb self1 Hp Hm Hs Hskip)
    as [Hsame Hlist].
  assert (Hrec : forall k, In k ["storage_devices"; "ssd_capacity_gb"; "hdd_capacity_gb"] ->
            raw_data (detect_storage P self).2 !! k =
            raw_data (internal_storage P (lines1 ++ lines2) self1).2 !! k).
  { intros k Hk. rewrite (detect_storage_records P self k Hk). cbv zeta.
    rewrite Hlines. fold self1. rewrite Hsame. reflexivity. }
  split; [apply Hrec; cbn; auto|]. split; [apply Hrec; cbn; auto|].
  split; [apply Hrec; cbn; auto|].
  rewrite (Hrec "storage_devices") by (cbn; auto). rewrite <- Hsame.
  destruct Hlist as [Hraise | Hdevs].
  - left. rewrite Hraise. subst self1. cbn [set_raw modify snd raw_data].
    apply lookup_insert_ne. discriminate.
  - right. exact Hdevs.
Qed.

Lemma skipped_device_excluded_witness :
  let output := run_command small_disk_platform "lsblk -d -o NAME,SIZE,TYPE,ROTA" in
  raw_data (detect_storage small_disk_platform new_detector).2 !! "ssd_capacity_gb"
  = raw_data (internal_storage small_disk_platform ["sda 256G disk 0"; ""]
                (set_raw "lsblk" (VStr output) new_detector).2).2 !! "ssd_capacity_gb".
Proof.
  apply (proj1 (proj2 (skipped_device_excluded small_disk_platform
                         ["sda 256G disk 0"] "mmcblk0 31.9G disk 0" [""]
                         {| device_name := "mmcblk0"; device_size := "31.9G";
                            is_rotational := false |}
                         "31.9" "G"%char (PyFloat.round64 31.9) new_detector
                         ltac:(vm_compute; reflexivity) ltac:(vm_compute; reflexivity)
                         ltac:(vm_compute; reflexivity) ltac:(vm_compute; reflexivity)
                         ltac:(right; vm_compute; reflexivity)))).
Defined.

(** The comparison is made on the float: a size written with so many
    nines that [float] gives 32.0 is not below 32, and the disk is kept. *)
Lemma nearly_32G_is_kept (P : platform) (line : string) :
  is_removable P "sda" = false ->
  parse_lsblk_line line
    = Some {| device_name := "sda"; device_size := "31.99999999999999999999G";
              is_rotational := false |} ->
  size_gb_of "31.99999999999999999999" "G"%char = Some (PyFloat.Finite 32) /\
  scan_disk P line
    = Ret [ {| se_device := "sda"; se_size := "31.99999999999999999999G";
               se_type := "SSD" |} ].
Proof.
  intros Hr Hp. split; [vm_compute; reflexivity|].
  apply (scan_disk_kept P line _ "31.99999999999999999999" "G"%char (PyFloat.Finite 32) Hp);
    [vm_compute; reflexivity | vm_compute; reflexivity | exact Hr | vm_compute; reflexivity].
Qed.

(** The sizes of the example. *)
Lemma size_256G : size_match "256G" = Some ("256", "G"%char).
Proof. vm_compute. reflexivity. Qed.
Lemma size_1T : size_match "1T" = Some ("1", "T"%char).
Proof. vm_compute. reflexivity. Qed.
Lemma size_gb_256G : size_gb_of "256" "G"%char = Some (PyFloat.Finite 256).
Proof. vm_compute. reflexivity. Qed.
Lemma size_gb_1T : size_gb_of "1" "T"%char = Some (PyFloat.Finite 1000).
Proof. vm_compute. reflexivity. Qed.

Lemma internal_storage_256G_1T (P : platform) (self : detector) (lines : list string)
    (d1 d2 : disk_line) :
  omap parse_lsblk_line lines = [d1; d2] ->
  device_size d1 = "256G" -> device_size d2 = "1T" ->
  is_rotational d1 = false -> is_rotational d2 = false ->
  is_removable P (device_name d1) = false -> is_removable P (device_name d2) = false ->
  exists self',
    internal_storage P lines self
      = (Ret (PyFloat.Finite 1256, PyFloat.Finite 0), self') /\
    raw_data self' !! "ssd_capacity_gb" = Some (VInt 1256).
Proof.
  intros Hlines Hs1 Hs2 Hr1 Hr2 Hm1 Hm2.
  assert (Hscan : scan_disks P lines = Ret [entry_of d1; entry_of d2]).
  { rewrite scan_disks_listed; rewrite Hlines; [reflexivity|].
    intros d [<- | [<- | []]].
    - exists "256", "G"%char, (PyFloat.Finite 256).
      rewrite Hs1. split; [vm_compute; reflexivity|]. split; [vm_compute; reflexivity|].
      split; [exact Hm1 | vm_compute; reflexivity].
    - exists "1", "T"%char, (PyFloat.Finite 1000).
      rewrite Hs2. split; [vm_compute; reflexivity|]. split; [vm_compute; reflexivity|].
      split; [exact Hm2 | vm_compute; reflexivity]. }
  assert (Htotal : total_capacity [entry_of d1; entry_of d2]
                     (PyFloat.Finite 0, PyFloat.Finite 0)
                   = Ret (PyFloat.Finite 1256, PyFloat.Finite 0)).
  { unfold entry_of. rewrite Hs1, Hs2, Hr1, Hr2. vm_compute. reflexivity. }
  unfold internal_storage. rewrite Hscan.
  unfold bind at 1. cbn [lift_res].
  unfold bind at 1. cbn [set_raw modify].
  rewrite Htotal.
  unfold bind at 1. cbn [lift_res].
  change (PyFloat.ltb (PyFloat.Finite 0) (PyFloat.Finite 1256)) with true.
  change (PyFloat.ltb (PyFloat.Finite 0) (PyFloat.Finite 0)) with false.
  unfold py_round.
  change (PyNum.round (PyFloat.Finite 1256)) with (Ret 1256%Z : res Z).
  eexists. split; [reflexivity|].
  cbn [raw_data]. apply lookup_insert_eq.
Qed.

(** C2, as the specification states it, fails: with disks of 256G and 1T,
    both fixed and solid-state, the total recorded is 1256 and not 1280. *)
Lemma ssd_total_1280_fails :
  scan_disks (platform_with "lsblk -d -o NAME,SIZE,TYPE,ROTA" two_ssd_lsblk)
    (tail (PyStr.split PyStr.newline two_ssd_lsblk))
  = Ret [ {| se_device := "sda"; se_size := "256G"; se_type := "SSD" |};
          {| se_device := "nvme0n1"; se_size := "1T"; se_type := "SSD" |} ] /\
  raw_data (detect_storage (platform_with "lsblk -d -o NAME,SIZE,TYPE,ROTA" two_ssd_lsblk)
              new_detector).2 !! "ssd_capacity_gb" = Some (VInt 1256) /\
  raw_data (detect_storage (platform_with "lsblk -d -o NAME,SIZE,TYPE,ROTA" two_ssd_lsblk)
              new_detector).2 !! "ssd_capacity_gb" <> Some (VInt 1280).
Proof.
  split; [vm_compute; reflexivity|].
  assert (H : raw_data (detect_storage (platform_with "lsblk -d -o NAME,SIZE,TYPE,ROTA"
                                          two_ssd_lsblk) new_detector).2
              !! "ssd_capacity_gb" = Some (VInt 1256)).
  { vm_compute. reflexivity. }
  split; [exact H|]. rewrite H. discriminate.
Qed.

(** C2, amended: when the disks listed by [lsblk] are two fixed
    solid-state disks of sizes 256G and 1T, [detect_storage] records an SSD
    capacity of 1256 GB: 256 for the first and 1000, the multiplier of T,
    for the second. *)
Theorem ssd_total_256G_1T (P : platform) (self : detector) (d1 d2 : disk_line) :
  listed_disks (run_command P "lsblk -d -o NAME,SIZE,TYPE,ROTA") = [d1; d2] ->
  device_size d1 = "256G" -> device_size d2 = "1T" ->
  is_rotational d1 = false -> is_rotational d2 = false ->
  is_removable P (device_name d1) = false -> is_removable P (device_name d2) = false ->
  raw_data (detect_storage P self).2 !! "ssd_capacity_gb" = Some (VInt 1256).
Proof.
  intros Hlines Hs1 Hs2 Hr1 Hr2 Hm1 Hm2.
  unfold detect_storage. cbv zeta.
  unfold bind at 1. cbn [set_raw modify].
  match goal with |- context [bind (internal_storage P ?lines) _ ?s] =>
    destruct (internal_storage_256G_1T P s lines d1 d2) as (self' & Hrun & Hssd); auto
  end.
  match goal with |- context [bind ?m ?k ?s] =>
    rewrite (bind_ret_eq m k s _ _ Hrun);
    assert (Hk : stable (fun self => raw_data self !! "ssd_capacity_gb")
                   (k (PyFloat.Finite 1256, PyFloat.Finite 0)))
  end.
  { stable_auto. }
  rewrite Hk. exact Hssd.
Qed.

Lemma ssd_total_256G_1T_witness :
  raw_data (detect_storage (platform_with "lsblk -d -o NAME,SIZE,TYPE,ROTA" lsblk_two_ssd)
              new_detector).2 !! "ssd_capacity_gb" = Some (VInt 1256).
Proof.
  apply (ssd_total_256G_1T (platform_with "lsblk -d -o NAME,SIZE,TYPE,ROTA" lsblk_two_ssd)
           new_detector
           {| device_name := "sda"; device_size := "256G"; is_rotational := false |}
           {| device_name := "nvme0n1"; device_size := "1T"; is_rotational := false |});
    vm_compute; reflexivity.
Defined.

(** ** The key [gpu_model] *)

Section GpuModel.
Context (P : platform).

Ltac detector_stable :=
  unfold detect_all, detect_system_info, detect_processor, detect_memory, detect_display,
    detect_graphics, detect_storage, detect_battery, detect_network, detect_usb_ports,
    detect_webcam, store_ram_size, decode_edid, classify_gpus, store_gpu_model,
    internal_storage, prompt_manual_fields;
  stable_auto.

Lemma detect_all_keeps_gpu_model :
  stable (fun self => (raw_data self !! "gpu_model", bestbuy_data self)) (detect_all P).
Proof. detector_stable. Qed.

Lemma prompt_keeps_gpu_model (a : answers) :
  stable (fun self => raw_data self !! "gpu_model") (prompt_manual_fields a).
Proof. detector_stable. Qed.

Lemma prompt_keeps_graphics_card (a : answers) :
  stable (fun self => bestbuy_data self !! "_GraphicsCard_15196_CAT_1002_EN")
    (prompt_manual_fields a).
Proof. detector_stable. Qed.

Lemma mapper_keeps_raw (k : string) :
  stable (fun self => raw_data self !! k) (map_to_bestbuy_fields P).
Proof. intros s. reflexivity. Qed.

Lemma graphics_card_in_table :
  In ("_GraphicsCard_15196_CAT_1002_EN", Raw "gpu_model") field_table.
Proof. unfold field_table. repeat (first [left; reflexivity | right]). Qed.

Lemma no_gpu_model_no_graphics_card (raw : gmap string value) :
  raw !! "gpu_model" = None ->
  field_value P raw (Raw "gpu_model") = VStr "" /\
  bestbuy_fields P raw !! "_GraphicsCard_15196_CAT_1002_EN" = None.
Proof.
  intros H.
  assert (Hv : field_value P raw (Raw "gpu_model") = VStr "").
  { unfold field_value, dict_get_or. rewrite H. reflexivity. }
  split; [exact Hv|].
  rewrite (fields_lookup P raw _ _ graphics_card_in_table), Hv. reflexivity.
Qed.

End GpuModel.

(** C3: the bag never holds the key [gpu_model], after the detection as
    after the prompt; so the graphics card attribute reads as the empty
    string and is not in the attribute set, and neither extractor of the
    uploader takes its first branch on the data of the detector. *)
Theorem gpu_model_never_set (P : platform) (a : answers) :
  let detected := (detect_all P new_detector).2 in
  let self := (detect_and_prompt P a new_detector).2 in
  raw_data detected !! "gpu_model" = None /\
  raw_data self !! "gpu_model" = None /\
  field_value P (raw_data detected) (Raw "gpu_model") = VStr "" /\
  bestbuy_data self !! "_GraphicsCard_15196_CAT_1002_EN" = None /\
  integrated_fast_path (raw_data self) = false /\
  dedicated_fast_path (raw_data self) = false.
Proof.
  cbv zeta.
  assert (Hdet : raw_data (detect_all P new_detector).2 !! "gpu_model" = None).
  { apply (f_equal fst (detect_all_keeps_gpu_model P new_detector)). }
  assert (Hraw : raw_data (detect_and_prompt P a new_detector).2 !! "gpu_model" = None).
  { assert (Hs : stable (fun self => raw_data self !! "gpu_model") (detect_and_prompt P a)).
    { unfold detect_and_prompt.
      apply stable_bind;
        [intros s; apply (f_equal fst (detect_all_keeps_gpu_model P s)) | intros _].
      apply stable_bind; [apply mapper_keeps_raw | intros _].
      apply prompt_keeps_gpu_model. }
    rewrite Hs. reflexivity. }
  split; [exact Hdet|]. split; [exact Hraw|].
  split; [apply (no_gpu_model_no_graphics_card P _ Hdet)|].
  split.
  - unfold detect_and_prompt. unfold bind at 1.
    pose proof (f_equal snd (detect_all_keeps_gpu_model P new_detector)) as Hbb.
    cbn [snd new_detector bestbuy_data] in Hbb.
    destruct (detect_all P new_detector) as [[e|[]] s1]; cbn [snd] in *.
    + rewrite Hbb. reflexivity.
    + unfold bind at 1. cbn [map_to_bestbuy_fields modify].
      rewrite prompt_keeps_graphics_card. cbn [bestbuy_data raw_data].
      apply (no_gpu_model_no_graphics_card P _ Hdet).
  - unfold integrated_fast_path, dedicated_fast_path, has_key. rewrite Hraw.
    split; reflexivity.
Qed.

(** ** The uploader: requests and failures *)

Section Requests.
Context (supabase : client).

Lemma ok_run_requests (rqs : list request) (w : remote) :
  requests (ok_run supabase rqs w) = requests w ++ rqs.
Proof.
  revert w. induction rqs as [|rq r IH]; intros w; cbn [ok_run fold_left].
  - rewrite app_nil_r. reflexivity.
  - change (fold_left (succeeded supabase) r (succeeded supabase w rq))
      with (ok_run supabase r (succeeded supabase w rq)).
    rewrite IH. cbn [succeeded requests]. rewrite <- app_assoc. reflexivity.
Qed.

Lemma ok_run_app (a b : list request) (w : remote) :
  ok_run supabase (a ++ b) w = ok_run supabase b (ok_run supabase a w).
Proof. unfold ok_run. apply fold_left_app. Qed.

Lemma no_fault_app (w : remote) (a b : list request) :
  no_fault supabase w (length a) ->
  no_fault supabase (ok_run supabase a w) (length b) ->
  no_fault supabase w (length (a ++ b)).
Proof.
  intros Ha Hb i Hi. rewrite length_app in Hi.
  destruct (Nat.lt_ge_cases i (length a)) as [Hlt | Hge].
  - apply Ha. exact Hlt.
  - specialize (Hb (i - length a)%nat ltac:(lia)).
    rewrite ok_run_requests, length_app in Hb.
    replace (length (requests w) + length a + (i - length a))%nat
      with (length (requests w) + i)%nat in Hb by lia.
    exact Hb.
Qed.

Lemma aborts_pure {A} (m : M remote A) :
  (forall w, (m w).2 = w) -> aborts_cleanly supabase m.
Proof.
  intros Hm w. exists []. split; [intros i Hi; inversion Hi|].
  left. rewrite Hm. reflexivity.
Qed.

Lemma aborts_ret {A} (a : A) : aborts_cleanly supabase (ret a).
Proof. apply aborts_pure. reflexivity. Qed.

Lemma aborts_raise {A} (e : exn) : aborts_cleanly supabase (raise (A := A) e).
Proof. apply aborts_pure. reflexivity. Qed.

Lemma aborts_lift_res {A} (r : res A) : aborts_cleanly supabase (lift_res r).
Proof. apply aborts_pure. reflexivity. Qed.

Lemma aborts_or_raise {A} e (o : option A) : aborts_cleanly supabase (or_raise e o).
Proof. apply aborts_pure. destruct o; reflexivity. Qed.

Lemma aborts_execute (rq : request) : aborts_cleanly supabase (execute supabase rq).
Proof.
  intros w. unfold execute.
  destruct (fault supabase (length (requests w))) as [e|] eqn:Hf.
  - exists []. split; [intros i Hi; inversion Hi|].
    right. exists rq, e. cbn [fst snd length]. rewrite Nat.add_0_r.
    split; [reflexivity|]. split; [exact Hf | reflexivity].
  - exists [rq]. split.
    + intros i Hi. cbn [length] in Hi. replace i with 0%nat by lia.
      rewrite Nat.add_0_r. exact Hf.
    + left. cbn [ok_run fold_left]. unfold succeeded.
      destruct (apply_request supabase rq w) as [t data]. reflexivity.
Qed.

Lemma aborts_bind {A B} (m : M remote A) (k : A -> M remote B) :
  aborts_cleanly supabase m -> (forall a, aborts_cleanly supabase (k a)) ->
  aborts_cleanly supabase (bind m k).
Proof.
  intros Hm Hk w. destruct (Hm w) as (ok1 & Hnf1 & H1). unfold bind.
  destruct (m w) as [[e|a] w1] eqn:Hrun; cbn [fst snd] in *.
  - exists ok1. split; [exact Hnf1|].
    destruct H1 as [H1 | (rq & e0 & Hraise & Hfault & Hstate)]; [left; exact H1|].
    right. exists rq, e0. inversion Hraise; subst. auto.
  - destruct H1 as [-> | (rq & e & Hraise & _)]; [|discriminate].
    destruct (Hk a (ok_run supabase ok1 w)) as (ok2 & Hnf2 & H2).
    exists (ok1 ++ ok2). split; [apply no_fault_app; assumption|].
    rewrite ok_run_app.
    destruct H2 as [H2 | (rq & e & Hraise & Hfault & Hstate)].
    + left. exact H2.
    + right. exists rq, e. split; [exact Hraise|]. split; [|exact Hstate].
      rewrite ok_run_requests, length_app in Hfault.
      rewrite length_app, Nat.add_assoc. exact Hfault.
Qed.

Lemma aborts_try_reraise {A} (m : M remote A) :
  aborts_cleanly supabase m -> aborts_cleanly supabase (try_except m (fun e => raise e)).
Proof. intros Hm w. rewrite try_reraise. apply Hm. Qed.

End Requests.

Ltac aborts_step :=
  first
    [ apply aborts_ret | apply aborts_raise | apply aborts_lift_res
    | apply aborts_or_raise | apply aborts_execute
    | apply aborts_try_reraise
    | apply aborts_bind; [| intros ?]
    | progress cbv zeta
    | match goal with
      | |- aborts_cleanly _ (match ?x with _ => _ end) => destruct x
      end ].

Lemma upload_aborts_cleanly (P : platform) (supabase : client)
    (raw_data bestbuy_data : gmap string value) :
  aborts_cleanly supabase (upload_to_database P supabase raw_data bestbuy_data).
Proof.
  unfold upload_to_database, find_or_create_model, save_hardware_data,
    find_or_create_variant, create_inventory, save_manual_fields, first_row.
  repeat aborts_step.
Qed.

(** What a failed request means for the caller of [upload_to_database]. *)
Lemma failed_request_is_last (P : platform) (supabase : client)
    (raw_data bestbuy_data : gmap string value) (w : remote) (n : nat) (e : exn) :
  let run := upload_to_database P supabase raw_data bestbuy_data w in
  (length (requests w) <= n < length (requests run.2))%nat ->
  fault supabase n = Some e ->
  run.1 = Raise e /\
  exists ok rq,
    requests run.2 = requests w ++ ok ++ [rq] /\
    n = length (requests w ++ ok) /\
    tables run.2 = tables (ok_run supabase ok w).
Proof.
  cbv zeta. intros Hn Hf.
  destruct (upload_aborts_cleanly P supabase raw_data bestbuy_data w) as (ok & Hnf & Hrun).
  destruct Hrun as [Hrun | (rq & e' & Hraise & Hfault & Hstate)].
  - exfalso. rewrite Hrun, ok_run_requests, length_app in Hn.
    specialize (Hnf (n - length (requests w))%nat ltac:(lia)).
    replace (length (requests w) + (n - length (requests w)))%nat with n in Hnf by lia.
    congruence.
  - rewrite Hstate in Hn |- *. cbn [failed requests tables] in *.
    rewrite ok_run_requests in *. rewrite !length_app in Hn. cbn [length] in Hn.
    assert (Hidx : n = (length (requests w) + length ok)%nat).
    { destruct (Nat.eq_dec n (length (requests w) + length ok)) as [?|Hne]; [assumption|].
      exfalso. specialize (Hnf (n - length (requests w))%nat ltac:(lia)).
      replace (length (requests w) + (n - length (requests w)))%nat with n in Hnf by lia.
      congruence. }
    subst n. rewrite Hfault in Hf. inversion Hf; subst e'.
    split; [exact Hraise|].
    exists ok, rq. rewrite <- app_assoc, length_app. auto.
Qed.

(** ** The uploader: an existing model *)

Lemma existsb_filter_not_nil {A} (f : A -> bool) (l : list A) :
  existsb f l = true -> List.filter f l <> [].
Proof.
  intros H Hnil. apply existsb_exists in H as (x & Hin & Hf).
  assert (Hx : In x (List.filter f l)) by (apply filter_In; auto).
  rewrite Hnil in Hx. destruct Hx.
Qed.

Lemma find_model_found (supabase : client) (model_data : row) (w : remote) :
  fault supabase (length (requests w)) = None ->
  existsb (matching (model_conditions model_data)) (rows_of w "laptop_models") = true ->
  exists model_id,
    find_or_create_model supabase model_data w =
      (Ret (inl (exists_result model_id)),
       {| tables := tables w; requests := requests w ++ [model_query model_data] |}).
Proof.
  intros Hfault Hmatch.
  unfold find_or_create_model. rewrite try_reraise.
  unfold bind at 1. unfold execute at 1. rewrite Hfault.
  unfold model_query at 1. cbn [apply_request].
  pose proof (existsb_filter_not_nil _ _ Hmatch) as Hne.
  destruct (List.filter (matching (model_conditions model_data)) (rows_of w "laptop_models"))
    as [|r rest]; [congruence|].
  cbn [map ret]. eexists. reflexivity.
Qed.

(** C1, as the specification states it, fails.  The key it names starts
    with the brand; the key of the code starts with the product name.  Once
    the Latitude is uploaded, a model exists whose brand (kept in its
    hardware row), CPU, screen size, touchscreen flag and GPU pair are those
    of the Inspiron; uploading the Inspiron still creates a second model. *)
Lemma same_brand_creates_second_model :
  let w1 := (upload_to_database bare_platform plain_client latitude prompted empty_remote).2 in
  let second := upload_to_database bare_platform plain_client inspiron prompted w1 in
  described_key latitude false VNone VNone = described_key inspiron false VNone VNone /\
  map (fun m => [row_get m "id"; row_get m "cpu_model"; row_get m "screen_size_inches";
                 row_get m "has_touchscreen"; row_get m "integrated_gpu_model";
                 row_get m "dedicated_gpu_model"]) (rows_of w1 "laptop_models")
    = [[VInt 1; dict_get inspiron "cpu_model"; dict_get inspiron "screen_size_inches";
        VBool false; VNone; VNone]] /\
  map (fun h => [row_get h "model_id"; row_get h "brand"]) (rows_of w1 "laptop_hardware_data")
    = [[VInt 1; dict_get inspiron "brand"]] /\
  outcome_status second = Some (VStr "created") /\
  length (rows_of second.2 "laptop_models") = 2%nat.
Proof.
  cbv zeta. repeat split; vm_compute; reflexivity.
Qed.

(** C1, amended: when the lookup request succeeds and a row of
    [laptop_models] satisfies its conditions (equal [base_model_name],
    [cpu_model], [screen_size_inches] and [has_touchscreen], and a null-aware
    match on the two GPU columns), [upload_to_database] returns the status
    "exists" with [variant_id] and [shop_sku] set to [None]; the lookup is the
    only request sent and the tables are unchanged. *)
Theorem existing_model_short_circuit (P : platform) (supabase : client)
    (raw_data bestbuy_data : gmap string value) (w : remote)
    (integrated_gpu dedicated_gpu : value) :
  extract_integrated_gpu P raw_data = Ret integrated_gpu ->
  extract_dedicated_gpu P raw_data = Ret dedicated_gpu ->
  let model_data :=
    model_data_of raw_data
      (eq_str (dict_get bestbuy_data "_TouchscreenDisplay_23335_CAT_1002_EN") "Yes")
      integrated_gpu dedicated_gpu in
  fault supabase (length (requests w)) = None ->
  existsb (matching (model_conditions model_data)) (rows_of w "laptop_models") = true ->
  exists result,
    upload_to_database P supabase raw_data bestbuy_data w =
      (Ret result,
       {| tables := tables w; requests := requests w ++ [model_query model_data] |}) /\
    result !! "status" = Some (VStr "exists") /\
    result !! "variant_id" = Some VNone /\
    result !! "shop_sku" = Some VNone /\
    is_write (model_query model_data) = false.
Proof.
  intros Hint Hded. cbv zeta. intros Hfault Hmatch.
  set (model_data := model_data_of _ _ _ _) in *.
  destruct (find_model_found supabase model_data w Hfault Hmatch) as (model_id & Hfind).
  exists (exists_result model_id). split.
  - unfold upload_to_database, has_dedicated_gpu. rewrite Hint, Hded.
    rewrite !bind_lift_ret. cbv zeta. fold model_data.
    rewrite (bind_ret_eq _ _ _ _ _ Hfind). reflexivity.
  - split; [reflexivity|]. split; [reflexivity|]. split; reflexivity.
Qed.

Lemma existing_model_short_circuit_witness :
  outcome_status
    (upload_to_database bare_platform plain_client latitude prompted
       (upload_to_database bare_platform plain_client latitude prompted empty_remote).2)
  = Some (VStr "exists").
Proof.
  destruct (existing_model_short_circuit bare_platform plain_client latitude prompted
              (upload_to_database bare_platform plain_client latitude prompted empty_remote).2
              VNone VNone)
    as (result & Hrun & Hstatus & _).
  - vm_compute. reflexivity.
  - vm_compute. reflexivity.
  - vm_compute. reflexivity.
  - vm_compute. reflexivity.
  - unfold outcome_status. rewrite Hrun. exact Hstatus.
Defined.

(** ** [main]: the fallback *)

Lemma bestbuy_only_default :
  bestbuy_only_file default_output_file = "laptop_hardware_data_bestbuy_only.json".
Proof. vm_compute. reflexivity. Qed.

Lemma save_results_files (H : host) (self : detector) (w : world) :
  exists w',
    save_results H self default_output_file w = (Ret tt, w') /\
    service w' = service w /\
    is_Some (files w' !! "laptop_hardware_data.json") /\
    is_Some (files w' !! "laptop_hardware_data_bestbuy_only.json").
Proof.
  unfold save_results. cbv zeta. rewrite bestbuy_only_default.
  unfold bind, write_file, modify, default_output_file. cbn [files service].
  eexists. split; [reflexivity|]. cbn [files service].
  split; [reflexivity|]. split.
  - rewrite lookup_insert_ne by discriminate. rewrite lookup_insert_eq. eauto.
  - rewrite lookup_insert_eq. eauto.
Qed.

(** Whatever the [try] of [main] raises, the two files are written and the
    service stays as the failure left it. *)
Lemma main_falls_back (P : platform) (H : host) (args : arguments) (a : answers)
    (w w1 : world) (e : exn) :
  (detect_and_prompt P a new_detector).1 = Ret tt ->
  upload args = true ->
  upload_results P H args (detect_and_prompt P a new_detector).2 w = (Raise e, w1) ->
  exists w',
    main P H args a w = (Ret tt, w') /\
    service w' = service w1 /\
    is_Some (files w' !! "laptop_hardware_data.json") /\
    is_Some (files w' !! "laptop_hardware_data_bestbuy_only.json").
Proof.
  intros Hdet Hup Hrun. unfold main.
  destruct (detect_and_prompt P a new_detector) as [[e0|[]] self]; cbn [fst snd] in *;
    [discriminate|].
  rewrite Hup. unfold try_except, bind. rewrite Hrun.
  unfold fallback.
  destruct (is_ImportError e); [apply save_results_files|].
  destruct (is_FileNotFoundError e); [apply save_results_files|].
  destruct (is_ValueError e); apply save_results_files.
Qed.

Lemma load_secrets_state (path : string) (w : world) : (load_secrets path w).2 = w.
Proof.
  unfold load_secrets, bind, get_state.
  destruct (files w !! path) as [[secrets|]|]; cbn [or_raise ret raise snd]; try reflexivity.
  unfold lift_res. destruct (missing_keys secrets required_secrets) as [e|[|k r]]; reflexivity.
Qed.

Lemma upload_results_secrets_fail (P : platform) (H : host) (args : arguments)
    (self : detector) (w : world) (e : exn) :
  supabase_installed H = true ->
  (load_secrets (secrets args) w).1 = Raise e ->
  upload_results P H args self w = (Raise e, w).
Proof.
  intros Hinst Hload. unfold upload_results. rewrite Hinst.
  unfold bind at 1. cbn [ret]. unfold bind at 1.
  pose proof (load_secrets_state (secrets args) w) as Hst.
  destruct (load_secrets (secrets args) w) as [[e0|s] w0]; cbn [fst snd] in *;
    [|discriminate].
  inversion Hload; subst. reflexivity.
Qed.

Lemma upload_results_run (P : platform) (H : host) (args : arguments)
    (self : detector) (w : world) (loaded : json) (supabase : client) :
  supabase_installed H = true ->
  load_secrets (secrets args) w = (Ret loaded, w) ->
  create_supabase_client H loaded w = (Ret supabase, w) ->
  upload_results P H args self w =
    on_service (upload_to_database P supabase (raw_data self) (bestbuy_data self)) w.
Proof.
  intros Hinst Hload Hclient. unfold upload_results. rewrite Hinst.
  unfold bind at 1. cbn [ret].
  rewrite (bind_ret_eq _ _ _ _ _ Hload).
  rewrite (bind_ret_eq _ _ _ _ _ Hclient). reflexivity.
Qed.

(** C5: when a request of [upload_to_database] fails, the call raises the
    error of that request, the failed request is the last one sent (no
    later step and no second attempt), and the tables are those left by
    the requests that succeeded before it (nothing is rolled back).
    Whatever [upload_to_database] raises, [main] catches it and writes the
    two local JSON files, leaving the service as the upload left it. *)
Theorem upload_failure_aborts (P : platform) (H : host) (args : arguments) (a : answers)
    (w : world) (loaded : json) (supabase : client) :
  (detect_and_prompt P a new_detector).1 = Ret tt ->
  upload args = true ->
  supabase_installed H = true ->
  load_secrets (secrets args) w = (Ret loaded, w) ->
  create_supabase_client H loaded w = (Ret supabase, w) ->
  let self := (detect_and_prompt P a new_detector).2 in
  let run := upload_to_database P supabase (raw_data self) (bestbuy_data self) (service w) in
  (forall n e,
     (length (requests (service w)) <= n < length (requests run.2))%nat ->
     fault supabase n = Some e ->
     run.1 = Raise e /\
     exists ok rq,
       requests run.2 = requests (service w) ++ ok ++ [rq] /\
       n = length (requests (service w) ++ ok) /\
       tables run.2 = tables (ok_run supabase ok (service w))) /\
  (forall e,
     run.1 = Raise e ->
     exists w',
       main P H args a w = (Ret tt, w') /\
       service w' = run.2 /\
       is_Some (files w' !! "laptop_hardware_data.json") /\
       is_Some (files w' !! "laptop_hardware_data_bestbuy_only.json")).
Proof.
  intros Hdet Hup Hinst Hload Hclient. cbv zeta. split.
  - intros n e Hn Hf. apply (failed_request_is_last P supabase _ _ _ n e Hn Hf).
  - intros e Hraise.
    pose proof (upload_results_run P H args (detect_and_prompt P a new_detector).2 w loaded
                  supabase Hinst Hload Hclient) as Hres.
    unfold on_service in Hres.
    destruct (upload_to_database P supabase
                (raw_data (detect_and_prompt P a new_detector).2)
                (bestbuy_data (detect_and_prompt P a new_detector).2) (service w))
      as [r s] eqn:Hrun.
    cbn [fst snd] in *. subst r.
    destruct (main_falls_back P H args a w _ e Hdet Hup Hres) as (w' & Hmain & Hsvc & Hfiles).
    exists w'. split; [exact Hmain|]. split; [exact Hsvc | exact Hfiles].
Qed.

Lemma upload_failure_aborts_witness :
  (upload_to_database bare_platform (failing_client 3)
     (raw_data (detect_and_prompt bare_platform quiet_answers new_detector).2)
     (bestbuy_data (detect_and_prompt bare_platform quiet_answers new_detector).2)
     (service configured_world)).1 = Raise (APIError "connection lost") /\
  exists w',
    main bare_platform failing_host upload_arguments quiet_answers configured_world
      = (Ret tt, w') /\
    is_Some (files w' !! "laptop_hardware_data.json") /\
    is_Some (files w' !! "laptop_hardware_data_bestbuy_only.json").
Proof.
  destruct (upload_failure_aborts bare_platform failing_host upload_arguments quiet_answers
              configured_world good_secrets (failing_client 3))
    as [Hrequest Hmain].
  - vm_compute. reflexivity.
  - reflexivity.
  - reflexivity.
  - vm_compute. reflexivity.
  - vm_compute. reflexivity.
  - destruct (Hrequest 3%nat (APIError "connection lost")) as [Hraise _].
    + vm_compute. split; lia.
    + reflexivity.
    + split; [exact Hraise|].
      destruct (Hmain _ Hraise) as (w' & Hrun & _ & Hfile1 & Hfile2).
      exists w'. split; [exact Hrun|]. split; [exact Hfile1 | exact Hfile2].
Defined.

(** ** The secrets file *)

(** C9, as the specification states it, fails: a secrets file that is not
    JSON exists and does not parse, yet [load_secrets] raises an error of
    class [ValueError] (the [JSONDecodeError] of [json.load]) and returns
    nothing. *)
Lemma garbled_secrets_raise_value_error :
  files garbled_world !! "secrets.json" = Some None /\
  load_secrets "secrets.json" garbled_world = (Raise JSONDecodeError, garbled_world) /\
  is_ValueError JSONDecodeError = true.
Proof. repeat split; vm_compute; reflexivity. Qed.

(** C9, amended: [load_secrets] raises [FileNotFoundError] when the file
    does not exist; when the file holds a JSON object it raises
    [ValueError] if and only if one of the two required keys is absent and
    otherwise returns the object unchanged; when the file is not JSON the
    [JSONDecodeError] of the parser, a [ValueError], is raised.  In [main]
    every error of [load_secrets] leads to the two local JSON files being
    written. *)
Theorem load_secrets_outcomes (P : platform) (H : host) (args : arguments) (a : answers)
    (w : world) :
  let path := secrets args in
  (files w !! path = None ->
   exists msg, load_secrets path w = (Raise (FileNotFoundError msg), w)) /\
  (files w !! path = Some None ->
   load_secrets path w = (Raise JSONDecodeError, w)) /\
  (forall obj, files w !! path = Some (Some (JObj obj)) ->
     if existsb (fun kv => String.eqb kv.1 "supabase_url") obj
        && existsb (fun kv => String.eqb kv.1 "supabase_anon_key") obj
     then load_secrets path w = (Ret (JObj obj), w)
     else exists msg, load_secrets path w = (Raise (ValueError msg), w)) /\
  (forall e,
     (detect_and_prompt P a new_detector).1 = Ret tt ->
     upload args = true ->
     supabase_installed H = true ->
     (load_secrets path w).1 = Raise e ->
     exists w',
       main P H args a w = (Ret tt, w') /\
       service w' = service w /\
       is_Some (files w' !! "laptop_hardware_data.json") /\
       is_Some (files w' !! "laptop_hardware_data_bestbuy_only.json")).
Proof.
  cbv zeta. split; [| split; [| split]].
  - intros Hfile. unfold load_secrets, bind, get_state. rewrite Hfile.
    eexists. reflexivity.
  - intros Hfile. unfold load_secrets, bind, get_state. rewrite Hfile. reflexivity.
  - intros obj Hfile. unfold load_secrets, bind, get_state. rewrite Hfile.
    cbn [or_raise ret lift_res missing_keys required_secrets json_contains].
    destruct (existsb (fun kv => String.eqb kv.1 "supabase_url") obj);
      destruct (existsb (fun kv => String.eqb kv.1 "supabase_anon_key") obj);
      cbn [andb]; try reflexivity; eexists; reflexivity.
  - intros e Hdet Hup Hinst Hload.
    apply (main_falls_back P H args a w w e Hdet Hup).
    apply upload_results_secrets_fail; assumption.
Qed.

Lemma load_secrets_outcomes_witness :
  load_secrets "secrets.json" configured_world = (Ret good_secrets, configured_world) /\
  (exists w',
     main bare_platform offline_host upload_arguments quiet_answers garbled_world
       = (Ret tt, w') /\
     is_Some (files w' !! "laptop_hardware_data.json")).
Proof.
  split.
  - apply (proj1 (proj2 (proj2 (load_secrets_outcomes bare_platform offline_host
                                  upload_arguments quiet_answers configured_world)))
             [("supabase_url", JStr "https://example.supabase.co");
              ("supabase_anon_key", JStr "anon-key")]).
    vm_compute. reflexivity.
  - destruct (proj2 (proj2 (proj2 (load_secrets_outcomes bare_platform offline_host
                                     upload_arguments quiet_answers garbled_world)))
                JSONDecodeError)
      as (w' & Hmain & _ & Hfile & _).
    + vm_compute. reflexivity.
    + reflexivity.
    + reflexivity.
    + vm_compute. reflexivity.
    + exists w'. split; [exact Hmain | exact Hfile].
Defined.


(** ** Further properties: which probes can fail *)

Section Succeeds.
Context {S : Type}.

Lemma succeeds_ret {A} (a : A) : succeeds (S := S) (ret a).
Proof. intros s. exists a. reflexivity. Qed.

Lemma succeeds_modify (f : S -> S) : succeeds (modify f).
Proof. intros s. exists tt. reflexivity. Qed.

Lemma succeeds_get_state : succeeds (S := S) get_state.
Proof. intros s. exists s. reflexivity. Qed.

Lemma succeeds_bind {A B} (m : M S A) (k : A -> M S B) :
  succeeds m -> (forall a, succeeds (k a)) -> succeeds (bind m k).
Proof.
  intros Hm Hk s. destruct (Hm s) as [a Ha]. unfold bind.
  destruct (m s) as [[e|a'] s']; cbn [fst] in Ha; [discriminate|].
  apply Hk.
Qed.

(** A [try] whose handler cannot fail cannot fail. *)
Lemma succeeds_try_except {A} (m : M S A) (h : exn -> M S A) :
  (forall e, succeeds (h e)) -> succeeds (try_except m h).
Proof.
  intros Hh s. unfold try_except.
  destruct (m s) as [[e|a] s']; [apply Hh | exists a; reflexivity].
Qed.

Lemma succeeds_when (b : bool) (m : M S unit) : succeeds m -> succeeds (when b m).
Proof. destruct b; [trivial | intros _; apply succeeds_ret]. Qed.

Lemma succeeds_when_some {A} (o : option A) (body : A -> M S unit) :
  (forall a, succeeds (body a)) -> succeeds (when_some o body).
Proof. destruct o; cbn [when_some]; [auto | intros _; apply succeeds_ret]. Qed.

Lemma succeeds_for_each {A} (l : list A) (body : A -> M S unit) :
  (forall a, succeeds (body a)) -> succeeds (for_each l body).
Proof.
  intros Hb. induction l as [|x r IH]; cbn [for_each]; [apply succeeds_ret|].
  apply succeeds_bind; [apply Hb | intros _; exact IH].
Qed.

End Succeeds.

Lemma succeeds_set_raw k v : succeeds (set_raw k v).
Proof. apply succeeds_modify. Qed.

Lemma succeeds_set_bestbuy k v : succeeds (set_bestbuy k v).
Proof. apply succeeds_modify. Qed.

Lemma succeeds_raw_get k : succeeds (raw_get k).
Proof. intros s. eexists. reflexivity. Qed.

Ltac succeeds_step :=
  lazymatch goal with
  | |- succeeds (bind _ _) => apply succeeds_bind; [| intros ?]
  | |- succeeds (try_except _ _) => apply succeeds_try_except; intros ?
  | |- succeeds (ret _) => apply succeeds_ret
  | |- succeeds (set_raw _ _) => apply succeeds_set_raw
  | |- succeeds (set_bestbuy _ _) => apply succeeds_set_bestbuy
  | |- succeeds (raw_get _) => apply succeeds_raw_get
  | |- succeeds get_state => apply succeeds_get_state
  | |- succeeds (when _ _) => apply succeeds_when
  | |- succeeds (when_some _ _) => apply succeeds_when_some; intros ?
  | |- succeeds (for_each _ _) => apply succeeds_for_each; intros ?
  | |- succeeds (match ?x with _ => _ end) => destruct x
  | |- succeeds (let _ := _ in _) => cbv zeta
  | |- succeeds _ => progress autounfold with statements
  end.

Ltac succeeds_auto := repeat succeeds_step.

Lemma detect_system_info_succeeds (P : platform) : succeeds (detect_system_info P).
Proof. unfold detect_system_info. succeeds_auto. Qed.

(** X1: six of the ten probes never raise, whatever the commands print
    and the patterns match: their only fallible calls sit in [try] blocks
    or behind [run_command]. *)
Theorem guarded_probes_never_raise (P : platform) :
  succeeds (detect_system_info P) /\
  succeeds (detect_display P) /\
  succeeds (detect_graphics P) /\
  succeeds (detect_battery P) /\
  succeeds (detect_usb_ports P) /\
  succeeds (detect_webcam P).
Proof.
  repeat split.
  - unfold detect_system_info. succeeds_auto.
  - unfold detect_display. succeeds_auto.
  - unfold detect_graphics, classify_gpus, store_gpu_model. succeeds_auto.
  - unfold detect_battery. succeeds_auto.
  - unfold detect_usb_ports. succeeds_auto.
  - unfold detect_webcam. succeeds_auto.
Qed.

(** ** Further properties: what the probes record *)

Lemma bind_inv {S A B} (m : M S A) (k : A -> M S B) s b s' :
  bind m k s = (Ret b, s') -> exists a s1, m s = (Ret a, s1) /\ k a s1 = (Ret b, s').
Proof.
  unfold bind. destruct (m s) as [[e|a] s1]; [discriminate|].
  intros H. exists a, s1. auto.
Qed.

Lemma bind_succeeds {S A B} (m : M S A) (k : A -> M S B) s :
  succeeds m -> exists a s1, m s = (Ret a, s1) /\ bind m k s = k a s1.
Proof.
  intros Hm. destruct (Hm s) as [a Ha]. unfold bind.
  destruct (m s) as [[e|a'] s1]; cbn [fst] in Ha; [discriminate|].
  exists a', s1. auto.
Qed.

Section Ensures.
Context {S : Type} (Q : S -> Prop).

Lemma ensures_bind_last {A B} (m : M S A) (k : A -> M S B) :
  (forall a, ensures (k a) Q) -> ensures (bind m k) Q.
Proof.
  intros Hk s b s' Hrun. apply bind_inv in Hrun as (a & s1 & _ & Hk').
  exact (Hk a s1 b s' Hk').
Qed.

Lemma ensures_bind_first {A B} (m : M S A) (k : A -> M S B) :
  ensures m Q -> (forall a, preserves Q (k a)) -> ensures (bind m k) Q.
Proof.
  intros Hm Hk s b s' Hrun. apply bind_inv in Hrun as (a & s1 & Hm' & Hk').
  specialize (Hk a s1 (Hm s a s1 Hm')). rewrite Hk' in Hk. exact Hk.
Qed.

Lemma preserves_bind {A B} (m : M S A) (k : A -> M S B) :
  preserves Q m -> (forall a, preserves Q (k a)) -> preserves Q (bind m k).
Proof.
  intros Hm Hk s Hs. unfold bind. specialize (Hm s Hs).
  destruct (m s) as [[e|a] s1]; cbn [snd] in *; [exact Hm|].
  apply Hk. exact Hm.
Qed.

End Ensures.

Lemma preserves_stable {S X A} (f : S -> X) (R : X -> Prop) (m : M S A) :
  stable f m -> preserves (fun s => R (f s)) m.
Proof. intros Hm s Hs. rewrite Hm. exact Hs. Qed.

(** X2: [detect_webcam] always returns and always writes [has_webcam], as
    a boolean: true exactly when the command prints a positive integer,
    false in every other case (no output, no number, zero, or the command
    raising). *)
Theorem webcam_flag (P : platform) (self : detector) :
  detect_webcam P self =
    (Ret tt,
     {| raw_data :=
          <["has_webcam" :=
              VBool match subprocess_run P "ls /dev/video* 2>/dev/null | wc -l" with
                    | Some out =>
                        match PyNum.int (PyStr.strip out) with
                        | Some n => (0 <? n)%Z
                        | None => false
                        end
                    | None => false
                    end]> (raw_data self);
        bestbuy_data := bestbuy_data self |}).
Proof.
  unfold detect_webcam, try_except, bind, shell, or_raise, py_int.
  destruct (subprocess_run P "ls /dev/video* 2>/dev/null | wc -l") as [out|];
    cbn [ret raise]; [|reflexivity].
  destruct (String.eqb (PyStr.strip out) "") eqn:Hempty.
  - apply String.eqb_eq in Hempty. rewrite Hempty.
    change (PyNum.int "") with (@None Z). reflexivity.
  - destruct (PyNum.int (PyStr.strip out)) as [n|]; cbn [or_raise ret raise];
      [|reflexivity].
    destruct (0 <? n)%Z; reflexivity.
Qed.

(** The touchscreen flag after [detect_display]. *)
Lemma touchscreen_after_display (P : platform) (self : detector) :
  raw_data (detect_display P self).2 !! "has_touchscreen" =
    Some (VBool (existsb is_touch_line
                   (PyStr.split PyStr.newline (run_command P "xinput list")))).
Proof.
  unfold detect_display.
  match goal with |- context [bind ?m ?k self] =>
    destruct (bind_succeeds m k self) as (a & s1 & _ & ->)
  end.
  { apply succeeds_try_except. intros e. apply succeeds_ret. }
  match goal with |- context [bind ?m ?k s1] =>
    destruct (bind_succeeds m k s1) as (a2 & s2 & _ & ->)
  end.
  { apply succeeds_try_except. intros e. apply succeeds_ret. }
  unfold try_except, bind. cbn [set_raw modify snd raw_data].
  apply lookup_insert_eq.
Qed.

Lemma rest_keeps_touchscreen (P : platform) :
  stable (fun self => raw_data self !! "has_touchscreen")
    (detect_graphics P ;;; detect_storage P ;;; detect_battery P ;;;
     detect_network P ;;; detect_usb_ports P ;;; detect_webcam P).
Proof.
  unfold detect_graphics, detect_storage, detect_battery, detect_network, detect_usb_ports,
    detect_webcam, classify_gpus, store_gpu_model, internal_storage.
  stable_auto.
Qed.

Lemma touchscreen_after_detect_all (P : platform) :
  ensures (detect_all P)
    (fun self => raw_data self !! "has_touchscreen" =
       Some (VBool (existsb is_touch_line
                      (PyStr.split PyStr.newline (run_command P "xinput list"))))).
Proof.
  unfold detect_all.
  apply ensures_bind_last; intros _.
  apply ensures_bind_last; intros _.
  apply ensures_bind_last; intros _.
  apply ensures_bind_first.
  - intros s a s' Hrun. pose proof (touchscreen_after_display P s) as H.
    rewrite Hrun in H. exact H.
  - intros _.
    apply (preserves_stable (fun self => raw_data self !! "has_touchscreen")
             (fun v => v = Some _)).
    apply rest_keeps_touchscreen.
Qed.

Lemma prompt_keeps_detected_touchscreen (a : answers) (b : bool) (self : detector) :
  raw_data self !! "has_touchscreen" = Some (VBool b) ->
  raw_data (prompt_manual_fields a self).2 !! "has_touchscreen" = Some (VBool b).
Proof.
  intros Hb.
  assert (Hkeep : forall A (m : M detector A),
            stable (fun s => raw_data s !! "has_touchscreen") m ->
            preserves (fun s => raw_data s !! "has_touchscreen" = Some (VBool b)) m).
  { intros A m Hm.
    exact (preserves_stable (fun s => raw_data s !! "has_touchscreen")
             (fun v => v = Some (VBool b)) m Hm). }
  assert (Hp : preserves (fun s => raw_data s !! "has_touchscreen" = Some (VBool b))
                 (prompt_manual_fields a)).
  { unfold prompt_manual_fields.
    apply preserves_bind; [apply Hkeep; stable_auto | intros screen].
    apply preserves_bind; [apply Hkeep; stable_auto | intros _].
    apply preserves_bind; [apply Hkeep; stable_auto | intros choice].
    apply preserves_bind; [apply Hkeep; stable_auto | intros _].
    apply preserves_bind; [apply Hkeep; stable_auto | intros backlit].
    apply preserves_bind; [apply Hkeep; stable_auto | intros _].
    intros s Hs. unfold bind at 1, raw_get at 1, bind at 1, get_state. cbn [ret].
    unfold dict_get, dict_get_or. rewrite Hs. cbn [default is_none when].
    match goal with |- context [bind ?m ?k s] =>
      assert (Hk : stable (fun s => raw_data s !! "has_touchscreen") (bind m k))
    end.
    { stable_auto. }
    rewrite Hk. exact Hs. }
  exact (Hp self Hb).
Qed.

Lemma prompt_keeps_touchscreen_attribute (a : answers) :
  stable (fun self => bestbuy_data self !! "_TouchscreenDisplay_23335_CAT_1002_EN")
    (prompt_manual_fields a).
Proof. unfold prompt_manual_fields. stable_auto. Qed.

Lemma touchscreen_in_table :
  In ("_TouchscreenDisplay_23335_CAT_1002_EN", Flag "has_touchscreen") field_table.
Proof. unfold field_table. repeat (first [left; reflexivity | right]). Qed.

Lemma pair_of_fst {A B} (p : A * B) (a : A) : p.1 = a -> p = (a, p.2).
Proof. destruct p. cbn [fst snd]. intros ->. reflexivity. Qed.

(** X3: when detection and prompt return, the touchscreen flag of the bag
    and the touchscreen attribute are those found by [xinput]:
    [detect_display] always stores a boolean, so the prompt never asks for
    the touchscreen and the operator's answer is not used. *)
Theorem touchscreen_comes_from_xinput (P : platform) (a : answers) :
  (detect_and_prompt P a new_detector).1 = Ret tt ->
  let self := (detect_and_prompt P a new_detector).2 in
  let detected :=
    existsb is_touch_line (PyStr.split PyStr.newline (run_command P "xinput list")) in
  raw_data self !! "has_touchscreen" = Some (VBool detected) /\
  bestbuy_data self !! "_TouchscreenDisplay_23335_CAT_1002_EN"
    = Some (VStr (if detected then "Yes" else "No")).
Proof.
  intros Hret. cbv zeta. apply pair_of_fst in Hret as Hrun.
  set (self := (detect_and_prompt P a new_detector).2) in *. clearbody self. clear Hret.
  unfold detect_and_prompt in Hrun.
  apply bind_inv in Hrun as ([] & s1 & Hdetect & Hrun).
  apply bind_inv in Hrun as ([] & s2 & Hmap & Hprompt).
  pose proof (touchscreen_after_detect_all P _ _ _ Hdetect) as Hs1. cbv beta in Hs1.
  unfold map_to_bestbuy_fields, modify in Hmap. inversion Hmap; subst s2. clear Hmap.
  split.
  - pose proof (prompt_keeps_detected_touchscreen a _
                  {| raw_data := raw_data s1; bestbuy_data := bestbuy_fields P (raw_data s1) |}
                  Hs1) as H.
    rewrite Hprompt in H. exact H.
  - pose proof (prompt_keeps_touchscreen_attribute a
                  {| raw_data := raw_data s1; bestbuy_data := bestbuy_fields P (raw_data s1) |})
      as H.
    cbv beta in H. rewrite Hprompt in H. cbn [snd bestbuy_data] in H. rewrite H.
    rewrite (fields_lookup P _ _ _ touchscreen_in_table).
    unfold field_value, dict_get, dict_get_or. rewrite Hs1. cbn [default truthy].
    destruct (existsb _ _); reflexivity.
Qed.

Lemma touchscreen_comes_from_xinput_witness :
  bestbuy_data
    (detect_and_prompt (platform_with "xinput list" "Wacom HID Touch Screen id=9")
       quiet_answers new_detector).2
    !! "_TouchscreenDisplay_23335_CAT_1002_EN" = Some (VStr "Yes").
Proof.
  destruct (touchscreen_comes_from_xinput
              (platform_with "xinput list" "Wacom HID Touch Screen id=9") quiet_answers)
    as [_ Hattribute].
  - vm_compute. reflexivity.
  - exact Hattribute.
Defined.

(** ** Further properties: failures that are not caught *)

Lemma detect_processor_bad_clock (P : platform) (g : list string) (self : detector) :
  re_search P "CPU MHz:\s*([\d.]+)" (run_command P "lscpu") = Some g ->
  PyNum.float (group 1 g) = None ->
  exists msg s', detect_processor P self = (Raise (ValueError msg), s').
Proof.
  intros Hmatch Hfloat. unfold detect_processor. cbv zeta. rewrite Hmatch.
  cbn [when_some]. unfold py_float at 1. rewrite Hfloat. cbn [or_raise].
  unfold bind at 1. cbn [set_raw modify].
  match goal with |- context [bind ?m ?k ?s] =>
    destruct (bind_succeeds m k s) as (a & s1 & _ & ->)
  end.
  { unfold store_group. succeeds_auto. }
  unfold bind at 1.
  destruct (re_search P "Core\(s\) per socket:\s*(\d+)" (run_command P "lscpu")) as [c|];
    [destruct (re_search P "Socket\(s\):\s*(\d+)" (run_command P "lscpu")) as [k|]|].
  - unfold bind at 1, py_int at 1.
    destruct (PyNum.int (group 1 c)); cbn [or_raise ret raise]; [|eauto].
    unfold bind at 1, py_int at 1.
    destruct (PyNum.int (group 1 k)); cbn [or_raise ret raise]; [|eauto].
    cbn [set_raw modify]. unfold bind, raise. eauto.
  - cbn [ret]. unfold bind, raise. eauto.
  - cbn [ret]. unfold bind, raise. eauto.
Qed.

(** X4: when the pattern for the CPU clock captures text that [float]
    rejects (its class of digits and dots admits "1.2.3"),
    [detect_processor] raises [ValueError] outside any [try]; [detect_all]
    and [main] let it through, so [main] ends with that error and has
    written no file and sent no request. *)
Theorem bad_clock_aborts_main (P : platform) (H : host) (args : arguments) (a : answers)
    (w : world) (g : list string) :
  re_search P "CPU MHz:\s*([\d.]+)" (run_command P "lscpu") = Some g ->
  PyNum.float (group 1 g) = None ->
  exists msg, main P H args a w = (Raise (ValueError msg), w).
Proof.
  intros Hmatch Hfloat. unfold main, detect_and_prompt, detect_all.
  unfold bind at 1. unfold bind at 1.
  destruct (detect_system_info_succeeds P new_detector) as [[] Hsys].
  destruct (detect_system_info P new_detector) as [[e|[]] s1]; cbn [fst] in Hsys;
    [discriminate|].
  unfold bind at 1.
  destruct (detect_processor_bad_clock P g s1 Hmatch Hfloat) as (msg & s2 & ->).
  exists msg. reflexivity.
Qed.

Lemma bad_clock_aborts_main_witness :
  exists msg,
    main odd_mhz_platform offline_host upload_arguments quiet_answers configured_world
    = (Raise (ValueError msg), configured_world).
Proof.
  apply (bad_clock_aborts_main odd_mhz_platform offline_host upload_arguments quiet_answers
           configured_world ["1.2.3"]); vm_compute; reflexivity.
Defined.

(** ** Further properties: the RAM size *)

Lemma store_ram_size_raises (physical_ram_gb : option Z) (mem_kb : Z) (e : exn)
    (self : detector) :
  mem_gb_raw_of mem_kb = Raise e ->
  store_ram_size physical_ram_gb mem_kb self = (Raise e, self).
Proof. intros H. unfold store_ram_size. rewrite H. reflexivity. Qed.

(** X5: [ram_size_gb] is written only where [MemTotal] was read.  Without
    it the key is left as it was, even when [dmidecode] listed modules.
    With it the quotient of [MemTotal] by 2^20 is computed first: when that
    division returns and the module sizes sum to a non-zero total, the key
    holds that sum and the quotient is not used; when the division raises,
    [detect_memory] raises the same error and the key is left as it was,
    modules or not. *)
Theorem ram_size_needs_meminfo (P : platform) (self : detector) :
  let dmidecode_memory := run_command_with_sudo P "dmidecode -t memory" in
  let mem_match := re_search P "MemTotal:\s*(\d+)\s*kB" (run_command P "cat /proc/meminfo") in
  (mem_match = None ->
   raw_data (detect_memory P self).2 !! "ram_size_gb" = raw_data self !! "ram_size_gb") /\
  (forall sizes g mem_kb mem_gb_raw,
     installed_sizes P (PyStr.split "Handle" dmidecode_memory) = Ret sizes ->
     sum_Z sizes <> 0%Z ->
     mem_match = Some g ->
     PyNum.int (group 1 g) = Some mem_kb ->
     mem_gb_raw_of mem_kb = Ret mem_gb_raw ->
     raw_data (detect_memory P self).2 !! "ram_size_gb" = Some (VInt (sum_Z sizes))) /\
  (forall sizes g mem_kb e,
     installed_sizes P (PyStr.split "Handle" dmidecode_memory) = Ret sizes ->
     mem_match = Some g ->
     PyNum.int (group 1 g) = Some mem_kb ->
     mem_gb_raw_of mem_kb = Raise e ->
     (detect_memory P self).1 = Raise e /\
     raw_data (detect_memory P self).2 !! "ram_size_gb" = raw_data self !! "ram_size_gb").
Proof.
  cbv zeta. split; [|split].
  - intros Hnone. unfold detect_memory. cbv zeta. rewrite Hnone. cbn [when_some].
    match goal with |- raw_data (?m self).2 !! _ = _ =>
      assert (Hs : stable (fun s => raw_data s !! "ram_size_gb") m)
    end.
    { stable_auto. }
    apply Hs.
  - intros sizes g mem_kb mem_gb_raw Hsizes Hsum Hmatch Hint Hq.
    unfold detect_memory. cbv zeta. rewrite Hsizes, Hmatch.
    unfold bind at 1. cbn [set_raw modify].
    unfold bind at 1. cbn [lift_res].
    match goal with |- context [bind ?m ?k] =>
      assert (Hk : stable (fun self => raw_data self !! "ram_size_gb") (k tt))
    end.
    { stable_auto. }
    match goal with |- context [bind ?m ?k ?s] =>
      erewrite (bind_ret_eq m k s)
    end.
    2:{ cbn [when_some]. unfold py_int. rewrite Hint. cbn [or_raise].
        erewrite bind_ret_eq; [|reflexivity].
        unfold store_ram_size. rewrite Hq.
        unfold bind at 1. cbn [lift_res].
        destruct sizes as [|z r]; [exfalso; apply Hsum; reflexivity|].
        apply Z.eqb_neq in Hsum. rewrite Hsum. reflexivity. }
    rewrite Hk. cbn [raw_data]. apply lookup_insert_eq.
  - intros sizes g mem_kb e Hsizes Hmatch Hint Hq.
    assert (Hrun : detect_memory P self =
              (Raise e,
               (set_raw "dmidecode_memory"
                  (VStr (run_command_with_sudo P "dmidecode -t memory")) self).2)).
    { unfold detect_memory. cbv zeta. rewrite Hsizes, Hmatch.
      unfold bind at 1. cbn [set_raw modify].
      unfold bind at 1. cbn [lift_res].
      unfold bind at 1. cbn [when_some]. unfold py_int. rewrite Hint. cbn [or_raise].
      erewrite bind_ret_eq; [|reflexivity].
      rewrite (store_ram_size_raises _ mem_kb e _ Hq). reflexivity. }
    rewrite Hrun. cbn [fst snd set_raw modify raw_data].
    split; [reflexivity|]. apply lookup_insert_ne. discriminate.
Qed.

Lemma ram_size_needs_meminfo_witness :
  raw_data (detect_memory (module_platform None) new_detector).2 !! "ram_size_gb" = None /\
  raw_data (detect_memory (module_platform (Some "7864320")) new_detector).2 !! "ram_size_gb"
    = Some (VInt 8) /\
  (detect_memory (module_platform (Some huge_total)) new_detector).1 = Raise OverflowError.
Proof.
  split; [|split].
  - apply (proj1 (ram_size_needs_meminfo (module_platform None) new_detector)).
    vm_compute. reflexivity.
  - apply (proj1 (proj2 (ram_size_needs_meminfo (module_platform (Some "7864320"))
                           new_detector))
             [8%Z] ["7864320"] 7864320%Z (PyFloat.Finite (15 # 2))).
    + vm_compute. reflexivity.
    + discriminate.
    + vm_compute. reflexivity.
    + vm_compute. reflexivity.
    + vm_compute. reflexivity.
  - apply (proj2 (proj2 (ram_size_needs_meminfo (module_platform (Some huge_total))
                           new_detector))
             [8%Z] [huge_total] (2 * 10 ^ 314)%Z OverflowError).
    + vm_compute. reflexivity.
    + vm_compute. reflexivity.
    + vm_compute. reflexivity.
    + vm_compute. reflexivity.
Defined.

(** ** Further properties: graphics, from detection to upload *)

Lemma classify_gpus_keeps (P : platform) (gpu_lines : list string) (self : detector) :
  raw_data (classify_gpus P gpu_lines self).2 !! "gpus" = Some (VStrs gpu_lines) /\
  raw_data (classify_gpus P gpu_lines self).2 !! "gpu_model" = raw_data self !! "gpu_model".
Proof.
  split.
  - unfold classify_gpus.
    erewrite bind_ret_eq; [|reflexivity].
    match goal with |- raw_data (?m ?s).2 !! _ = _ =>
      assert (Hgpus : stable (fun self => raw_data self !! "gpus") m)
    end.
    { unfold store_gpu_model. stable_auto. }
    rewrite Hgpus. cbn [raw_data]. apply lookup_insert_eq.
  - assert (Hmodel : stable (fun self => raw_data self !! "gpu_model")
                       (classify_gpus P gpu_lines)).
    { unfold classify_gpus, store_gpu_model. stable_auto. }
    apply Hmodel.
Qed.

Lemma no_dedicated_name (P : platform) (gpu_lines : list string) :
  forallb (fun line => negb (PyStr.contains "nvidia" (PyStr.lower line))
                       && negb (PyStr.contains "rx" (PyStr.lower line))) gpu_lines = true ->
  first_return (dedicated_in_line P) gpu_lines = VNone.
Proof.
  induction gpu_lines as [|line rest IH]; cbn [forallb first_return]; [reflexivity|].
  intros H. apply andb_true_iff in H as [Hline Hrest].
  apply andb_true_iff in Hline as [Hnv Hrx].
  apply negb_true_iff in Hnv. apply negb_true_iff in Hrx.
  unfold dedicated_in_line. cbv zeta. rewrite Hnv, Hrx.
  rewrite andb_false_r. apply IH. exact Hrest.
Qed.

(** X6: the detector and the uploader disagree on AMD Radeon adapters
    that are not "RX".  When some GPU line names AMD and Radeon and no line
    names NVIDIA or "rx", [detect_graphics] records the type "Dedicated or
    Discrete GPU", while on the bag it leaves [extract_dedicated_gpu]
    returns [None] and [has_dedicated_gpu] is false. *)
Theorem radeon_without_rx (P : platform) (self : detector) :
  let gpu_lines := gpu_lines_in (run_command P "lspci") in
  has_amd_discrete gpu_lines = true ->
  forallb (fun line => negb (PyStr.contains "nvidia" (PyStr.lower line))
                       && negb (PyStr.contains "rx" (PyStr.lower line))) gpu_lines = true ->
  raw_data self !! "gpu_model" = None ->
  let raw := raw_data (detect_graphics P self).2 in
  raw !! "gpu_type" = Some (VStr "Dedicated or Discrete GPU") /\
  extract_dedicated_gpu P raw = Ret VNone /\
  has_dedicated_gpu P raw = Ret false.
Proof.
  cbv zeta. intros Hamd Hnone Hmodel.
  unfold detect_graphics. cbv zeta.
  set (gpu_lines := gpu_lines_in (run_command P "lspci")) in *.
  unfold bind. cbn [set_raw modify].
  set (self1 := {| raw_data := _; bestbuy_data := _ |}).
  destruct gpu_lines as [|l r] eqn:E; [discriminate|]. rewrite <- E in *.
  destruct (classify_gpus_keeps P gpu_lines self1) as [Hgpus Hgm].
  assert (Htype : raw_data (classify_gpus P gpu_lines self1).2 !! "gpu_type"
                  = Some (VStr "Dedicated or Discrete GPU")).
  { rewrite classify_gpus_type, Hamd, orb_true_r. reflexivity. }
  assert (Hextract : extract_dedicated_gpu P (raw_data (classify_gpus P gpu_lines self1).2)
                     = Ret VNone).
  { unfold extract_dedicated_gpu, dedicated_fast_path, has_key. rewrite Hgm.
    subst self1. cbn [raw_data]. rewrite lookup_insert_ne by discriminate. rewrite Hmodel.
    cbn [andb]. unfold parse_gpus. rewrite Hgpus. rewrite E at 1. cbn [truthy gpu_lines_of].
    rewrite (no_dedicated_name P gpu_lines Hnone). reflexivity. }
  split; [exact Htype|]. split; [exact Hextract|].
  unfold has_dedicated_gpu. rewrite Hextract. reflexivity.
Qed.

Lemma radeon_without_rx_witness :
  let raw := raw_data (detect_graphics radeon_platform new_detector).2 in
  raw !! "gpu_type" = Some (VStr "Dedicated or Discrete GPU") /\
  extract_dedicated_gpu radeon_platform raw = Ret VNone /\
  has_dedicated_gpu radeon_platform raw = Ret false.
Proof.
  apply (radeon_without_rx radeon_platform new_detector); vm_compute; reflexivity.
Defined.

(** ** Further properties: storage *)

Section StorageEdges.
Context (P : platform).

Lemma scan_disks_keeps (lines : list string) (line : string) (e : storage_entry)
    (devs : list storage_entry) :
  scan_disk P line = Ret [e] -> In line lines -> scan_disks P lines = Ret devs -> In e devs.
Proof.
  intros Hline. revert devs. induction lines as [|l r IH]; intros devs Hin Hscan;
    [destruct Hin|].
  cbn [scan_disks] in Hscan.
  destruct (scan_disk P l) as [err|here] eqn:Hl; [discriminate|].
  cbn [res_bind] in Hscan.
  destruct (scan_disks P r) as [err|more]; [discriminate|].
  cbn [res_bind] in Hscan. inversion Hscan; subst. apply in_or_app.
  destruct Hin as [-> | Hin].
  - left. rewrite Hline in Hl. inversion Hl; subst. left. reflexivity.
  - right. apply IH; auto.
Qed.

Lemma scan_disk_error (line : string) (e : exn) :
  scan_disk P line = Raise e -> e = ValueError "could not convert string to float".
Proof.
  unfold scan_disk. destruct (parse_lsblk_line line) as [d|]; [|discriminate].
  cbv zeta. destruct (size_match (device_size d)) as [[num u]|]; [|discriminate].
  destruct (size_gb_of num u) as [size_gb|]; cbn [res_of res_bind].
  - destruct (is_removable P (device_name d) || PyFloat.ltb size_gb (PyFloat.Finite 32));
      discriminate.
  - intros H. inversion H. reflexivity.
Qed.

Lemma scan_disks_raises (lines : list string) (line : string) :
  scan_disk P line = Raise (ValueError "could not convert string to float") ->
  In line lines ->
  scan_disks P lines = Raise (ValueError "could not convert string to float").
Proof.
  intros Hline. induction lines as [|l r IH]; intros Hin; [destruct Hin|].
  cbn [scan_disks].
  destruct (scan_disk P l) as [err|here] eqn:Hl.
  - apply scan_disk_error in Hl. subst err. reflexivity.
  - destruct Hin as [-> | Hin]; [congruence|].
    cbn [res_bind]. rewrite (IH Hin). reflexivity.
Qed.

Lemma internal_storage_devices (lines : list string) (devs : list storage_entry)
    (self : detector) :
  scan_disks P lines = Ret devs ->
  raw_data (internal_storage P lines self).2 !! "storage_devices" = Some (VDevices devs).
Proof.
  intros Hscan. unfold internal_storage. rewrite Hscan.
  rewrite bind_lift_ret. erewrite bind_ret_eq; [|reflexivity].
  match goal with |- raw_data (?m ?s).2 !! _ = _ =>
    assert (Hk : stable (fun self => raw_data self !! "storage_devices") m)
  end.
  { stable_auto. }
  rewrite Hk. cbn [raw_data]. apply lookup_insert_eq.
Qed.

End StorageEdges.

(** X7: a disk whose size does not match the size pattern is kept in the
    recorded device list whether or not it is removable (the removable and
    32 GB tests sit under [if size_match]), and it adds nothing to either
    capacity. *)
Theorem unparsed_size_is_kept (P : platform) (self : detector) (lines : list string)
    (line : string) (d : disk_line) (devs : list storage_entry) :
  tail (PyStr.split PyStr.newline (run_command P "lsblk -d -o NAME,SIZE,TYPE,ROTA")) = lines ->
  In line lines ->
  parse_lsblk_line line = Some d ->
  size_match (device_size d) = None ->
  scan_disks P lines = Ret devs ->
  raw_data (detect_storage P self).2 !! "storage_devices" = Some (VDevices devs) /\
  In (entry_of d) devs /\
  (forall rest totals,
     total_capacity (entry_of d :: rest) totals = total_capacity rest totals).
Proof.
  intros Hlines Hin Hp Hm Hscan. split; [| split].
  - rewrite (detect_storage_records P self "storage_devices") by (cbn; auto).
    cbv zeta. rewrite Hlines. apply internal_storage_devices. exact Hscan.
  - apply (scan_disks_keeps P lines line); auto.
    unfold scan_disk. rewrite Hp. cbv zeta. rewrite Hm. reflexivity.
  - intros rest totals. cbn [total_capacity entry_of se_size]. rewrite Hm. reflexivity.
Qed.

(** X8: a disk whose size matches the size pattern but is no number for
    [float] (for instance "1.2.3G") makes [detect_storage] raise
    [ValueError]: only [lsblk] has been recorded by then, and none of the
    storage keys. *)
Theorem bad_size_aborts_storage (P : platform) (self : detector) (line : string)
    (d : disk_line) (num : string) (u : ascii) :
  let lsblk_output := run_command P "lsblk -d -o NAME,SIZE,TYPE,ROTA" in
  In line (tail (PyStr.split PyStr.newline lsblk_output)) ->
  parse_lsblk_line line = Some d ->
  size_match (device_size d) = Some (num, u) ->
  PyNum.float num = None ->
  detect_storage P self =
    (Raise (ValueError "could not convert string to float"),
     (set_raw "lsblk" (VStr lsblk_output) self).2).
Proof.
  cbv zeta. intros Hin Hp Hm Hf.
  assert (Hline : scan_disk P line = Raise (ValueError "could not convert string to float")).
  { unfold scan_disk. rewrite Hp. cbv zeta. rewrite Hm. unfold size_gb_of. rewrite Hf.
    reflexivity. }
  unfold detect_storage. cbv zeta.
  erewrite bind_ret_eq; [|reflexivity].
  unfold bind at 1. unfold internal_storage.
  rewrite (scan_disks_raises P _ line Hline Hin). reflexivity.
Qed.

Lemma unparsed_size_is_kept_witness :
  let card_reader := {| se_device := "sdb"; se_size := "0B"; se_type := "HDD" |} in
  let fixed_disk := {| se_device := "sda"; se_size := "256G"; se_type := "SSD" |} in
  raw_data (detect_storage card_reader_platform new_detector).2 !! "storage_devices"
    = Some (VDevices [fixed_disk; card_reader]) /\
  In card_reader [fixed_disk; card_reader] /\
  (forall rest totals,
     total_capacity (card_reader :: rest) totals = total_capacity rest totals).
Proof.
  apply (unparsed_size_is_kept card_reader_platform new_detector
           ["sda 256G disk 0"; "sdb 0B disk 1"] "sdb 0B disk 1"
           {| device_name := "sdb"; device_size := "0B"; is_rotational := true |}).
  - vm_compute; reflexivity.
  - right; left; reflexivity.
  - vm_compute; reflexivity.
  - vm_compute; reflexivity.
  - vm_compute; reflexivity.
Defined.

Lemma bad_size_aborts_storage_witness :
  (detect_storage odd_size_platform new_detector).1
  = Raise (ValueError "could not convert string to float").
Proof.
  rewrite (bad_size_aborts_storage odd_size_platform new_detector "sdb 1.2.3G disk 0"
             {| device_name := "sdb"; device_size := "1.2.3G"; is_rotational := false |}
             "1.2.3" "G"%char).
  - reflexivity.
  - right; left; reflexivity.
  - vm_compute; reflexivity.
  - vm_compute; reflexivity.
  - vm_compute; reflexivity.
Defined.

Lemma ensures_impl {S A} (m : M S A) (Q Q' : S -> Prop) :
  (forall s, Q s -> Q' s) -> ensures m Q -> ensures m Q'.
Proof. intros HQ Hm s a s' Hrun. apply HQ. exact (Hm s a s' Hrun). Qed.

Lemma ensures_set_raw (k : string) (v : value) (Q : detector -> Prop) :
  (forall self, Q (set_raw k v self).2) -> ensures (set_raw k v) Q.
Proof. intros HQ s a s' Hrun. specialize (HQ s). rewrite Hrun in HQ. exact HQ. Qed.

(** X9: whenever [detect_storage] returns, [has_emmc_storage] holds a
    boolean and [storage_soldered_confidence] one of the five fixed texts,
    and it is "confirmed_soldered" when eMMC storage was found. *)
Theorem storage_confidence_recorded (P : platform) (self : detector) :
  (detect_storage P self).1 = Ret tt ->
  let raw := raw_data (detect_storage P self).2 in
  (exists has_emmc, raw !! "has_emmc_storage" = Some (VBool has_emmc)) /\
  (exists confidence,
     raw !! "storage_soldered_confidence" = Some (VStr confidence) /\
     In confidence confidence_values) /\
  (raw !! "has_emmc_storage" = Some (VBool true) ->
   raw !! "storage_soldered_confidence" = Some (VStr "confirmed_soldered")).
Proof.
  intros Hret. cbv zeta. apply pair_of_fst in Hret.
  set (s' := (detect_storage P self).2) in *. clearbody s'.
  split; [| split].
  - refine ((_ : ensures (detect_storage P) (fun s => exists b, raw_data s !! "has_emmc_storage" = Some (VBool b))) self tt s' Hret).
    unfold detect_storage. cbv zeta.
    apply ensures_bind_last; intros _.
    apply ensures_bind_last; intros [total_ssd_gb total_hdd_gb].
    apply ensures_bind_first.
    + intros s a s1 Hrun. unfold try_except in Hrun.
      match type of Hrun with context [match ?m s with _ => _ end] =>
        destruct (m s) as [[e|[]] s2] eqn:Hbody
      end.
      * unfold set_raw, modify in Hrun. inversion Hrun; subst. cbn [raw_data].
        rewrite lookup_insert_eq. eauto.
      * inversion Hrun; subst.
        apply bind_inv in Hbody as (out & s3 & _ & Hbody).
        apply bind_inv in Hbody as (count & s4 & _ & Hbody).
        unfold set_raw, modify in Hbody. inversion Hbody; subst. cbn [raw_data].
        rewrite lookup_insert_eq. eauto.
    + intros _.
      apply (preserves_stable (fun s => raw_data s !! "has_emmc_storage")
               (fun v => exists b, v = Some (VBool b))).
      stable_auto.
  - refine ((_ : ensures (detect_storage P) (fun s => exists c,
             raw_data s !! "storage_soldered_confidence" = Some (VStr c)
             /\ In c confidence_values)) self tt s' Hret).
    unfold detect_storage. cbv zeta.
    apply ensures_bind_last; intros _.
    apply ensures_bind_last; intros [total_ssd_gb total_hdd_gb].
    apply ensures_bind_last; intros _.
    apply ensures_bind_last; intros _.
    apply ensures_bind_last; intros has_emmc.
    apply ensures_bind_last; intros controller.
    repeat match goal with
           | |- ensures (if ?b then _ else _) _ => destruct b
           end;
      apply ensures_set_raw; intros s; cbn [set_raw modify snd raw_data];
      rewrite lookup_insert_eq; eexists; (split; [reflexivity|]);
      unfold confidence_values, In; tauto.
  - refine ((_ : ensures (detect_storage P) (fun s =>
             raw_data s !! "has_emmc_storage" = Some (VBool true) ->
             raw_data s !! "storage_soldered_confidence" = Some (VStr "confirmed_soldered"))) self tt s' Hret).
    unfold detect_storage. cbv zeta.
    apply ensures_bind_last; intros _.
    apply ensures_bind_last; intros [total_ssd_gb total_hdd_gb].
    apply ensures_bind_last; intros _.
    apply ensures_bind_last; intros _.
    intros s a s1 Hrun.
    unfold bind at 1, raw_get at 1, bind at 1, get_state in Hrun. cbn [ret] in Hrun.
    unfold bind at 1, raw_get at 1, bind at 1, get_state in Hrun. cbn [ret] in Hrun.
    destruct (truthy (dict_get (raw_data s) "has_emmc_storage")) eqn:Hemmc.
    + unfold set_raw, modify in Hrun. inversion Hrun; subst. cbn [raw_data].
      intros _. apply lookup_insert_eq.
    + assert (Hkeep : raw_data s1 !! "has_emmc_storage" = raw_data s !! "has_emmc_storage").
      { repeat match type of Hrun with
               | context [if ?b then _ else _] => destruct b
               end;
          unfold set_raw, modify in Hrun; inversion Hrun; subst; cbn [raw_data];
          apply lookup_insert_ne; discriminate. }
      rewrite Hkeep. intros Htrue. unfold dict_get, dict_get_or in Hemmc.
      rewrite Htrue in Hemmc. discriminate.
Qed.

Lemma storage_confidence_recorded_witness :
  let raw := raw_data (detect_storage usb_stick_platform new_detector).2 in
  (exists has_emmc, raw !! "has_emmc_storage" = Some (VBool has_emmc)) /\
  (exists confidence,
     raw !! "storage_soldered_confidence" = Some (VStr confidence) /\
     In confidence confidence_values) /\
  (raw !! "has_emmc_storage" = Some (VBool true) ->
   raw !! "storage_soldered_confidence" = Some (VStr "confirmed_soldered")).
Proof.
  apply (storage_confidence_recorded usb_stick_platform new_detector).
  vm_compute; reflexivity.
Defined.
(** ** Further properties: network, battery *)

Ltac lookup_inserted :=
  repeat first [ rewrite lookup_insert_eq
               | rewrite lookup_insert_ne by discriminate ].

(** X10: when the [lspci] pipeline runs, [detect_network] returns;
    [has_wifi] is always written, true or false; [has_ethernet] and
    [has_bluetooth] are written only as [True] and otherwise left as they
    were, so that a machine without them has no such key. *)
Theorem network_flags (P : platform) (self : detector) (lspci_net : string) :
  subprocess_run P "lspci | grep -i 'network\|ethernet\|wireless\|wi-fi'" = Some lspci_net ->
  let lspci_lower := PyStr.lower lspci_net in
  let raw := raw_data (detect_network P self).2 in
  (detect_network P self).1 = Ret tt /\
  raw !! "has_wifi" =
    Some (VBool (PyStr.contains "wireless" lspci_lower || PyStr.contains "wi-fi" lspci_lower
                 || PyStr.contains "wifi" lspci_lower
                 || PyStr.contains "network controller" lspci_lower)) /\
  raw !! "has_ethernet" =
    (if PyStr.contains "ethernet" lspci_lower then Some (VBool true)
     else raw_data self !! "has_ethernet") /\
  raw !! "has_bluetooth" =
    (if PyStr.contains "hci0" (run_command P "hciconfig") then Some (VBool true)
     else raw_data self !! "has_bluetooth").
Proof.
  intros Hrun. cbv zeta.
  unfold detect_network, shell. rewrite Hrun. cbv zeta.
  unfold bind, or_raise, ret, try_except, when, set_raw, modify.
  destruct (PyStr.contains "wireless" (PyStr.lower lspci_net)
            || PyStr.contains "wi-fi" (PyStr.lower lspci_net)
            || PyStr.contains "wifi" (PyStr.lower lspci_net)
            || PyStr.contains "network controller" (PyStr.lower lspci_net));
    destruct (PyStr.contains "IEEE 802.11" (run_command P "iwconfig"));
    destruct (PyStr.contains "ethernet" (PyStr.lower lspci_net));
    destruct (PyStr.contains "hci0" (run_command P "hciconfig"));
    cbn [fst snd raw_data ret];
    (split; [reflexivity|]); repeat split; lookup_inserted; reflexivity.
Qed.

Lemma network_flags_witness :
  let raw := raw_data (detect_network bare_platform new_detector).2 in
  (detect_network bare_platform new_detector).1 = Ret tt /\
  raw !! "has_wifi" = Some (VBool false) /\
  raw !! "has_ethernet" = None /\
  raw !! "has_bluetooth" = None.
Proof.
  apply (network_flags bare_platform new_detector ""). reflexivity.
Defined.

(** X11: the charge read from [/sys/class/power_supply] has the last word
    on the battery capacity.  When the [uevent] file can be read and holds
    [POWER_SUPPLY_CHARGE_FULL=n] with a number [n] whose quotient by 1000
    is a float, [round] of that float returns and is the capacity recorded,
    whatever [upower] had given. *)
Theorem battery_charge_overrides (P : platform) (self : detector) (battery_info : string)
    (g : list string) (uah : Z) (quotient : PyFloat.binary64) :
  subprocess_run P "cat /sys/class/power_supply/BAT*/uevent" = Some battery_info ->
  re_search P "POWER_SUPPLY_CHARGE_FULL=(\d+)" battery_info = Some g ->
  PyNum.int (group 1 g) = Some uah ->
  PyNum.true_divide uah 1000 = Ret quotient ->
  exists mah,
    PyNum.round quotient = Ret mah /\
    raw_data (detect_battery P self).2 !! "battery_capacity_mah" = Some (VInt mah).
Proof.
  intros Hfile Hmatch Hint Hq.
  assert (Hround : exists mah, PyNum.round quotient = Ret mah).
  { unfold PyNum.true_divide in Hq. destruct (1000 =? 0)%Z; [discriminate|].
    destruct (PyFloat.round64 _) as [q| |]; try discriminate.
    injection Hq as <-. eexists. reflexivity. }
  destruct Hround as [mah Hmah]. exists mah. split; [exact Hmah|].
  unfold detect_battery. cbv zeta.
  match goal with |- context [bind ?m ?k self] =>
    destruct (bind_succeeds m k self) as (a1 & s1 & _ & ->); [succeeds_auto|]
  end.
  match goal with |- context [bind ?m ?k s1] =>
    destruct (bind_succeeds m k s1) as (a2 & s2 & _ & ->); [succeeds_auto|]
  end.
  unfold try_except, bind, shell. rewrite Hfile. cbn [or_raise ret].
  unfold set_raw at 1, modify at 1. rewrite Hmatch. cbn [when_some].
  unfold py_int. rewrite Hint. cbn [or_raise ret].
  rewrite Hq. cbn [lift_res]. unfold py_round. rewrite Hmah. cbn [lift_res].
  unfold set_raw, modify. cbn [snd raw_data]. apply lookup_insert_eq.
Qed.

Lemma battery_charge_overrides_witness :
  raw_data (detect_battery sysfs_battery_platform new_detector).2 !! "battery_capacity_mah"
  = Some (VInt 4200).
Proof.
  destruct (battery_charge_overrides sysfs_battery_platform new_detector
              "POWER_SUPPLY_CHARGE_FULL=4200000" ["4200000"] 4200000 (PyFloat.Finite 4200))
    as (mah & Hmah & Hraw).
  - vm_compute; reflexivity.
  - vm_compute; reflexivity.
  - vm_compute; reflexivity.
  - vm_compute; reflexivity.
  - injection Hmah as <-. exact Hraw.
Defined.

(** The quotient is a float before it is rounded: a charge of
    2251799813685248501 gives 2251799813685248, where the exact quotient
    would round to ...249. *)
Lemma charge_rounded_through_float :
  res_bind (PyNum.true_divide 2251799813685248501 1000) PyNum.round
    = Ret 2251799813685248%Z /\
  PyFloat.round_half_even (2251799813685248501 # 1000) = 2251799813685249%Z.
Proof. split; vm_compute; reflexivity. Qed.

(** ** Further properties: the mapper and the prompt *)

Lemma append_not_empty (a : string) (c : ascii) (r b : string) :
  String.eqb (a ++ (String c r ++ b)) "" = false.
Proof. destruct a; reflexivity. Qed.

Lemma fields_from_table (P : platform) (raw : gmap string value) (attr : string) (v : value) :
  bestbuy_fields P raw !! attr = Some v ->
  exists src, In (attr, src) field_table /\ v = field_value P raw src.
Proof.
  unfold bestbuy_fields, drop_empty. intros H.
  apply map_lookup_filter_Some in H as [H _].
  unfold bestbuy_literal in H. apply elem_of_list_to_map_2 in H.
  apply list_elem_of_In in H. apply in_map_iff in H as ([k src] & Heq & Hin).
  inversion Heq; subst. exists src. auto.
Qed.

(** X12: three attributes are in the mapped set whatever was detected:
    the category, the SKU (prefixed by "SKU-", "SKU-UNKNOWN" style when no
    SKU was read) and the RAM line, whose fixed text " GB " keeps it from
    being empty even on an empty bag.  The set holds no attribute outside
    the field table. *)
Theorem fixed_attributes_never_pruned (P : platform) (raw : gmap string value) :
  let mapped := bestbuy_fields P raw in
  mapped !! "BBYCat" = Some (VStr "Computers/Laptops") /\
  mapped !! "shop_sku"
    = Some (VStr ("SKU-" ++ py_str P (dict_get_or raw "sku" (VStr "UNKNOWN")))) /\
  mapped !! "_RAMType_24674_CAT_1002_EN"
    = Some (VStr (py_str P (dict_get_or raw "ram_size_gb" (VStr "")) ++ " GB "
                  ++ py_str P (dict_get_or raw "ram_type" (VStr "")) ++ " "
                  ++ py_str P (dict_get_or raw "ram_speed" (VStr "")))) /\
  (forall attr v, mapped !! attr = Some v -> In attr (map fst field_table)).
Proof.
  cbv zeta. split; [| split; [| split]].
  - rewrite (fields_lookup P raw _ (Fixed "Computers/Laptops")); [reflexivity|].
    unfold field_table. repeat (first [left; reflexivity | right]).
  - rewrite (fields_lookup P raw _ Sku); [reflexivity|].
    unfold field_table. repeat (first [left; reflexivity | right]).
  - rewrite (fields_lookup P raw _ RamLine).
    + cbn [field_value truthy]. rewrite append_not_empty. reflexivity.
    + unfold field_table. repeat (first [left; reflexivity | right]).
  - intros attr v H. apply fields_from_table in H as (src & Hin & _).
    apply (in_map fst) in Hin. exact Hin.
Qed.

Lemma screen_size_in_table :
  In ("_ScreenSize_3914_CAT_1002_EN", Raw "screen_size_inches") field_table.
Proof. unfold field_table. repeat (first [left; reflexivity | right]). Qed.

Lemma eq_zero_falsy (v : value) : eq_zero v = true -> truthy v = false.
Proof.
  destruct v as [|b|z|q|s|l|l]; cbn [eq_zero truthy]; try discriminate.
  - destruct b; [discriminate | reflexivity].
  - intros ->. reflexivity.
  - intros ->. reflexivity.
Qed.

Lemma raw_get_eq (k : string) (self : detector) :
  raw_get k self = (Ret (dict_get (raw_data self) k), self).
Proof. reflexivity. Qed.

(** X13: the screen size typed by the operator never reaches the
    attribute set.  [main] maps before it prompts, so when no usable size
    was detected ([not v or v == 0]) the answer, or 14.0 when it is no
    number, is stored in the raw bag, which the uploader reads, while
    [_ScreenSize_3914_CAT_1002_EN] stays absent from the attributes; when
    the input has ended the bag keeps what it had. *)
Theorem typed_screen_size_not_mapped (P : platform) (a : answers) (self : detector) :
  let screen := dict_get (raw_data self) "screen_size_inches" in
  negb (truthy screen) || eq_zero screen = true ->
  let after := ((map_to_bestbuy_fields P ;;; prompt_manual_fields a) self).2 in
  raw_data after !! "screen_size_inches"
    = match screen_size_answer a with
      | Some typed =>
          Some (VFloat (default (PyFloat.round64 14.0) (PyNum.float (PyStr.strip typed))))
      | None => raw_data self !! "screen_size_inches"
      end /\
  bestbuy_data after !! "_ScreenSize_3914_CAT_1002_EN" = None.
Proof.
  cbv zeta. intros Hscreen.
  assert (Hfalsy : truthy (dict_get (raw_data self) "screen_size_inches") = false).
  { apply orb_true_iff in Hscreen as [H|H].
    - apply negb_true_iff in H. exact H.
    - apply eq_zero_falsy. exact H. }
  rewrite (bind_ret_eq (map_to_bestbuy_fields P) _ self tt
             (map_to_bestbuy_fields P self).2 eq_refl).
  set (mapped := (map_to_bestbuy_fields P self).2).
  assert (Hraw : raw_data mapped = raw_data self) by reflexivity.
  assert (Hattr : bestbuy_data mapped !! "_ScreenSize_3914_CAT_1002_EN" = None).
  { unfold mapped. rewrite mapped_data.
    rewrite (fields_lookup P _ _ _ screen_size_in_table).
    cbn [field_value]. unfold dict_get, dict_get_or in Hfalsy.
    destruct (raw_data self !! "screen_size_inches") as [v|] eqn:E;
      unfold dict_get_or; rewrite E; cbn [default] in *; [|reflexivity].
    rewrite Hfalsy. reflexivity. }
  clearbody mapped. split.
  - unfold prompt_manual_fields.
    rewrite (bind_ret_eq _ _ _ _ _ (raw_get_eq _ _)). rewrite Hraw, Hscreen. unfold when.
    destruct (screen_size_answer a) as [typed|].
    + match goal with |- raw_data (bind ?m ?k mapped).2 !! _ = _ =>
        assert (Hbody : m mapped =
                  (Ret tt,
                   (set_raw "screen_size_inches"
                      (VFloat (default (PyFloat.round64 14.0)
                                 (PyNum.float (PyStr.strip typed)))) mapped).2))
      end.
      { cbv [input or_raise bind ret try_except py_float].
        destruct (PyNum.float (PyStr.strip typed)); reflexivity. }
      rewrite (bind_ret_eq _ _ _ _ _ Hbody).
      match goal with |- raw_data (?rest ?s).2 !! _ = _ =>
        assert (Hk : stable (fun self => raw_data self !! "screen_size_inches") rest)
          by stable_auto;
        rewrite Hk
      end.
      cbn [set_raw modify snd raw_data]. apply lookup_insert_eq.
    + unfold bind at 1. unfold bind at 1. cbn [input or_raise raise snd].
      rewrite Hraw. reflexivity.
  - assert (Hk : stable (fun self => bestbuy_data self !! "_ScreenSize_3914_CAT_1002_EN")
                   (prompt_manual_fields a)).
    { unfold prompt_manual_fields. stable_auto. }
    rewrite Hk. exact Hattr.
Qed.

Lemma typed_screen_size_not_mapped_witness :
  let after :=
    ((map_to_bestbuy_fields bare_platform ;;; prompt_manual_fields quiet_answers)
       new_detector).2 in
  raw_data after !! "screen_size_inches" = Some (VFloat (PyFloat.Finite 14)) /\
  bestbuy_data after !! "_ScreenSize_3914_CAT_1002_EN" = None.
Proof.
  apply (typed_screen_size_not_mapped bare_platform quiet_answers new_detector).
  reflexivity.
Defined.

(** The size is whatever [float] accepts: "nan" is stored as the float
    NaN. *)
Lemma nan_typed_as_screen_size :
  PyNum.float (PyStr.strip " nan ") = Some PyFloat.NaN.
Proof. vm_compute. reflexivity. Qed.

Section RaisesOnly.
Context {S : Type} (E : exn -> Prop).





End RaisesOnly.









(** ** Further properties: the requests of an upload *)

Section UploadSteps.
Context (supabase : client).

Lemma lift_res_inv {S A} (r : res A) (a : A) (s s' : S) :
  lift_res r s = (Ret a, s') -> r = Ret a /\ s' = s.
Proof.
  unfold lift_res. destruct r as [e|a0]; [discriminate|].
  intros H. injection H as <- <-. auto.
Qed.

Lemma execute_inv (rq : request) (w w' : remote) (data : list row) :
  execute supabase rq w = (Ret data, w') ->
  fault supabase (length (requests w)) = None /\
  data = (apply_request supabase rq w).2 /\
  w' = succeeded supabase w rq.
Proof.
  unfold execute, succeeded.
  destruct (fault supabase (length (requests w))); [discriminate|].
  destruct (apply_request supabase rq w) as [t d]. intros H. inversion H; subst. auto.
Qed.

Lemma execute_ok (rq : request) (w : remote) :
  fault supabase (length (requests w)) = None ->
  execute supabase rq w = (Ret (apply_request supabase rq w).2, succeeded supabase w rq).
Proof.
  intros Hf. unfold execute, succeeded. rewrite Hf.
  destruct (apply_request supabase rq w) as [t d]. reflexivity.
Qed.

Lemma rows_of_insert (t t' : string) (rows : list row) (w : remote) (rqs : list request) :
  rows_of {| tables := <[t := rows]> (tables w); requests := rqs |} t' =
    if String.eqb t t' then rows else rows_of w t'.
Proof.
  unfold rows_of. cbn [tables]. destruct (String.eqb_spec t t') as [->|Hne].
  - rewrite lookup_insert_eq. reflexivity.
  - rewrite lookup_insert_ne by exact Hne. reflexivity.
Qed.

(** A request leaves the rows of the tables it does not address, and a
    query those of every table. *)
Lemma succeeded_other_table (rq : request) (w : remote) (t : string) :
  is_write rq = false \/ request_table rq <> t ->
  rows_of (succeeded supabase w rq) t = rows_of w t.
Proof.
  intros H. unfold succeeded.
  destruct rq as [table columns conditions | table r | table r on_conflict];
    cbn [apply_request fst is_write request_table] in *.
  - reflexivity.
  - destruct H as [H|H]; [discriminate|].
    rewrite rows_of_insert. apply String.eqb_neq in H. rewrite H. reflexivity.
  - destruct H as [H|H]; [discriminate|]. apply String.eqb_neq in H.
    destruct (merge_row on_conflict r (rows_of w table)); cbn [fst];
      rewrite rows_of_insert, H; reflexivity.
Qed.

Lemma succeeded_requests (rq : request) (w : remote) :
  requests (succeeded supabase w rq) = requests w ++ [rq].
Proof. reflexivity. Qed.

Lemma succeeded_insert (table : string) (r : row) (w : remote) :
  rows_of (succeeded supabase w (Insert table r)) table
  = rows_of w table ++ [stored_row supabase table (rows_of w table) r].
Proof.
  unfold succeeded. cbn [apply_request fst]. rewrite rows_of_insert, String.eqb_refl.
  reflexivity.
Qed.

(** Step 1, when it returns: either the model was found, by the lookup
    alone, or the lookup found nothing and the model was inserted. *)
Lemma find_or_create_model_inv (model_data : row) (w w1 : remote)
    (step1 : gmap string value + value) :
  find_or_create_model supabase model_data w = (Ret step1, w1) ->
  (exists model_id,
     step1 = inl (exists_result model_id) /\
     List.filter (matching (model_conditions model_data)) (rows_of w "laptop_models") <> [] /\
     w1 = succeeded supabase w (model_query model_data) /\
     tables w1 = tables w) \/
  (exists model_id,
     step1 = inr model_id /\
     List.filter (matching (model_conditions model_data)) (rows_of w "laptop_models") = [] /\
     w1 = succeeded supabase (succeeded supabase w (model_query model_data))
            (Insert "laptop_models" model_data)).
Proof.
  unfold find_or_create_model. rewrite try_reraise. intros Hrun.
  apply bind_inv in Hrun as (existing & w0 & Hquery & Hrun).
  apply execute_inv in Hquery as (_ & Hdata & ->).
  unfold model_query in Hdata at 1. cbn [apply_request snd] in Hdata.
  destruct (List.filter (matching (model_conditions model_data)) (rows_of w "laptop_models"))
    as [|found rest] eqn:Hfound; cbn [map] in Hdata; subst existing.
  - right.
    apply bind_inv in Hrun as (new_model & w2 & Hinsert & Hrun).
    apply execute_inv in Hinsert as (_ & _ & ->).
    apply bind_inv in Hrun as (created & w3 & Hfirst & Hrun).
    unfold first_row, or_raise in Hfirst.
    destruct (head new_model); [|discriminate].
    inversion Hfirst; subst.
    apply bind_inv in Hrun as (model_id & w4 & Hid & Hrun).
    apply lift_res_inv in Hid as [_ ->].
    inversion Hrun; subst. eexists. auto.
  - left.
    apply bind_inv in Hrun as (model_id & w4 & Hid & Hrun).
    apply lift_res_inv in Hid as [_ ->].
    inversion Hrun; subst. eexists. split; [reflexivity|].
    split; [discriminate|]. split; reflexivity.
Qed.

Lemma save_hardware_data_inv (hardware_data : row) (w w1 : remote) :
  save_hardware_data supabase hardware_data w = (Ret tt, w1) ->
  w1 = succeeded supabase w (Upsert "laptop_hardware_data" hardware_data "model_id").
Proof.
  unfold save_hardware_data. rewrite try_reraise. intros Hrun.
  apply bind_inv in Hrun as (data & w0 & Hexec & Hrun).
  apply execute_inv in Hexec as (_ & _ & ->). inversion Hrun; subst. reflexivity.
Qed.

Lemma find_or_create_variant_inv (model_id : value) (ram_gb : Z) (ssd_gb : value)
    (w w1 : remote) (variant : value * value) :
  find_or_create_variant supabase model_id ram_gb ssd_gb w = (Ret variant, w1) ->
  exists query,
    is_write query = false /\ request_table query = "laptop_variants" /\
    (w1 = succeeded supabase w query \/
     exists r, w1 = succeeded supabase (succeeded supabase w query)
                      (Insert "laptop_variants" r)).
Proof.
  unfold find_or_create_variant. cbv zeta. rewrite try_reraise. intros Hrun.
  apply bind_inv in Hrun as (existing & w0 & Hquery & Hrun).
  apply execute_inv in Hquery as (_ & _ & ->).
  exists (Select "laptop_variants" ["id"; "shop_sku"]
            [Eq "model_id" model_id; Eq "ram_size_gb" (VInt ram_gb);
             Eq "ssd_capacity_gb" ssd_gb]).
  split; [reflexivity|]. split; [reflexivity|]. destruct existing as [|found rest].
  - right.
    apply bind_inv in Hrun as (new_variant & w2 & Hinsert & Hrun).
    apply execute_inv in Hinsert as (_ & _ & ->).
    apply bind_inv in Hrun as (created & w3 & Hfirst & Hrun).
    unfold first_row, or_raise in Hfirst.
    destruct (head new_variant); [|discriminate].
    inversion Hfirst; subst.
    apply bind_inv in Hrun as (variant_id & w4 & Hid & Hrun).
    apply lift_res_inv in Hid as [_ ->].
    apply bind_inv in Hrun as (shop_sku & w5 & Hsku & Hrun).
    apply lift_res_inv in Hsku as [_ ->].
    inversion Hrun; subst. eexists. reflexivity.
  - left.
    apply bind_inv in Hrun as (variant_id & w4 & Hid & Hrun).
    apply lift_res_inv in Hid as [_ ->].
    apply bind_inv in Hrun as (shop_sku & w5 & Hsku & Hrun).
    apply lift_res_inv in Hsku as [_ ->].
    inversion Hrun; subst. reflexivity.
Qed.

Lemma create_inventory_inv (model_id : value) (w w1 : remote) :
  create_inventory supabase model_id w = (Ret tt, w1) ->
  exists r, w1 = succeeded supabase w (Upsert "laptops" r "model_id").
Proof.
  unfold create_inventory. cbv zeta. rewrite try_reraise. intros Hrun.
  apply bind_inv in Hrun as (data & w0 & Hexec & Hrun).
  apply execute_inv in Hexec as (_ & _ & ->). inversion Hrun; subst.
  eexists. reflexivity.
Qed.

(** The two booleans are never [None]: the dictionary sent in step 5 has
    more than one entry. *)
Lemma manual_fields_more_than_one (bestbuy_data : gmap string value) (variant_id : value) :
  (1 <? length (manual_fields_of bestbuy_data variant_id))%nat = true.
Proof.
  unfold manual_fields_of. cbn [List.filter snd is_none negb].
  repeat match goal with
         | |- context [if negb (is_none ?v) then _ else _] => destruct (negb (is_none v))
         end; reflexivity.
Qed.

Lemma save_manual_fields_inv (bestbuy_data : gmap string value) (variant_id : value)
    (w w1 : remote) :
  save_manual_fields supabase (manual_fields_of bestbuy_data variant_id) w = (Ret tt, w1) ->
  exists r, w1 = succeeded supabase w (Upsert "laptop_manual_fields" r "variant_id").
Proof.
  unfold save_manual_fields. rewrite try_reraise, manual_fields_more_than_one. intros Hrun.
  apply bind_inv in Hrun as (data & w0 & Hexec & Hrun).
  apply execute_inv in Hexec as (_ & _ & ->). inversion Hrun; subst.
  eexists. reflexivity.
Qed.

End UploadSteps.

Lemma ok_run_other_table (supabase : client) (rqs : list request) (w : remote) (t : string) :
  Forall (fun rq => request_table rq <> t) rqs ->
  rows_of (ok_run supabase rqs w) t = rows_of w t.
Proof.
  intros H. revert w. induction H as [|rq r Hrq _ IH]; intros w; [reflexivity|].
  cbn [ok_run fold_left].
  change (fold_left (succeeded supabase) r (succeeded supabase w rq))
    with (ok_run supabase r (succeeded supabase w rq)).
  rewrite IH. apply succeeded_other_table. right. exact Hrq.
Qed.

Lemma later_steps_other_table (rqs : list request) :
  later_steps rqs -> Forall (fun rq => request_table rq <> "laptop_models") rqs.
Proof.
  intros H. apply List.Forall_forall. intros rq Hin.
  apply (in_map (fun rq => (is_write rq, request_table rq))) in Hin.
  destruct H as [H|H]; rewrite H in Hin; cbn [In] in Hin;
    repeat (destruct Hin as [Hin|Hin]; [inversion Hin; discriminate|]); destruct Hin.
Qed.

(** What a run of [upload_to_database] that returns has done. *)
Lemma upload_inv (P : platform) (supabase : client) (raw_data bestbuy_data : gmap string value)
    (w w1 : remote) (result : gmap string value) :
  upload_to_database P supabase raw_data bestbuy_data w = (Ret result, w1) ->
  exists integrated_gpu dedicated_gpu,
    extract_integrated_gpu P raw_data = Ret integrated_gpu /\
    extract_dedicated_gpu P raw_data = Ret dedicated_gpu /\
    let model_data :=
      model_data_of raw_data
        (eq_str (dict_get bestbuy_data "_TouchscreenDisplay_23335_CAT_1002_EN") "Yes")
        integrated_gpu dedicated_gpu in
    ((exists model_id,
        result = exists_result model_id /\
        List.filter (matching (model_conditions model_data)) (rows_of w "laptop_models")
          <> [] /\
        w1 = succeeded supabase w (model_query model_data) /\
        tables w1 = tables w) \/
     (exists model_id variant_id shop_sku rqs,
        result = created_result model_id variant_id shop_sku /\
        List.filter (matching (model_conditions model_data)) (rows_of w "laptop_models") = [] /\
        later_steps rqs /\
        w1 = ok_run supabase rqs
               (succeeded supabase (succeeded supabase w (model_query model_data))
                  (Insert "laptop_models" model_data)))).
Proof.
  unfold upload_to_database, has_dedicated_gpu. intros Hrun.
  destruct (extract_integrated_gpu P raw_data) as [e|integrated_gpu]; [discriminate|].
  destruct (extract_dedicated_gpu P raw_data) as [e|dedicated_gpu]; [discriminate|].
  rewrite !bind_lift_ret in Hrun. cbv zeta in Hrun.
  exists integrated_gpu, dedicated_gpu. split; [reflexivity|]. split; [reflexivity|].
  cbv zeta.
  set (model_data := model_data_of _ _ _ _) in *.
  apply bind_inv in Hrun as (step1 & w2 & Hstep1 & Hrun).
  apply find_or_create_model_inv in Hstep1
    as [(model_id & -> & Hfound & -> & Htables) | (model_id & -> & Hnone & ->)].
  - left. inversion Hrun; subst. exists model_id. auto.
  - right.
    apply bind_inv in Hrun as ([] & w3 & Hhardware & Hrun).
    apply save_hardware_data_inv in Hhardware. subst w3.
    apply bind_inv in Hrun as (ram_gb & w4 & Hram & Hrun).
    unfold lift_res in Hram.
    destruct (value_int (dict_get_or raw_data "ram_size_gb" (VInt 0))) as [e|n];
      [discriminate|].
    inversion Hram; subst n w4. clear Hram.
    apply bind_inv in Hrun as ([variant_id shop_sku] & w5 & Hvariant & Hrun).
    apply find_or_create_variant_inv in Hvariant as (query & Hread & Htable & Hw5).
    apply bind_inv in Hrun as ([] & w6 & Hinventory & Hrun).
    apply create_inventory_inv in Hinventory as (inventory & ->).
    apply bind_inv in Hrun as ([] & w7 & Hmanual & Hrun).
    apply save_manual_fields_inv in Hmanual as (manual & ->).
    inversion Hrun; subst.
    exists model_id, variant_id, shop_sku.
    destruct Hw5 as [-> | (variant & ->)].
    + eexists [_; query; _; _]. split; [reflexivity|]. split; [exact Hnone|].
      split; [|reflexivity].
      left. cbn [map is_write request_table]. rewrite Hread, Htable. reflexivity.
    + eexists [_; query; _; _; _]. split; [reflexivity|]. split; [exact Hnone|].
      split; [|reflexivity].
      right. cbn [map is_write request_table]. rewrite Hread, Htable. reflexivity.
Qed.

(** X15: the requests of an upload that returns.  Either the status is
    "exists", the lookup in [laptop_models] was the only request and no
    table changed; or it is "created", the lookup had found nothing, one row
    was added to [laptop_models], and the writes to the hardware, the
    inventory and the manual-fields tables were all sent, in this order
    around the variant lookup and its optional insert.  The test on the
    number of manual fields never skips the last write. *)
Theorem upload_request_trace (P : platform) (supabase : client)
    (raw_data bestbuy_data : gmap string value) (w : remote) (result : gmap string value) :
  let run := upload_to_database P supabase raw_data bestbuy_data w in
  run.1 = Ret result ->
  exists sent,
    requests run.2 = requests w ++ sent /\
    ((result !! "status" = Some (VStr "exists") /\
      map (fun rq => (is_write rq, request_table rq)) sent = [(false, "laptop_models")] /\
      tables run.2 = tables w) \/
     (result !! "status" = Some (VStr "created") /\
      (exists rqs,
         map (fun rq => (is_write rq, request_table rq)) sent
           = (false, "laptop_models") :: (true, "laptop_models")
             :: map (fun rq => (is_write rq, request_table rq)) rqs /\
         later_steps rqs) /\
      length (rows_of run.2 "laptop_models") = S (length (rows_of w "laptop_models")))).
Proof.
  cbv zeta. intros Hret. apply pair_of_fst in Hret.
  set (w1 := (upload_to_database P supabase raw_data bestbuy_data w).2) in *. clearbody w1.
  apply upload_inv in Hret as (integrated_gpu & dedicated_gpu & _ & _ & Hrun).
  cbv zeta in Hrun.
  destruct Hrun as [(model_id & -> & _ & -> & Htables)
                   | (model_id & variant_id & shop_sku & rqs & -> & _ & Hsteps & ->)].
  - eexists [_]. split; [reflexivity|]. left.
    split; [reflexivity|]. split; [reflexivity | exact Htables].
  - exists (model_query
              (model_data_of raw_data
                 (eq_str (dict_get bestbuy_data "_TouchscreenDisplay_23335_CAT_1002_EN") "Yes")
                 integrated_gpu dedicated_gpu)
            :: Insert "laptop_models"
                 (model_data_of raw_data
                    (eq_str (dict_get bestbuy_data "_TouchscreenDisplay_23335_CAT_1002_EN")
                       "Yes")
                    integrated_gpu dedicated_gpu)
            :: rqs).
    split.
    + rewrite ok_run_requests. rewrite !succeeded_requests, <- !app_assoc. reflexivity.
    + right. split; [reflexivity|]. split.
      * exists rqs. split; [reflexivity | exact Hsteps].
      * rewrite (ok_run_other_table supabase rqs _ "laptop_models")
          by (apply later_steps_other_table; exact Hsteps).
        rewrite succeeded_insert, length_app. cbn [length].
        rewrite succeeded_other_table by (left; reflexivity). lia.
Qed.

Lemma upload_request_trace_witness :
  let run := upload_to_database bare_platform plain_client latitude prompted empty_remote in
  exists sent,
    requests run.2 = requests empty_remote ++ sent /\
    ((created_result (VInt 1) (VInt 1) (VStr "SKU-1") !! "status" = Some (VStr "exists") /\
      map (fun rq => (is_write rq, request_table rq)) sent = [(false, "laptop_models")] /\
      tables run.2 = tables empty_remote) \/
     (created_result (VInt 1) (VInt 1) (VStr "SKU-1") !! "status" = Some (VStr "created") /\
      (exists rqs,
         map (fun rq => (is_write rq, request_table rq)) sent
           = (false, "laptop_models") :: (true, "laptop_models")
             :: map (fun rq => (is_write rq, request_table rq)) rqs /\
         later_steps rqs) /\
      length (rows_of run.2 "laptop_models")
      = S (length (rows_of empty_remote "laptop_models")))).
Proof.
  apply (upload_request_trace bare_platform plain_client latitude prompted empty_remote
           (created_result (VInt 1) (VInt 1) (VStr "SKU-1"))).
  vm_compute. reflexivity.
Defined.

Lemma row_get_union (r g : row) (column : string) :
  is_Some (r !! column) -> row_get (r ∪ g) column = row_get r column.
Proof.
  intros [c Hc]. unfold row_get. rewrite (lookup_union_Some_l r g column c Hc), Hc.
  reflexivity.
Qed.

Lemma model_data_columns (raw_data : gmap string value) (has_touchscreen : bool)
    (integrated_gpu dedicated_gpu : value) (column : string) :
  In column ["base_model_name"; "cpu_model"; "screen_size_inches"; "has_touchscreen";
             "integrated_gpu_model"; "dedicated_gpu_model"] ->
  is_Some (model_data_of raw_data has_touchscreen integrated_gpu dedicated_gpu !! column).
Proof.
  intros Hin. unfold model_data_of, list_to_map. cbn [foldr fst snd].
  cbn [In] in Hin.
  repeat (destruct Hin as [<- | Hin]; [lookup_inserted; eauto|]). destruct Hin.
Qed.

(** The row stored for a new model satisfies the conditions of the lookup
    exactly when the values sent do: the columns the server adds are not
    compared. *)
Lemma stored_model_matches (supabase : client) (rows : list row)
    (raw_data : gmap string value) (has_touchscreen : bool)
    (integrated_gpu dedicated_gpu : value) :
  let model_data := model_data_of raw_data has_touchscreen integrated_gpu dedicated_gpu in
  matching (model_conditions model_data) (stored_row supabase "laptop_models" rows model_data)
  = matching (model_conditions model_data) model_data.
Proof.
  cbv zeta. set (model_data := model_data_of _ _ _ _).
  assert (Hget : forall column,
             In column ["base_model_name"; "cpu_model"; "screen_size_inches";
                        "has_touchscreen"; "integrated_gpu_model"; "dedicated_gpu_model"] ->
             row_get (stored_row supabase "laptop_models" rows model_data) column
             = row_get model_data column).
  { intros column Hin. apply row_get_union. apply model_data_columns. exact Hin. }
  unfold matching, model_conditions, nullable.
  cbn [forallb].
  repeat match goal with
         | |- context [if ?b then _ else _] => destruct b
         end;
    cbn [holds]; rewrite !Hget by (cbn [In]; tauto); reflexivity.
Qed.

Lemma existsb_last {A} (f : A -> bool) (l : list A) (x : A) :
  f x = true -> existsb f (l ++ [x]) = true.
Proof. intros H. rewrite existsb_app. cbn [existsb]. rewrite H, orb_true_r. reflexivity. Qed.

Lemma filter_not_nil_existsb {A} (f : A -> bool) (l : list A) :
  List.filter f l <> [] -> existsb f l = true.
Proof.
  induction l as [|x r IH]; cbn [List.filter existsb]; [congruence|].
  destruct (f x); [reflexivity|]. exact IH.
Qed.

(** X16: uploading the same machine again.  When the values of the model
    key satisfy their own lookup conditions (none of the three compared
    columns is null) and the first upload returns, a second upload whose
    lookup request does not fail returns "exists": the lookup is its only
    request and no table changes. *)
Theorem second_upload_finds_model (P : platform) (supabase : client)
    (raw_data bestbuy_data : gmap string value) (w : remote) (result : gmap string value)
    (integrated_gpu dedicated_gpu : value) :
  extract_integrated_gpu P raw_data = Ret integrated_gpu ->
  extract_dedicated_gpu P raw_data = Ret dedicated_gpu ->
  let model_data :=
    model_data_of raw_data
      (eq_str (dict_get bestbuy_data "_TouchscreenDisplay_23335_CAT_1002_EN") "Yes")
      integrated_gpu dedicated_gpu in
  matching (model_conditions model_data) model_data = true ->
  let first := upload_to_database P supabase raw_data bestbuy_data w in
  first.1 = Ret result ->
  fault supabase (length (requests first.2)) = None ->
  let second := upload_to_database P supabase raw_data bestbuy_data first.2 in
  outcome_status second = Some (VStr "exists") /\
  tables second.2 = tables first.2 /\
  requests second.2 = requests first.2 ++ [model_query model_data].
Proof.
  intros Hint Hded. cbv zeta. intros Hself Hret Hfault. apply pair_of_fst in Hret.
  set (w1 := (upload_to_database P supabase raw_data bestbuy_data w).2) in *. clearbody w1.
  set (model_data := model_data_of _ _ _ _) in *.
  assert (Hmatch : existsb (matching (model_conditions model_data)) (rows_of w1 "laptop_models")
                   = true).
  { apply upload_inv in Hret as (integrated_gpu' & dedicated_gpu' & Hint' & Hded' & Hrun).
    rewrite Hint in Hint'. rewrite Hded in Hded'.
    inversion Hint'; subst integrated_gpu'. inversion Hded'; subst dedicated_gpu'.
    cbv zeta in Hrun. fold model_data in Hrun.
    destruct Hrun as [(model_id & _ & Hfound & -> & _)
                     | (model_id & variant_id & shop_sku & rqs & _ & _ & Hsteps & ->)].
    - rewrite succeeded_other_table by (left; reflexivity).
      apply filter_not_nil_existsb. exact Hfound.
    - rewrite (ok_run_other_table supabase rqs _ "laptop_models")
        by (apply later_steps_other_table; exact Hsteps).
      rewrite succeeded_insert. apply existsb_last.
      unfold model_data. rewrite stored_model_matches. exact Hself. }
  destruct (find_model_found supabase model_data w1 Hfault Hmatch) as (model_id & Hfind).
  assert (Hrun : upload_to_database P supabase raw_data bestbuy_data w1 =
                 (Ret (exists_result model_id),
                  {| tables := tables w1;
                     requests := requests w1 ++ [model_query model_data] |})).
  { unfold upload_to_database, has_dedicated_gpu. rewrite Hint, Hded.
    rewrite !bind_lift_ret. cbv zeta. fold model_data.
    rewrite (bind_ret_eq _ _ _ _ _ Hfind). reflexivity. }
  unfold outcome_status. rewrite Hrun. cbn [fst snd tables requests].
  split; [reflexivity|]. split; reflexivity.
Qed.

Lemma second_upload_finds_model_witness :
  let first := upload_to_database bare_platform plain_client latitude prompted empty_remote in
  let second := upload_to_database bare_platform plain_client latitude prompted first.2 in
  outcome_status second = Some (VStr "exists") /\
  tables second.2 = tables first.2 /\
  requests second.2
  = requests first.2 ++ [model_query (model_data_of latitude false VNone VNone)].
Proof.
  apply (second_upload_finds_model bare_platform plain_client latitude prompted empty_remote
           (created_result (VInt 1) (VInt 1) (VStr "SKU-1")) VNone VNone).
  - vm_compute. reflexivity.
  - vm_compute. reflexivity.
  - vm_compute. reflexivity.
  - vm_compute. reflexivity.
  - reflexivity.
Defined.
(** ** Further properties: from the detector to the uploader *)

Section Preserves.
Context {S : Type} (Q : S -> Prop).

Lemma preserves_pure {A} (m : M S A) : (forall s, (m s).2 = s) -> preserves Q m.
Proof. intros Hm s Hs. rewrite Hm. exact Hs. Qed.

Lemma preserves_ret {A} (a : A) : preserves Q (ret a).
Proof. apply preserves_pure. reflexivity. Qed.

Lemma preserves_raise {A} (e : exn) : preserves Q (raise (A := A) e).
Proof. apply preserves_pure. reflexivity. Qed.

Lemma preserves_get_state : preserves Q get_state.
Proof. apply preserves_pure. reflexivity. Qed.

Lemma preserves_lift_res {A} (r : res A) : preserves Q (lift_res r).
Proof. apply preserves_pure. reflexivity. Qed.

Lemma preserves_or_raise {A} (e : exn) (o : option A) : preserves Q (or_raise e o).
Proof. apply preserves_pure. destruct o; reflexivity. Qed.

Lemma preserves_try_except {A} (m : M S A) (h : exn -> M S A) :
  preserves Q m -> (forall e, preserves Q (h e)) -> preserves Q (try_except m h).
Proof.
  intros Hm Hh s Hs. unfold try_except. specialize (Hm s Hs).
  destruct (m s) as [[e|a] s1]; cbn [snd] in *; [apply Hh|]; exact Hm.
Qed.

Lemma preserves_when (b : bool) (m : M S unit) : preserves Q m -> preserves Q (when b m).
Proof. destruct b; [trivial | intros _; apply preserves_ret]. Qed.

Lemma preserves_when_some {A} (o : option A) (body : A -> M S unit) :
  (forall a, preserves Q (body a)) -> preserves Q (when_some o body).
Proof. destruct o; cbn [when_some]; [auto | intros _; apply preserves_ret]. Qed.

Lemma preserves_for_each {A} (l : list A) (body : A -> M S unit) :
  (forall a, preserves Q (body a)) -> preserves Q (for_each l body).
Proof.
  intros Hb. induction l as [|x r IH]; cbn [for_each]; [apply preserves_ret|].
  apply preserves_bind; [apply Hb | intros _; exact IH].
Qed.

Lemma preserves_for_break {A} (l : list A) (body : A -> M S bool) :
  (forall a, preserves Q (body a)) -> preserves Q (for_break l body).
Proof.
  intros Hb. induction l as [|x r IH]; cbn [for_break]; [apply preserves_ret|].
  apply preserves_bind; [apply Hb | intros [|]; [apply preserves_ret | exact IH]].
Qed.

End Preserves.

Lemma preserves_uploadable_set_raw (k : string) (v : value) :
  (k = "gpus" -> exists gpu_lines, v = VStrs gpu_lines) ->
  (k = "ram_size_gb" -> exists n, v = VInt n) ->
  preserves (fun self => uploadable (raw_data self)) (set_raw k v).
Proof.
  intros Hgpus Hram self [Hg Hr]. unfold set_raw, modify, uploadable.
  cbn [snd raw_data]. split.
  - destruct (String.eqb_spec k "gpus") as [->|Hne].
    + destruct (Hgpus eq_refl) as [l ->]. right. exists l. apply lookup_insert_eq.
    + rewrite lookup_insert_ne by exact Hne. exact Hg.
  - destruct (String.eqb_spec k "ram_size_gb") as [->|Hne].
    + destruct (Hram eq_refl) as [n ->]. right. exists n. apply lookup_insert_eq.
    + rewrite lookup_insert_ne by exact Hne. exact Hr.
Qed.

Lemma preserves_uploadable_set_bestbuy (k : string) (v : value) :
  preserves (fun self => uploadable (raw_data self)) (set_bestbuy k v).
Proof. intros self H. exact H. Qed.

Ltac preserves_step :=
  lazymatch goal with
  | |- preserves _ (bind _ _) => apply preserves_bind; [| intros ?]
  | |- preserves _ (try_except _ _) => apply preserves_try_except; [| intros ?]
  | |- preserves _ (ret _) => apply preserves_ret
  | |- preserves _ (raise _) => apply preserves_raise
  | |- preserves _ get_state => apply preserves_get_state
  | |- preserves _ (lift_res _) => apply preserves_lift_res
  | |- preserves _ (or_raise _ _) => apply preserves_or_raise
  | |- preserves _ (set_bestbuy _ _) => apply preserves_uploadable_set_bestbuy
  | |- preserves _ (set_raw _ _) =>
      apply preserves_uploadable_set_raw;
        [ first [discriminate | intros _; eexists; reflexivity]
        | first [discriminate | intros _; eexists; reflexivity] ]
  | |- preserves _ (when _ _) => apply preserves_when
  | |- preserves _ (when_some _ _) => apply preserves_when_some; intros ?
  | |- preserves _ (for_each _ _) => apply preserves_for_each; intros ?
  | |- preserves _ (for_break _ _) => apply preserves_for_break; intros ?
  | |- preserves _ (match ?x with _ => _ end) => destruct x
  | |- preserves _ (let _ := _ in _) => cbv zeta
  | |- preserves _ _ =>
      first [ progress autounfold with statements | progress unfold raw_get ]
  end.

Ltac preserves_auto := repeat preserves_step.

Lemma detect_all_uploadable (P : platform) :
  preserves (fun self => uploadable (raw_data self)) (detect_all P).
Proof.
  unfold detect_all.
  apply preserves_bind; [unfold detect_system_info; preserves_auto | intros _].
  apply preserves_bind; [unfold detect_processor; preserves_auto | intros _].
  apply preserves_bind; [unfold detect_memory, store_ram_size; preserves_auto | intros _].
  apply preserves_bind; [unfold detect_display, decode_edid; preserves_auto | intros _].
  apply preserves_bind;
    [unfold detect_graphics, classify_gpus, store_gpu_model; preserves_auto | intros _].
  apply preserves_bind; [unfold detect_storage, internal_storage; preserves_auto | intros _].
  apply preserves_bind; [unfold detect_battery; preserves_auto | intros _].
  apply preserves_bind; [unfold detect_network; preserves_auto | intros _].
  apply preserves_bind; [unfold detect_usb_ports; preserves_auto | intros _].
  unfold detect_webcam. preserves_auto.
Qed.

Lemma detect_and_prompt_uploadable (P : platform) (a : answers) :
  preserves (fun self => uploadable (raw_data self)) (detect_and_prompt P a).
Proof.
  unfold detect_and_prompt.
  apply preserves_bind; [apply detect_all_uploadable | intros _].
  apply preserves_bind; [intros self H; exact H | intros _].
  unfold prompt_manual_fields. preserves_auto.
Qed.

Lemma parse_gpus_returns (body : string -> option string) (raw : gmap string value) :
  uploadable raw -> exists v, parse_gpus body raw = Ret v.
Proof.
  intros [[Hg | [l Hg]] _]; unfold parse_gpus; rewrite Hg; [eauto|].
  destruct (truthy (VStrs l)); cbn [gpu_lines_of]; eauto.
Qed.

Section NoFault.
Context (supabase : client).

Lemma execute_succeeds (rq : request) :
  (forall i, fault supabase i = None) -> succeeds (execute supabase rq).
Proof. intros Hfault w. rewrite (execute_ok supabase rq w (Hfault _)). eauto. Qed.

Lemma succeeds_try_reraise {A} (m : M remote A) :
  succeeds m -> succeeds (try_except m (fun e => raise e)).
Proof. intros Hm w. rewrite try_reraise. apply Hm. Qed.

(** The response to an insert holds the row stored: [data[0]] is there. *)
Lemma insert_then_first_row {A} (table : string) (r : row) (k : row -> M remote A) :
  (forall i, fault supabase i = None) ->
  (forall rows, succeeds (k (stored_row supabase table rows r))) ->
  succeeds (new <- execute supabase (Insert table r) ;; created <- first_row new ;; k created).
Proof.
  intros Hfault Hk w. unfold bind at 1. rewrite (execute_ok supabase _ w (Hfault _)).
  cbn [apply_request snd]. unfold bind, first_row. cbn [head or_raise ret]. apply Hk.
Qed.

(** The rows of a query hold the columns selected. *)
Lemma row_item_project (columns : list string) (r : row) (column : string) :
  In column columns -> exists v, row_item (project columns r) column = Ret v.
Proof.
  intros Hin. unfold row_item.
  assert (Hsome : is_Some (project columns r !! column)).
  { unfold project. induction columns as [|c l IH]; [destruct Hin|].
    cbn [map]. rewrite list_to_map_cons. apply lookup_insert_is_Some.
    destruct (String.eqb_spec c column) as [->|Hne]; [left; reflexivity|].
    right. split; [exact Hne|]. apply IH.
    destruct Hin as [Heq|Hin]; [contradiction | exact Hin]. }
  destruct Hsome as [x ->]. eauto.
Qed.

(** The row stored by an insert holds the columns the server fills in. *)
Lemma row_item_stored (table column : string) (rows : list row) (r : row) :
  fills_in supabase table column ->
  exists v, row_item (stored_row supabase table rows r) column = Ret v.
Proof.
  intros Hfills. unfold row_item.
  assert (Hsome : is_Some (stored_row supabase table rows r !! column)).
  { unfold stored_row. apply lookup_union_is_Some. right.
    rewrite lookup_fmap. destruct (Hfills rows) as [v ->]. eauto. }
  destruct Hsome as [x ->]. eauto.
Qed.

Lemma succeeds_lift_ret {A B} (r : res A) (a : A) (k : A -> M remote B) :
  r = Ret a -> succeeds (k a) -> succeeds (bind (lift_res r) k).
Proof. intros -> Hk w. rewrite bind_lift_ret. apply Hk. Qed.

(** A query followed by what is done with its rows. *)
Lemma select_then {A} (table : string) (columns : list string) (conditions : list condition)
    (k : list row -> M remote A) :
  (forall i, fault supabase i = None) ->
  (forall rows, succeeds (k (map (project columns) rows))) ->
  succeeds (bind (execute supabase (Select table columns conditions)) k).
Proof.
  intros Hfault Hk w. unfold bind. rewrite (execute_ok supabase _ w (Hfault _)).
  cbn [apply_request snd]. apply Hk.
Qed.

Lemma upload_returns (P : platform) (raw_data bestbuy_data : gmap string value) :
  (forall i, fault supabase i = None) ->
  fills_in supabase "laptop_models" "id" ->
  fills_in supabase "laptop_variants" "id" ->
  fills_in supabase "laptop_variants" "shop_sku" ->
  uploadable raw_data ->
  succeeds (upload_to_database P supabase raw_data bestbuy_data).
Proof.
  intros Hfault Hmodel Hvariant Hsku Hraw.
  assert (Hint : exists v, extract_integrated_gpu P raw_data = Ret v).
  { unfold extract_integrated_gpu. destruct (integrated_fast_path raw_data); [eauto|].
    apply parse_gpus_returns. exact Hraw. }
  assert (Hded : exists v, extract_dedicated_gpu P raw_data = Ret v).
  { unfold extract_dedicated_gpu. destruct (dedicated_fast_path raw_data); [eauto|].
    apply parse_gpus_returns. exact Hraw. }
  assert (Hram : exists n, value_int (dict_get_or raw_data "ram_size_gb" (VInt 0)) = Ret n).
  { unfold dict_get_or. destruct Hraw as [_ [Hr | [n Hr]]]; rewrite Hr; cbn; eauto. }
  destruct Hint as [integrated_gpu Hint]. destruct Hded as [dedicated_gpu Hded].
  destruct Hram as [ram_gb Hram].
  unfold upload_to_database, has_dedicated_gpu. rewrite Hint, Hded, Hram.
  intros w. rewrite !bind_lift_ret. cbv zeta. revert w.
  apply succeeds_bind.
  - unfold find_or_create_model, model_query. apply succeeds_try_reraise.
    apply select_then; [exact Hfault|]. intros [|found rest]; cbn [map].
    + apply insert_then_first_row; [exact Hfault|]. intros rows.
      cbv beta.
      lazymatch goal with
      | |- succeeds (bind (lift_res (row_item (stored_row _ _ _ ?r) _)) _) =>
          destruct (row_item_stored "laptop_models" "id" rows r Hmodel) as [model_id Hid]
      end.
      apply (succeeds_lift_ret _ _ _ Hid). apply succeeds_ret.
    + destruct (row_item_project ["id"] found "id") as [model_id Hid]; [left; reflexivity|].
      apply (succeeds_lift_ret _ _ _ Hid). apply succeeds_ret.
  - intros [result | model_id]; [apply succeeds_ret|].
    apply succeeds_bind.
    { unfold save_hardware_data. apply succeeds_try_reraise.
      apply succeeds_bind; [apply (execute_succeeds _ Hfault) | intros _; apply succeeds_ret]. }
    intros _. intros w. rewrite bind_lift_ret. revert w.
    apply succeeds_bind.
    { unfold find_or_create_variant. cbv zeta. apply succeeds_try_reraise.
      apply select_then; [exact Hfault|]. intros [|found rest]; cbn [map].
      - apply insert_then_first_row; [exact Hfault|]. intros rows.
        cbv beta.
        lazymatch goal with
        | |- succeeds (bind (lift_res (row_item (stored_row _ _ _ ?r) _)) _) =>
            destruct (row_item_stored "laptop_variants" "id" rows r Hvariant)
              as [variant_id Hid];
            destruct (row_item_stored "laptop_variants" "shop_sku" rows r Hsku)
              as [shop_sku Hs]
        end.
        apply (succeeds_lift_ret _ _ _ Hid).
        apply (succeeds_lift_ret _ _ _ Hs). apply succeeds_ret.
      - destruct (row_item_project ["id"; "shop_sku"] found "id") as [variant_id Hid];
          [left; reflexivity|].
        apply (succeeds_lift_ret _ _ _ Hid).
        destruct (row_item_project ["id"; "shop_sku"] found "shop_sku") as [shop_sku Hs];
          [right; left; reflexivity|].
        apply (succeeds_lift_ret _ _ _ Hs). apply succeeds_ret. }
    intros [variant_id shop_sku].
    apply succeeds_bind.
    { unfold create_inventory. cbv zeta. apply succeeds_try_reraise.
      apply succeeds_bind; [apply (execute_succeeds _ Hfault) | intros _; apply succeeds_ret]. }
    intros _. apply succeeds_bind; [| intros _; apply succeeds_ret].
    unfold save_manual_fields. apply succeeds_try_reraise.
    destruct (1 <? length (manual_fields_of bestbuy_data variant_id))%nat;
      [| apply succeeds_ret].
    apply succeeds_bind; [apply (execute_succeeds _ Hfault) | intros _; apply succeeds_ret].
Qed.

End NoFault.

(** X17: what the detector hands over cannot make the uploader fail on
    its own.  After [detect_all], the mapping and the prompt, [gpus] is a
    list of lines or absent and [ram_size_gb] an integer or absent, so the
    GPU extraction and [int(...)] return; against a service that lets
    every request succeed and fills in the [id] of a new model and the [id]
    and [shop_sku] of a new variant, the columns read back from the
    responses, [upload_to_database] returns a result. *)
Theorem detected_bag_uploads (P : platform) (a : answers) (supabase : client) (w : remote) :
  (forall i, fault supabase i = None) ->
  fills_in supabase "laptop_models" "id" ->
  fills_in supabase "laptop_variants" "id" ->
  fills_in supabase "laptop_variants" "shop_sku" ->
  let self := (detect_and_prompt P a new_detector).2 in
  uploadable (raw_data self) /\
  exists result,
    (upload_to_database P supabase (raw_data self) (bestbuy_data self) w).1 = Ret result.
Proof.
  intros Hfault Hmodel Hvariant Hsku. cbv zeta.
  assert (Hshape : uploadable (raw_data (detect_and_prompt P a new_detector).2)).
  { apply (detect_and_prompt_uploadable P a new_detector).
    split; left; reflexivity. }
  split; [exact Hshape|].
  apply (upload_returns supabase P _ _ Hfault Hmodel Hvariant Hsku Hshape w).
Qed.

Lemma detected_bag_uploads_witness :
  let self := (detect_and_prompt bare_platform quiet_answers new_detector).2 in
  uploadable (raw_data self) /\
  exists result,
    (upload_to_database bare_platform plain_client (raw_data self) (bestbuy_data self)
       empty_remote).1 = Ret result.
Proof.
  apply (detected_bag_uploads bare_platform quiet_answers plain_client empty_remote).
  - intros i. reflexivity.
  - intros rows. eexists. reflexivity.
  - intros rows. eexists. reflexivity.
  - intros rows. eexists. reflexivity.
Defined.

(** A service that fills in nothing: the insert of the model succeeds and
    reading the [id] of the response raises [KeyError], after two
    requests. *)
Lemma service_without_id_raises :
  let run := upload_to_database bare_platform bare_client latitude prompted empty_remote in
  run.1 = Raise (KeyError "id") /\ length (requests run.2) = 2%nat.
Proof. vm_compute. split; reflexivity. Qed.

(** ** Further properties: the secrets file and [main] *)

Lemma existsb_find {A} (f : A -> bool) (l : list A) :
  existsb f l = true -> exists x, List.find f l = Some x.
Proof.
  induction l as [|x r IH]; cbn [existsb List.find]; [discriminate|].
  destruct (f x); [eauto | exact IH].
Qed.

Lemma missing_keys_none (secrets : json) (k : string) (rest : list string) :
  missing_keys secrets (k :: rest) = Ret [] ->
  json_contains secrets k = Ret true /\ missing_keys secrets rest = Ret [].
Proof.
  cbn [missing_keys].
  destruct (json_contains secrets k) as [e|present]; [discriminate|].
  destruct (missing_keys secrets rest) as [e|more]; [discriminate|].
  destruct present; [|discriminate]. intros H. inversion H; subst. auto.
Qed.

Lemma load_secrets_checked (path : string) (w w' : world) (secrets : json) :
  load_secrets path w = (Ret secrets, w') ->
  w' = w /\
  json_contains secrets "supabase_url" = Ret true /\
  json_contains secrets "supabase_anon_key" = Ret true.
Proof.
  intros Hload. pose proof (load_secrets_state path w) as Hstate.
  rewrite Hload in Hstate. cbn [snd] in Hstate. subst w'. split; [reflexivity|].
  unfold load_secrets, bind, get_state in Hload.
  destruct (files w !! path) as [[content|]|]; cbn [or_raise ret raise] in Hload;
    try discriminate.
  unfold lift_res in Hload.
  destruct (missing_keys content required_secrets) as [e|[|k r]] eqn:Hmissing;
    try discriminate.
  inversion Hload; subst content.
  apply missing_keys_none in Hmissing as [Hurl Hmissing].
  apply missing_keys_none in Hmissing as [Hkey _]. auto.
Qed.

(** X18: what the check of [load_secrets] guarantees to
    [create_supabase_client].  The secrets it returns are an object with
    both keys, and then the two subscripts succeed (no [KeyError]) and the
    outcome is that of [create_client]; or they are a JSON array or string
    that contains the two names, which passes the same check, and then the
    first subscript raises [TypeError].  The world is left as it was. *)
Theorem checked_secrets_reach_client (H : host) (path : string) (w w' : world)
    (secrets : json) :
  load_secrets path w = (Ret secrets, w') ->
  w' = w /\
  ((exists fields url key,
      secrets = JObj fields /\
      json_item secrets "supabase_url" = Ret url /\
      json_item secrets "supabase_anon_key" = Ret key /\
      create_supabase_client H secrets w = lift_res (create_client H url key) w) \/
   (((exists items, secrets = JArr items) \/ (exists text, secrets = JStr text)) /\
    create_supabase_client H secrets w = (Raise TypeError, w))).
Proof.
  intros Hload. apply load_secrets_checked in Hload as (-> & Hurl & Hkey).
  split; [reflexivity|].
  destruct secrets as [|b|q|negative| |text|items|fields]; try discriminate.
  - right. split; [right; eauto | reflexivity].
  - right. split; [left; eauto | reflexivity].
  - left. cbn [json_contains] in Hurl, Hkey.
    injection Hurl as Hurl'. injection Hkey as Hkey'.
    apply existsb_find in Hurl' as [[k1 url] Hfind1].
    apply existsb_find in Hkey' as [[k2 key] Hfind2].
    exists fields, url, key. unfold create_supabase_client, json_item.
    rewrite Hfind1, Hfind2. cbn [snd]. rewrite !bind_lift_ret.
    repeat split; reflexivity.
Qed.

Lemma checked_secrets_reach_client_witness :
  listed_world = listed_world /\
  ((exists fields url key,
      listed_secrets = JObj fields /\
      json_item listed_secrets "supabase_url" = Ret url /\
      json_item listed_secrets "supabase_anon_key" = Ret key /\
      create_supabase_client offline_host listed_secrets listed_world
      = lift_res (create_client offline_host url key) listed_world) \/
   (((exists items, listed_secrets = JArr items) \/ (exists text, listed_secrets = JStr text)) /\
    create_supabase_client offline_host listed_secrets listed_world
    = (Raise TypeError, listed_world))).
Proof.
  apply (checked_secrets_reach_client offline_host "secrets.json" listed_world listed_world
           listed_secrets).
  vm_compute. reflexivity.
Defined.

Lemma stable_on_service {A} (m : M remote A) : stable files (on_service m).
Proof. intros w. unfold on_service. destruct (m (service w)) as [r s]. reflexivity. Qed.

Lemma upload_results_keeps_files (P : platform) (H : host) (args : arguments)
    (self : detector) :
  stable files (upload_results P H args self).
Proof.
  unfold upload_results.
  apply stable_bind; [destruct (supabase_installed H); [apply stable_ret | apply stable_raise]|].
  intros _. apply stable_bind.
  { intros w. rewrite load_secrets_state. reflexivity. }
  intros loaded. apply stable_bind.
  { unfold create_supabase_client. stable_auto. }
  intros supabase. apply stable_on_service.
Qed.

Lemma save_results_other_files (H : host) (self : detector) (w : world) (path : string) :
  path <> "laptop_hardware_data.json" ->
  path <> "laptop_hardware_data_bestbuy_only.json" ->
  files (save_results H self default_output_file w).2 !! path = files w !! path.
Proof.
  intros H1 H2. unfold save_results. cbv zeta. rewrite bestbuy_only_default.
  unfold bind, write_file, modify, default_output_file. cbn [snd files].
  rewrite !lookup_insert_ne by congruence. reflexivity.
Qed.

Lemma fallback_saves (H : host) (self : detector) (e : exn) :
  fallback H self e = save_results H self default_output_file.
Proof.
  unfold fallback.
  destruct (is_ImportError e), (is_FileNotFoundError e), (is_ValueError e); reflexivity.
Qed.

(** X19: once the detection and the prompt have returned, [main] returns
    whatever happens next.  It writes no file other than the two output
    files (the secrets file is only read).  Without [--upload] it sends
    nothing to the service and writes both files; with [--upload], when
    the upload returns, it writes no file at all and leaves the service as
    the upload left it. *)
Theorem main_outcomes (P : platform) (H : host) (args : arguments) (a : answers) (w : world) :
  (detect_and_prompt P a new_detector).1 = Ret tt ->
  let self := (detect_and_prompt P a new_detector).2 in
  exists w',
    main P H args a w = (Ret tt, w') /\
    (forall path,
       path <> "laptop_hardware_data.json" ->
       path <> "laptop_hardware_data_bestbuy_only.json" ->
       files w' !! path = files w !! path) /\
    (upload args = false ->
     service w' = service w /\
     is_Some (files w' !! "laptop_hardware_data.json") /\
     is_Some (files w' !! "laptop_hardware_data_bestbuy_only.json")) /\
    (forall result w1,
       upload args = true ->
       upload_results P H args self w = (Ret result, w1) ->
       w' = w1 /\ files w' = files w).
Proof.
  intros Hdet. cbv zeta. unfold main.
  destruct (detect_and_prompt P a new_detector) as [[e|[]] self]; cbn [fst snd] in *;
    [discriminate|]. clear Hdet.
  destruct (upload args) eqn:Hupload.
  - pose proof (upload_results_keeps_files P H args self w) as Hfiles.
    unfold try_except, bind.
    destruct (upload_results P H args self w) as [[e|result] w1] eqn:Hrun;
      cbn [snd] in Hfiles.
    + rewrite fallback_saves.
      destruct (save_results_files H self w1) as (w' & Hsave & _ & _ & _).
      exists w'. split; [exact Hsave|]. split; [|split].
      * intros path H1 H2.
        pose proof (save_results_other_files H self w1 path H1 H2) as Hother.
        rewrite Hsave in Hother. cbn [snd] in Hother. rewrite Hother, Hfiles. reflexivity.
      * discriminate.
      * intros result w2 _ Hret. discriminate.
    + exists w1. split; [reflexivity|]. split; [|split].
      * intros path _ _. rewrite Hfiles. reflexivity.
      * discriminate.
      * intros result' w2 _ Hret. inversion Hret; subst. auto.
  - destruct (save_results_files H self w) as (w' & Hsave & Hservice & Hfile1 & Hfile2).
    exists w'. split; [exact Hsave|]. split; [|split].
    + intros path H1 H2.
      pose proof (save_results_other_files H self w path H1 H2) as Hother.
      rewrite Hsave in Hother. exact Hother.
    + intros _. auto.
    + discriminate.
Qed.

Lemma main_outcomes_witness :
  exists w',
    main bare_platform offline_host {| upload := false; secrets := "secrets.json" |}
      quiet_answers configured_world = (Ret tt, w') /\
    service w' = service configured_world /\
    files w' !! "secrets.json" = files configured_world !! "secrets.json".
Proof.
  destruct (main_outcomes bare_platform offline_host
              {| upload := false; secrets := "secrets.json" |} quiet_answers configured_world)
    as (w' & Hmain & Hother & Hlocal & _).
  - vm_compute. reflexivity.
  - exists w'. split; [exact Hmain|]. split.
    + apply Hlocal. reflexivity.
    + apply Hother; discriminate.
Defined.
(** ** Further properties: the screen size and the clock *)

(** X20: the size read from the EDID has the last word.  When the first
    EDID file found is decoded, its output holds
    [Maximum image size: w cm x h cm] and the diagonal of [w] and [h]
    centimetres is computed without an exception, [screen_size_inches] is
    that diagonal, whatever [xrandr] had given in millimetres and without
    the test for zero sides that guards the [xrandr] value. *)
Theorem edid_size_overrides (P : platform) (self : detector) (found edid_file : string)
    (rest g : list string) (width_cm height_cm : Z) (inches : PyFloat.binary64) :
  subprocess_run P "find /sys/class/drm -name edid" = Some found ->
  PyStr.split PyStr.newline (PyStr.strip found) = edid_file :: rest ->
  edid_file <> "" ->
  let edid_output := run_command_with_sudo P ("edid-decode " ++ edid_file) in
  edid_output <> "" ->
  re_search P "Maximum image size:\s*(\d+)\s*cm x\s*(\d+)\s*cm" edid_output = Some g ->
  PyNum.int (group 1 g) = Some width_cm ->
  PyNum.int (group 2 g) = Some height_cm ->
  diagonal_inches P width_cm height_cm (PyFloat.round64 2.54) = Ret inches ->
  raw_data (detect_display P self).2 !! "screen_size_inches" = Some (VFloat inches).
Proof.
  intros Hfind Hfiles Hfile. cbv zeta. intros Houtput Hmatch Hwidth Hheight Hinches.
  unfold detect_display.
  match goal with |- context [bind ?m ?k self] =>
    destruct (bind_succeeds m k self) as (a1 & s1 & _ & ->); [succeeds_auto|]
  end.
  assert (Hedid : forall s,
             decode_edid P edid_file s =
               (Ret true,
                (set_raw "screen_size_inches" (VFloat inches)
                   (set_raw "edid"
                      (VStr (run_command_with_sudo P ("edid-decode " ++ edid_file))) s).2).2)).
  { intros s. unfold decode_edid.
    apply String.eqb_neq in Hfile. rewrite Hfile. cbv zeta.
    apply String.eqb_neq in Houtput. rewrite Houtput.
    rewrite Hmatch. cbn [when_some]. unfold py_int. rewrite Hwidth, Hheight.
    cbv [bind or_raise ret]. rewrite Hinches. reflexivity. }
  unfold bind at 1.
  match goal with |- context [try_except ?m ?h s1] =>
    assert (Htry : try_except m h s1 =
                   (Ret tt,
                    (set_raw "screen_size_inches" (VFloat inches)
                       (set_raw "edid"
                          (VStr (run_command_with_sudo P ("edid-decode " ++ edid_file)))
                          s1).2).2))
  end.
  { unfold try_except, bind at 1, shell. rewrite Hfind. cbn [or_raise ret].
    rewrite Hfiles. cbn [for_break]. unfold bind at 1. rewrite Hedid. reflexivity. }
  rewrite Htry.
  match goal with |- raw_data (?m ?s).2 !! _ = _ =>
    assert (Hk : stable (fun self => raw_data self !! "screen_size_inches") m)
      by stable_auto;
    rewrite Hk
  end.
  cbn [set_raw modify snd raw_data]. apply lookup_insert_eq.
Qed.

Lemma edid_size_overrides_witness :
  exists inches,
    diagonal_inches edid_platform 31 17 (PyFloat.round64 2.54) = Ret inches /\
    raw_data (detect_display edid_platform new_detector).2 !! "screen_size_inches"
      = Some (VFloat inches).
Proof.
  eexists. split; [vm_compute; reflexivity|].
  apply (edid_size_overrides edid_platform new_detector "/sys/class/drm/card0-eDP-1/edid"
           "/sys/class/drm/card0-eDP-1/edid" [] ["31"; "17"] 31 17).
  - reflexivity.
  - vm_compute. reflexivity.
  - discriminate.
  - vm_compute. discriminate.
  - vm_compute. reflexivity.
  - vm_compute. reflexivity.
  - vm_compute. reflexivity.
  - vm_compute. reflexivity.
Defined.

(** Sides whose squares are beyond the floats make the power raise
    [OverflowError], whatever the platform; both uses sit in a [try]. *)
Lemma diagonal_beyond_floats (P : platform) (per_inch : PyFloat.binary64) :
  diagonal_inches P (10 ^ 200) 0 per_inch = Raise OverflowError.
Proof. vm_compute. reflexivity. Qed.

Lemma processor_speed_in_table :
  In ("_ProcessorSpeed_3886_CAT_1002_EN", RawOr "cpu_max_ghz" "cpu_speed_ghz") field_table.
Proof. unfold field_table. repeat (first [left; reflexivity | right]). Qed.

(** X21: the mapper and the uploader read the clock differently.  The
    mapper takes [cpu_max_ghz] whenever the key is there
    ([get(k, get(k'))]), the uploader whenever its value is truthy
    ([get(k) or get(k')]).  With a maximum of zero in the bag, the speed
    attribute is pruned from the marketplace set although a current clock
    is known, while the hardware row carries the current clock. *)
Theorem zero_max_clock_disagreement (P : platform) (raw : gmap string value)
    (max_ghz : value) (model_id integrated_gpu dedicated_gpu : value)
    (has_touchscreen has_dedicated : bool) :
  raw !! "cpu_max_ghz" = Some max_ghz ->
  truthy max_ghz = false ->
  bestbuy_fields P raw !! "_ProcessorSpeed_3886_CAT_1002_EN" = None /\
  row_get (hardware_data_of raw model_id has_touchscreen integrated_gpu dedicated_gpu
             has_dedicated) "cpu_speed_ghz"
  = dict_get raw "cpu_speed_ghz".
Proof.
  intros Hmax Hfalsy. split.
  - rewrite (fields_lookup P raw _ _ processor_speed_in_table).
    cbn [field_value]. unfold dict_get_or. rewrite Hmax. cbn [from_option id].
    rewrite Hfalsy. reflexivity.
  - unfold row_get, hardware_data_of, list_to_map. cbn [foldr fst snd].
    lookup_inserted. unfold py_or, dict_get, dict_get_or.
    rewrite Hmax. cbn [from_option id]. rewrite Hfalsy. reflexivity.
Qed.

Lemma zero_max_clock_disagreement_witness :
  bestbuy_fields bare_platform zero_max_clock !! "_ProcessorSpeed_3886_CAT_1002_EN" = None /\
  row_get (hardware_data_of zero_max_clock (VInt 1) false VNone VNone false) "cpu_speed_ghz"
  = dict_get zero_max_clock "cpu_speed_ghz".
Proof.
  apply (zero_max_clock_disagreement bare_platform zero_max_clock
           (VFloat (PyFloat.Finite 0)));
    vm_compute; reflexivity.
Defined.
